(** * SparkConnector widget: session registry and connection state machine

    Shallow embedding of [src/SparkConnector/src/widgets/sparkconnector.ts].
    The widget is event driven: every callback the source installs
    (focus change, session ready, connection status, comm open
    acknowledgement, comm close, comm message, the phase objects' user
    actions, kernel status, reconnect completion) is one constructor of
    [Event], and [step] runs the callback body on an explicit [World].

    What the host provides is kept as small as the source needs it: every
    document has one kernel, a signal runs every slot connected to it (a
    fresh closure is a new slot) and an error thrown inside a slot ends
    that slot only, [comm.send] appends to what went out on the comm and
    throws on a disposed comm, and the host decides when a continuation or
    an event happens. *)

From stdpp Require Import base strings gmap list functions.

Open Scope string_scope.
Open Scope list_scope.

Set Warnings "-register-all".

(** ** JSON values, as the untyped payloads the source passes around *)

(** [JUndefined] is the JavaScript [undefined] an index lookup yields for a
    missing property ([connectMessage['metadata']], [data.page]).  Numbers
    are never inspected by this source; they are carried as is. *)
Inductive JSON :=
| JUndefined
| JNull
| JBool (b : bool)
| JNum (z : Z)
| JStr (s : string)
| JArr (l : list JSON)
| JObj (l : list (string * JSON)).

Abbreviation JSONObject := (list (string * JSON)).

(** [o[k]] on an object (keys are distinct in an object; the first binding
    is the one read). *)
Fixpoint jget (o : JSONObject) (k : string) : JSON :=
  match o with
  | [] => JUndefined
  | (k', v) :: o' => if String.eqb k' k then v else jget o' k
  end.

(** [v.k] on an arbitrary value: [None] is the TypeError thrown on
    [undefined] and [null]; primitives and arrays have no such property. *)
Definition jprop (v : JSON) (k : string) : option JSON :=
  match v with
  | JUndefined | JNull => None
  | JObj o => Some (jget o k)
  | _ => Some JUndefined
  end.

(** [v === s], the comparison [switch] uses. *)
Definition strict_eq (v : JSON) (s : string) : bool :=
  match v with
  | JStr t => String.eqb t s
  | _ => false
  end.

(** [v == s] for the string literals of this source ('sparkconn-config',
    'sparkconn-auth', 'sparkconn-connected'): a string compares by content,
    an array is first joined with commas, so only a one-element array can
    match a comma-free literal; numbers, booleans, [null], [undefined] and
    plain objects never equal such a literal. *)
Fixpoint loose_eq (v : JSON) (s : string) : bool :=
  match v with
  | JStr t => String.eqb t s
  | JArr [x] => loose_eq x s
  | _ => false
  end.

(** ** Host types (from @jupyterlab/services) *)

Inductive ConnectionStatus := cs_connected | cs_connecting | cs_disconnected.

Inductive KernelStatus :=
| ks_unknown | ks_starting | ks_idle | ks_busy | ks_terminating
| ks_restarting | ks_autorestarting | ks_dead.

Definition is_connected (s : ConnectionStatus) : bool :=
  match s with cs_connected => true | _ => false end.

Definition is_restarting (s : KernelStatus) : bool :=
  match s with ks_restarting => true | _ => false end.

(** ** Phase objects *)

(** The values [currentState] can hold: the two members of
    [UndefinedStates], or one of the four members of the [NotebookStates]
    bundle of a [NotebookComm] (identified by its index in the store). *)
Inductive IState :=
| st_notattached
| st_loading
| st_configuring (c : nat)
| st_connecting (c : nat)
| st_connected (c : nat)
| st_connectfailed (c : nat).

(** Modelled from the spec: [IState.name()] is implemented in the phase
    classes (./notattached, ./loading, ./configuring, ./connecting,
    ./connected, ./connectfailed), which are missing; each phase has "a
    stable name string", and the source compares it with 'connected' and
    'connecting'. *)
Definition name (st : IState) : string :=
  match st with
  | st_notattached => "notattached"
  | st_loading => "loading"
  | st_configuring _ => "configuring"
  | st_connecting _ => "connecting"
  | st_connected _ => "connected"
  | st_connectfailed _ => "connectfailed"
  end.

(** What the slot connected to [configuring.onConnect] captures from the
    message being handled ([title], [data.sparkversion], [data.cluster]);
    [notebookComm] and [notebookPanel] are fixed by the bundle itself. *)
Record ConnectSlot := mkConnectSlot {
  slot_title : string;
  slot_sparkversion : JSON;
  slot_cluster : JSON;
}.

Record ConfigurationInit := mkConfigurationInit {
  ci_title : string;
  ci_maxmemory : JSON;
  ci_sparkversion : JSON;
  ci_cluster : JSON;
  ci_currentConfig : JSON;
  ci_availableoptions : JSON;
  ci_availablebundles : JSON;
}.

(** Modelled from the spec: the four phase classes are missing.  Each is a
    "pure data/notification holder": [init] (re)populates its data from
    the triggering message, [log] appends a line, and the one outgoing
    notification keeps the slots connected to it, every one of which runs
    when the notification fires.  [onConnect] keeps its slots in connection
    order; the slots of the two [onReconfigure] notifications capture
    nothing that varies, so their number is kept. *)
Record ConfigurationState := mkConfigurationState {
  configuring_init : option ConfigurationInit;
  onConnect : list ConnectSlot;
}.

Record ConnectingState := mkConnectingState {
  connecting_init : option (string * JSON * JSON);
  connecting_log : list JSON;
}.

Record ConnectedState := mkConnectedState {
  connected_init : option (string * JSON);
  connected_log : list JSON;
  connected_onReconfigure : nat;
}.

Record ConnectFailedState := mkConnectFailedState {
  connectfailed_init : option (string * JSON);
  connectfailed_onReconfigure : nat;
}.

Record NotebookStates := mkNotebookStates {
  configuring : ConfigurationState;
  connecting : ConnectingState;
  connected : ConnectedState;
  connectfailed : ConnectFailedState;
}.

(** [new NotebookStates()] *)
Definition new_NotebookStates : NotebookStates :=
  mkNotebookStates (mkConfigurationState None [])
                   (mkConnectingState None [])
                   (mkConnectedState None [] 0)
                   (mkConnectFailedState None 0).

(** ** Channels *)

(** What went out on a comm: the [comm_open] carrying the handshake, or a
    [comm_msg] produced by [send]. *)
Inductive Outbound :=
| CommOpen (data : JSONObject)
| CommSend (data : JSONObject).

Definition payload (o : Outbound) : JSONObject :=
  match o with CommOpen d | CommSend d => d end.

(** [IComm] together with the environment of the two callbacks [create]
    installs on it: [registry] is the [StateHandler] instance ([this] of
    the arrow functions) whose map they update, [open_done] tells whether
    the [done] promise of [comm.open] has resolved. *)
Record IComm := mkIComm {
  isDisposed : bool;
  open_done : bool;
  sent : list Outbound;
  registry : nat;
}.

Record NotebookComm := mkNotebookComm {
  notebook : string;
  states : NotebookStates;
  comm : IComm;
}.

(** ** Documents *)

(** A [NotebookPanel] with the one kernel of its session: its title and
    metadata, the kernel's connection status, the number of slots this
    widget connected to [kernel.connectionStatusChanged] and to
    [kernel.statusChanged], the continuations waiting on
    [sessionContext.ready], and the [reconnect()] and [restart()] requests
    made so far. *)
Record Notebook := mkNotebook {
  title : string;
  metadata : gmap string JSON;
  connectionStatus : ConnectionStatus;
  connectionStatusChanged : nat;
  statusChanged : nat;
  ready_then : nat;
  reconnect_calls : nat;
  restart_calls : nat;
}.

(** ** The widget and its surroundings *)

(** [handlers] holds every [StateHandler] map ever allocated and
    [statehandler] is the index of the one [this.statehandler] points to;
    callbacks of older comms keep updating the instance that created them.
    [update_calls] counts [this.update()], [currentChanged] the slots
    connected to [notebooks.currentChanged], and [reconnect_then] the
    pending continuations of [kernel.reconnect().then(...)] that reset the
    widget. *)
Record World := mkWorld {
  currentWidget : option string;
  panels : string -> Notebook;
  comms : list NotebookComm;
  handlers : list (gmap string nat);
  statehandler : nat;
  currentState : IState;
  update_calls : nat;
  currentChanged : nat;
  reconnect_then : nat;
}.

Definition set_currentWidget (x : option string) (w : World) : World :=
  mkWorld x (panels w) (comms w) (handlers w) (statehandler w)
          (currentState w) (update_calls w) (currentChanged w) (reconnect_then w).

Definition set_panels (x : string -> Notebook) (w : World) : World :=
  mkWorld (currentWidget w) x (comms w) (handlers w) (statehandler w)
          (currentState w) (update_calls w) (currentChanged w) (reconnect_then w).

Definition set_comms (x : list NotebookComm) (w : World) : World :=
  mkWorld (currentWidget w) (panels w) x (handlers w) (statehandler w)
          (currentState w) (update_calls w) (currentChanged w) (reconnect_then w).

Definition set_handlers (x : list (gmap string nat)) (w : World) : World :=
  mkWorld (currentWidget w) (panels w) (comms w) x (statehandler w)
          (currentState w) (update_calls w) (currentChanged w) (reconnect_then w).

Definition set_reconnect_then (x : nat) (w : World) : World :=
  mkWorld (currentWidget w) (panels w) (comms w) (handlers w) (statehandler w)
          (currentState w) (update_calls w) (currentChanged w) x.

Definition upd_panel (nb : string) (f : Notebook -> Notebook) (w : World) : World :=
  set_panels (<[nb := f (panels w nb)]> (panels w)) w.

Definition upd_comm (c : nat) (f : NotebookComm -> NotebookComm) (w : World) : World :=
  set_comms (alter f c (comms w)) w.

Definition set_metadata (m : gmap string JSON) (n : Notebook) : Notebook :=
  mkNotebook (title n) m (connectionStatus n) (connectionStatusChanged n)
             (statusChanged n) (ready_then n) (reconnect_calls n) (restart_calls n).

Definition set_connectionStatus (s : ConnectionStatus) (n : Notebook) : Notebook :=
  mkNotebook (title n) (metadata n) s (connectionStatusChanged n)
             (statusChanged n) (ready_then n) (reconnect_calls n) (restart_calls n).

Definition connect_connectionStatusChanged (n : Notebook) : Notebook :=
  mkNotebook (title n) (metadata n) (connectionStatus n) (S (connectionStatusChanged n))
             (statusChanged n) (ready_then n) (reconnect_calls n) (restart_calls n).

Definition connect_statusChanged (n : Notebook) : Notebook :=
  mkNotebook (title n) (metadata n) (connectionStatus n) (connectionStatusChanged n)
             (S (statusChanged n)) (ready_then n) (reconnect_calls n) (restart_calls n).

Definition set_ready_then (k : nat) (n : Notebook) : Notebook :=
  mkNotebook (title n) (metadata n) (connectionStatus n) (connectionStatusChanged n)
             (statusChanged n) k (reconnect_calls n) (restart_calls n).

Definition reconnect (n : Notebook) : Notebook :=
  mkNotebook (title n) (metadata n) (connectionStatus n) (connectionStatusChanged n)
             (statusChanged n) (ready_then n) (S (reconnect_calls n)) (restart_calls n).

Definition restart (n : Notebook) : Notebook :=
  mkNotebook (title n) (metadata n) (connectionStatus n) (connectionStatusChanged n)
             (statusChanged n) (ready_then n) (reconnect_calls n) (S (restart_calls n)).

Definition set_states (x : NotebookStates) (nc : NotebookComm) : NotebookComm :=
  mkNotebookComm (notebook nc) x (comm nc).

Definition set_comm (x : IComm) (nc : NotebookComm) : NotebookComm :=
  mkNotebookComm (notebook nc) (states nc) x.

(** What a [comm.send(data)] that goes through leaves on the comm. *)
Definition record_send (data : JSONObject) (nc : NotebookComm) : NotebookComm :=
  set_comm (mkIComm (isDisposed (comm nc)) (open_done (comm nc))
                    (sent (comm nc) ++ [CommSend data]) (registry (comm nc))) nc.

(** [comm.send(data)]: the host throws ('Cannot send') once the comm is
    disposed, here [None]; otherwise the message goes out. *)
Definition send (data : JSONObject) (nc : NotebookComm) : option NotebookComm :=
  if isDisposed (comm nc) then None else Some (record_send data nc).

Definition resolve_done (nc : NotebookComm) : NotebookComm :=
  set_comm (mkIComm (isDisposed (comm nc)) true (sent (comm nc)) (registry (comm nc))) nc.

Definition dispose (nc : NotebookComm) : NotebookComm :=
  set_comm (mkIComm true (open_done (comm nc)) (sent (comm nc)) (registry (comm nc))) nc.

Definition set_configuring (x : ConfigurationState) (s : NotebookStates) : NotebookStates :=
  mkNotebookStates x (connecting s) (connected s) (connectfailed s).

Definition set_connecting (x : ConnectingState) (s : NotebookStates) : NotebookStates :=
  mkNotebookStates (configuring s) x (connected s) (connectfailed s).

Definition set_connected (x : ConnectedState) (s : NotebookStates) : NotebookStates :=
  mkNotebookStates (configuring s) (connecting s) x (connectfailed s).

Definition set_connectfailed (x : ConnectFailedState) (s : NotebookStates) : NotebookStates :=
  mkNotebookStates (configuring s) (connecting s) (connected s) x.

(** The messages the source builds. *)
Definition msg_open : JSONObject :=
  [("type", JStr "action"); ("action", JStr "sparkconn-action-open")].

Definition msg_connect (connectMessage : JSONObject) : JSONObject :=
  [("type", JStr "action"); ("action", JStr "sparkconn-action-connect");
   ("action-data", JObj [("options", jget connectMessage "options")])].

Definition msg_disconnect_connected : JSONObject :=
  [("type", JStr "action"); ("action", JStr "sparkconn-action-disconnect")].

Definition msg_disconnect_connectfailed : JSONObject :=
  [("action", JStr "sparkconn-action-disconnect")].

(** ** StateHandler *)

Module StateHandler.

(** [this.states] of the instance [this]. *)
Definition states_of (this : nat) (w : World) : gmap string nat :=
  default ∅ (handlers w !! this).

(** [None] is the TypeError of [currentWidget.id] when nothing is
    focused. *)
Definition canOpen (notebookId : string) (w : World) : option bool :=
  match currentWidget w with
  | Some id => Some (String.eqb notebookId id)
  | None => None
  end.

Definition has (this : nat) (notebookId : string) (w : World) : bool :=
  bool_decide (is_Some (states_of this w !! notebookId)).

(** [open] looks the session up and returns it when its comm is
    disposed; otherwise it falls off the end (the send is commented out
    in the source) and returns [undefined], here [Some None].  The outer
    [None] is the TypeError of [notebookComm.comm] when the map has no
    such session.  It changes nothing. *)
Definition open (this : nat) (notebookId : string) (w : World) : option (option nat) :=
  match states_of this w !! notebookId with
  | Some c =>
      match comms w !! c with
      | Some nc => if isDisposed (comm nc) then Some (Some c) else Some None
      | None => None
      end
  | None => None
  end.

(** [create] opens a comm with the handshake and returns the new
    bundle; registration waits for the [done] promise ([open_done]). *)
Definition create (this : nat) (nb : string) (w : World) : nat * World :=
  let notebookComm :=
    mkNotebookComm nb new_NotebookStates
                   (mkIComm false false [CommOpen msg_open] this) in
  (length (comms w), set_comms (comms w ++ [notebookComm]) w).

(** The continuation of [comm.open(...).done]. *)
Definition create_done (c : nat) (nc : NotebookComm) (w : World) : World :=
  set_handlers (alter (insert (notebook nc) c) (registry (comm nc)) (handlers w)) w.

(** [comm.onClose] as installed by [create]. *)
Definition create_onClose (nc : NotebookComm) (w : World) : World :=
  set_handlers (alter (delete (notebook nc)) (registry (comm nc)) (handlers w)) w.

Definition close (this : nat) (notebookId : string) (w : World) : World :=
  set_handlers (alter (delete notebookId) this (handlers w)) w.

Definition clear (this : nat) (w : World) : World :=
  set_handlers (alter (fun _ => ∅) this (handlers w)) w.

End StateHandler.

(** ** SparkConnector *)

Definition updateCurrent (state : IState) (w : World) : World :=
  mkWorld (currentWidget w) (panels w) (comms w) (handlers w) (statehandler w)
          state (S (update_calls w)) (currentChanged w) (reconnect_then w).

Definition default_config : JSON :=
  JObj [("bundled_options", JArr []); ("list_of_options", JArr [])].

(** Modelled from the spec: the Document Metadata Store behind
    [notebookPanel.model.metadata] belongs to the host; its interface is
    [get(key) -> value | absent] and [set(key, value)], with [has] telling
    whether a value is present. *)
Definition metadata_has (key : string) (n : Notebook) : bool :=
  bool_decide (is_Some (metadata n !! key)).

Definition metadata_get (key : string) (n : Notebook) : JSON :=
  default JUndefined (metadata n !! key).

Definition metadata_set (key : string) (value : JSON) (n : Notebook) : Notebook :=
  set_metadata (<[key := value]> (metadata n)) n.

Definition getCurrentConfigFromNotebook (n : Notebook) : JSON :=
  if metadata_has "sparkconnect" n then metadata_get "sparkconnect" n
  else default_config.

Definition setCurrentConfigToNotebook (config : JSON) (n : Notebook) : Notebook :=
  metadata_set "sparkconnect" config n.

(** [notebookComm.comm.send(data)] for bundle [c] of the store; [None] is
    the error thrown by [send]. *)
Definition comm_send (c : nat) (data : JSONObject) (w : World) : option World :=
  match comms w !! c with
  | Some nc =>
      match send data nc with
      | Some nc' => Some (upd_comm c (fun _ => nc') w)
      | None => None
      end
  | None => None
  end.

(** [connecting.init(title, sparkversion, cluster)] with what a connect
    slot captured. *)
Definition connecting_init_by (slot : ConnectSlot) (nc : NotebookComm) : NotebookComm :=
  set_states (set_connecting
    (mkConnectingState
       (Some (slot_title slot, slot_sparkversion slot, slot_cluster slot))
       (connecting_log (connecting (states nc))))
    (states nc)) nc.

(** One slot of [configuring.onConnect] of bundle [c], fired with
    [connectMessage].  The send is its last statement: when it throws, the
    slot has done everything else. *)
Definition onConnect_slot (c : nat) (connectMessage : JSONObject)
    (w : World) (slot : ConnectSlot) : World :=
  match comms w !! c with
  | None => w
  | Some nc =>
      let w1 := upd_comm c (connecting_init_by slot) w in
      let w2 := updateCurrent (st_connecting c) w1 in
      let w3 := upd_panel (notebook nc)
                  (setCurrentConfigToNotebook (jget connectMessage "metadata")) w2 in
      match comm_send c (msg_connect connectMessage) w3 with
      | Some w4 => w4
      | None => w3
      end
  end.

(** One slot of [connected.onReconfigure] of bundle [c].  When the send
    throws, the slot ends before [kernel.restart()]. *)
Definition connected_onReconfigure_slot (c : nat) (w : World) : World :=
  match comms w !! c with
  | None => w
  | Some nc =>
      let w1 := updateCurrent st_loading w in
      match comm_send c msg_disconnect_connected w1 with
      | Some w2 => upd_panel (notebook nc) restart w2
      | None => w1
      end
  end.

(** One slot of [connectfailed.onReconfigure] of bundle [c].  When the
    send throws, the slot ends before [kernel.restart()]. *)
Definition connectfailed_onReconfigure_slot (c : nat) (w : World) : World :=
  match comms w !! c with
  | None => w
  | Some nc =>
      let w1 := updateCurrent st_loading w in
      match comm_send c msg_disconnect_connectfailed w1 with
      | Some w2 => upd_panel (notebook nc) restart w2
      | None => w1
      end
  end.

(** [onCommMessage(message, notebookComm.notebook, notebookComm, kernel)]
    with [data = message.content.data] and [c] the bundle's index.  A
    TypeError while the arguments of [connected.init] are evaluated
    ([data.config] missing) leaves the handler before it changed
    anything. *)
Definition onCommMessage (data : JSONObject) (c : nat) (nc : NotebookComm)
    (w : World) : World :=
  let title := title (panels w (notebook nc)) in
  let msgtype := jget data "msgtype" in
  if strict_eq msgtype "sparkconn-action-open" then
    let page := jget data "page" in
    if loose_eq page "sparkconn-config" then
      let currentConfig := getCurrentConfigFromNotebook (panels w (notebook nc)) in
      let w1 := upd_comm c (fun nc =>
                  set_states (set_configuring
                    (mkConfigurationState
                       (Some (mkConfigurationInit title (jget data "maxmemory")
                                (jget data "sparkversion") (jget data "cluster")
                                currentConfig (jget data "availableoptions")
                                (jget data "availablebundles")))
                       (onConnect (configuring (states nc)) ++
                          [mkConnectSlot title (jget data "sparkversion")
                                         (jget data "cluster")]))
                    (states nc)) nc) w in
      updateCurrent (st_configuring c) w1
    else if loose_eq page "sparkconn-auth" then w
    else if loose_eq page "sparkconn-connected" then w
    else w
  else if strict_eq msgtype "sparkconn-connected" then
    match jprop (jget data "config") "sparkhistoryserver" with
    | None => w
    | Some sparkhistoryserver =>
        let w1 := upd_comm c (fun nc =>
                    set_states (set_connected
                      (mkConnectedState (Some (title, sparkhistoryserver))
                         (connected_log (connected (states nc)))
                         (connected_onReconfigure (connected (states nc))))
                      (states nc)) nc) w in
        let w2 := upd_panel (notebook nc) connect_statusChanged w1 in
        let w3 := upd_comm c (fun nc =>
                    set_states (set_connected
                      (mkConnectedState (connected_init (connected (states nc)))
                         (connected_log (connected (states nc)))
                         (S (connected_onReconfigure (connected (states nc)))))
                      (states nc)) nc) w2 in
        updateCurrent (st_connected c) w3
    end
  else if strict_eq msgtype "sparkconn-config" then w
  else if strict_eq msgtype "sparkconn-connect-error" then
    let w1 := upd_comm c (fun nc =>
                set_states (set_connectfailed
                  (mkConnectFailedState (Some (title, jget data "error"))
                     (S (connectfailed_onReconfigure (connectfailed (states nc)))))
                  (states nc)) nc) w in
    updateCurrent (st_connectfailed c) w1
  else if strict_eq msgtype "sparkconn-action-follow-log" then
    if String.eqb (name (currentState w)) "connected" then
      upd_comm c (fun nc =>
        set_states (set_connected
          (mkConnectedState (connected_init (connected (states nc)))
             (connected_log (connected (states nc)) ++ [jget data "msg"])
             (connected_onReconfigure (connected (states nc))))
          (states nc)) nc) w
    else if String.eqb (name (currentState w)) "connecting" then
      upd_comm c (fun nc =>
        set_states (set_connecting
          (mkConnectingState (connecting_init (connecting (states nc)))
             (connecting_log (connecting (states nc)) ++ [jget data "msg"]))
          (states nc)) nc) w
    else w
  else w.

(** [comm.onMsg] as installed by the 'connected' branch: the focus filter,
    then [onCommMessage]. *)
Definition onMsg (data : JSONObject) (c : nat) (nc : NotebookComm) (w : World) : World :=
  match currentWidget w with
  | None => w
  | Some id =>
      if negb (String.eqb id (notebook nc)) then w
      else onCommMessage data c nc w
  end.

(** The slot connected to [kernel.connectionStatusChanged] for [nbPanel]. *)
Definition onConnectionStatusChanged (nbPanel : string) (status : ConnectionStatus)
    (w : World) : World :=
  match status with
  | cs_connected => snd (StateHandler.create (statehandler w) nbPanel w)
  | cs_connecting =>
      StateHandler.close (statehandler w) nbPanel (updateCurrent st_loading w)
  | _ => updateCurrent st_notattached w
  end.

(** The continuation of [nbPanel.sessionContext.ready]. *)
Definition onReady (nbPanel : string) (w : World) : World :=
  let w1 :=
    if StateHandler.has (statehandler w) nbPanel w then
      let _ := StateHandler.open (statehandler w) nbPanel w in w
    else if is_connected (connectionStatus (panels w nbPanel)) then
      upd_panel nbPanel reconnect w
    else w in
  upd_panel nbPanel connect_connectionStatusChanged w1.

(** One slot connected to [notebooks.currentChanged]. *)
Definition onCurrentChanged (nbPanel : option string) (w : World) : World :=
  match nbPanel with
  | None => updateCurrent st_notattached w
  | Some nb =>
      let w1 := updateCurrent st_loading w in
      upd_panel nb (fun n => set_ready_then (S (ready_then n)) n) w1
  end.

(** One slot connected to [kernel.statusChanged] by a 'sparkconn-connected'
    message. *)
Definition onStatusChanged (nb : string) (status : KernelStatus) (w : World) : World :=
  if is_restarting status then
    set_reconnect_then (S (reconnect_then w)) (upd_panel nb reconnect w)
  else w.

(** [initStateHandling()]: the direct assignment to [currentState] and one
    more slot on [notebooks.currentChanged]. *)
Definition initStateHandling (w : World) : World :=
  mkWorld (currentWidget w) (panels w) (comms w) (handlers w) (statehandler w)
          st_notattached (update_calls w) (S (currentChanged w)) (reconnect_then w).

(** [this.statehandler = new StateHandler(this.notebooks)] *)
Definition new_StateHandler (w : World) : World :=
  mkWorld (currentWidget w) (panels w) (comms w) (handlers w ++ [∅])
          (length (handlers w))
          (currentState w) (update_calls w) (currentChanged w) (reconnect_then w).

(** The continuation of [kernel.reconnect()] in the [statusChanged] slot. *)
Definition onReconnected (w : World) : World :=
  initStateHandling (new_StateHandler w).

(** The constructor, for a host whose tracker currently has [current]
    focused and whose documents are [docs] (title, metadata, connection
    status). *)
Definition constructor (current : option string)
    (docs : string -> string * gmap string JSON * ConnectionStatus) : World :=
  initStateHandling
    (mkWorld current
             (fun id => mkNotebook (docs id).1.1 (docs id).1.2 (docs id).2 0 0 0 0 0)
             [] [∅] 0 st_notattached 0 0 0).

(** ** Events *)

Inductive Event :=
| CurrentChanged (nbPanel : option string)
| SessionReady (nbPanel : string)
| ConnectionStatusChanged (nbPanel : string) (status : ConnectionStatus)
| OpenDone (c : nat)
| CommClose (c : nat)
| CommMsg (c : nat) (data : JSONObject)
| EmitConnect (c : nat) (connectMessage : JSONObject)
| EmitReconfigureConnected (c : nat)
| EmitReconfigureConnectFailed (c : nat)
| StatusChanged (nbPanel : string) (status : KernelStatus)
| Reconnected.

Definition step (w : World) (e : Event) : World :=
  match e with
  | CurrentChanged nbPanel =>
      Nat.iter (currentChanged w) (onCurrentChanged nbPanel)
               (set_currentWidget nbPanel w)
  | SessionReady nbPanel =>
      match ready_then (panels w nbPanel) with
      | 0 => w
      | S k => onReady nbPanel (upd_panel nbPanel (set_ready_then k) w)
      end
  | ConnectionStatusChanged nbPanel status =>
      Nat.iter (connectionStatusChanged (panels w nbPanel))
               (onConnectionStatusChanged nbPanel status)
               (upd_panel nbPanel (set_connectionStatus status) w)
  | OpenDone c =>
      match comms w !! c with
      | None => w
      | Some nc =>
          if open_done (comm nc) then w
          else StateHandler.create_done c nc (upd_comm c resolve_done w)
      end
  | CommClose c =>
      match comms w !! c with
      | None => w
      | Some nc => StateHandler.create_onClose nc (upd_comm c dispose w)
      end
  | CommMsg c data =>
      match comms w !! c with
      | None => w
      | Some nc => onMsg data c nc w
      end
  | EmitConnect c connectMessage =>
      match comms w !! c with
      | None => w
      | Some nc =>
          foldl (onConnect_slot c connectMessage) w (onConnect (configuring (states nc)))
      end
  | EmitReconfigureConnected c =>
      match comms w !! c with
      | None => w
      | Some nc =>
          Nat.iter (connected_onReconfigure (connected (states nc)))
                   (connected_onReconfigure_slot c) w
      end
  | EmitReconfigureConnectFailed c =>
      match comms w !! c with
      | None => w
      | Some nc =>
          Nat.iter (connectfailed_onReconfigure (connectfailed (states nc)))
                   (connectfailed_onReconfigure_slot c) w
      end
  | StatusChanged nbPanel status =>
      Nat.iter (statusChanged (panels w nbPanel)) (onStatusChanged nbPanel status) w
  | Reconnected =>
      match reconnect_then w with
      | 0 => w
      | S k => onReconnected (set_reconnect_then k w)
      end
  end.

Definition run (w : World) (es : list Event) : World := foldl step w es.

(** Promise continuations (session ready, comm open acknowledged,
    reconnect completed) run between the events of the three event sources
    and the user actions. *)
Definition is_continuation (e : Event) : bool :=
  match e with
  | SessionReady _ | OpenDone _ | Reconnected => true
  | _ => false
  end.

(** The displayed phase after each event of a run that is not a
    continuation. *)
Fixpoint displayed (w : World) (es : list Event) : list IState :=
  match es with
  | [] => []
  | e :: es' =>
      if is_continuation e then displayed (step w e) es'
      else currentState (step w e) :: displayed (step w e) es'
  end.

(** ** Vocabulary of the properties *)

(** The session registry the widget currently uses. *)
Definition session (w : World) (nb : string) : option nat :=
  StateHandler.states_of (statehandler w) w !! nb.

(** The wire envelope: a [type] field holding 'action' and an action name. *)
Definition has_type_action (m : JSONObject) : bool :=
  strict_eq (jget m "type") "action".

Definition has_action_name (m : JSONObject) : bool :=
  match jget m "action" with JStr _ => true | _ => false end.

Definition is_envelope (m : JSONObject) : bool :=
  has_type_action m && has_action_name m.

(** The [SparkOpt] and [SparkconnectMetadata] interfaces, as checks on a
    value. *)
Definition is_string (v : JSON) : bool :=
  match v with JStr _ => true | _ => false end.

Definition is_SparkOpt (v : JSON) : bool :=
  match v with
  | JObj o => is_string (jget o "name") && is_string (jget o "value")
  | _ => false
  end.

Definition is_SparkconnectMetadata (v : JSON) : bool :=
  match v with
  | JObj o =>
      match jget o "bundled_options", jget o "list_of_options" with
      | JArr b, JArr l => forallb is_string b && forallb is_SparkOpt l
      | _, _ => false
      end
  | _ => false
  end.

(** An incoming message that enters Configuring. *)
Definition is_open_config (data : JSONObject) : bool :=
  strict_eq (jget data "msgtype") "sparkconn-action-open"
  && loose_eq (jget data "page") "sparkconn-config".

Definition is_connected_msg (data : JSONObject) : bool :=
  strict_eq (jget data "msgtype") "sparkconn-connected"
  && bool_decide (is_Some (jprop (jget data "config") "sparkhistoryserver")).

Definition is_connect_error (data : JSONObject) : bool :=
  strict_eq (jget data "msgtype") "sparkconn-connect-error".

(** The saved configuration Configuring of bundle [c] was last
    initialised with. *)
Definition seed (w : World) (c : nat) : option JSON :=
  nc ← comms w !! c;
  ci ← configuring_init (configuring (states nc));
  Some (ci_currentConfig ci).

(** What bundle [c] has put on its comm. *)
Definition sent_on (w : World) (c : nat) : list Outbound :=
  match comms w !! c with
  | Some nc => sent (comm nc)
  | None => []
  end.

(** A step either leaves the displayed phase and the number of [update()]
    calls alone, or went through [updateCurrent]. *)
Definition via_updateCurrent (w w' : World) : Prop :=
  (currentState w' = currentState w ∧ update_calls w' = update_calls w)
  ∨ update_calls w < update_calls w'.

(** Worlds the widget can be in. *)
Definition reachable (w : World) : Prop :=
  ∃ current docs es, w = run (constructor current docs) es.

(** ** Scenarios *)

Definition docs_demo : string -> string * gmap string JSON * ConnectionStatus :=
  fun id => (id, ∅, cs_disconnected).

Definition msg_config : JSONObject :=
  [("msgtype", JStr "sparkconn-action-open"); ("page", JStr "sparkconn-config");
   ("maxmemory", JStr "8g"); ("sparkversion", JStr "3.3"); ("cluster", JStr "k8s")].

Definition msg_connected : JSONObject :=
  [("msgtype", JStr "sparkconn-connected");
   ("config", JObj [("sparkhistoryserver", JStr "http://h")])].

Definition msg_error : JSONObject :=
  [("msgtype", JStr "sparkconn-connect-error"); ("error", JStr "timeout")].

Definition cfg_demo : JSON :=
  JObj [("bundled_options", JArr [JStr "b1"]);
        ("list_of_options",
         JArr [JObj [("name", JStr "spark.executor.memory"); ("value", JStr "2g")]])].

Definition connect_demo : JSONObject :=
  [("metadata", cfg_demo); ("options", JObj [("spark.executor.memory", JStr "2g")])].

(** Focus on D, session ready, transport connected: comm 0 is created. *)
Definition attach (nb : string) : list Event :=
  [CurrentChanged (Some nb); SessionReady nb; ConnectionStatusChanged nb cs_connected].

Definition w_created : World := run (constructor None docs_demo) (attach "D").

Definition w_registered : World := step w_created (OpenDone 0).

(** ** Statements of the specification, as read here *)

(** "An open channel handle for D exists": a comm created for D whose
    open was acknowledged and which is not disposed. *)
Definition open_channel (w : World) (D : string) : Prop :=
  ∃ c nc, comms w !! c = Some nc ∧ notebook nc = D
          ∧ open_done (comm nc) = true ∧ isDisposed (comm nc) = false.

(** "The ready continuation re-issues the open handshake on the channel of
    the registered session". *)
Definition reissues_open (w : World) (nb : string) : Prop :=
  ∀ c, session w nb = Some c →
       ∃ m, sent_on (step w (SessionReady nb)) c = sent_on w c ++ [m]
            ∧ payload m = msg_open.

(** An outbound message is a proper envelope, or is the disconnect that
    ConnectFailed's reconfigure slot sends. *)
Definition sent_ok (o : Outbound) : Prop :=
  is_envelope (payload o) = true ∨ o = CommSend msg_disconnect_connectfailed.

Definition all_sent_ok (w : World) : Prop :=
  Forall (λ nc, Forall sent_ok (sent (comm nc))) (comms w).

Definition keeps_sent_ok (w w' : World) : Prop := all_sent_ok w → all_sent_ok w'.

(** ** Relations between the worlds before and after an event *)

(** What never changes on a bundle: its document and the registry its
    callbacks update; an acknowledged open stays acknowledged. *)
Definition comm_le (nc nc' : NotebookComm) : Prop :=
  notebook nc' = notebook nc ∧ registry (comm nc') = registry (comm nc)
  ∧ (open_done (comm nc) = true → open_done (comm nc') = true).

(** Events that neither create a comm nor touch a registry. *)
Definition frame (w w' : World) : Prop :=
  Forall2 comm_le (comms w) (comms w')
  ∧ handlers w' = handlers w ∧ statehandler w' = statehandler w
  ∧ ∀ D, (connectionStatusChanged (panels w D) ≤ connectionStatusChanged (panels w' D))%nat.

(** The events outside [frame]: the transport becoming 'connected' or
    'connecting', the open acknowledgement, the close of a comm and the
    reset. *)
Definition touches_sessions (e : Event) : bool :=
  match e with
  | ConnectionStatusChanged _ cs_connected
  | ConnectionStatusChanged _ cs_connecting
  | OpenDone _ | CommClose _ | Reconnected => true
  | _ => false
  end.

(** Registries that only lost entries. *)
Definition handlers_sub (h h' : list (gmap string nat)) : Prop :=
  length h' = length h
  ∧ ∀ i m', h' !! i = Some m' → ∃ m, h !! i = Some m ∧ m' ⊆ m.

(** Handlers that leave every document's metadata alone. *)
Definition meta_same (w w' : World) : Prop :=
  ∀ D, metadata (panels w' D) = metadata (panels w D).

(** No connect action of a bundle of [D] fires along the run. *)
Fixpoint no_connect_for (D : string) (w : World) (es : list Event) : bool :=
  match es with
  | [] => true
  | e :: es' =>
      match e with
      | EmitConnect c _ =>
          match comms w !! c with
          | Some nc => negb (String.eqb (notebook nc) D)
          | None => true
          end
      | _ => true
      end && no_connect_for D (step w e) es'
  end.

(** The invariant of reachable worlds: the current registry exists; the
    document of every bundle has a slot on its kernel's
    [connectionStatusChanged]; every entry [D ↦ c] of a registry is a
    bundle of D whose open was acknowledged and whose callbacks update
    that registry. *)
Definition Inv (w : World) : Prop :=
  statehandler w < length (handlers w)
  ∧ (∀ c nc, comms w !! c = Some nc →
             0 < connectionStatusChanged (panels w (notebook nc)))
  ∧ (∀ i m D c, handlers w !! i = Some m → m !! D = Some c →
       ∃ nc, comms w !! c = Some nc ∧ notebook nc = D
             ∧ open_done (comm nc) = true ∧ registry (comm nc) = i).

(** Handlers that dispose no comm. *)
Definition same_disposed (nc nc' : NotebookComm) : Prop :=
  isDisposed (comm nc') = isDisposed (comm nc).

Definition keeps_disposed (w w' : World) : Prop :=
  Forall2 same_disposed (comms w) (comms w').

(** Every entry of a registry is a comm that is not disposed. *)
Definition entries_live (w : World) : Prop :=
  ∀ i m D c, handlers w !! i = Some m → m !! D = Some c →
    ∃ nc, comms w !! c = Some nc ∧ isDisposed (comm nc) = false.

(** Along the run, no open acknowledgement arrives for a comm that was
    closed before. *)
Fixpoint acks_precede_closes (w : World) (es : list Event) : bool :=
  match es with
  | [] => true
  | e :: es' =>
      match e with
      | OpenDone c =>
          match comms w !! c with
          | Some nc => negb (isDisposed (comm nc))
          | None => true
          end
      | _ => true
      end && acks_precede_closes (step w e) es'
  end.

(** Stages of the ordering scenario: D is focused and displayed as
    Loading, no comm exists yet, D's kernel has [subs] slots on
    [connectionStatusChanged] and [pending] ready continuations. *)
Definition focused_loading (D : string) (subs pending : nat) (w : World) : Prop :=
  currentState w = st_loading ∧ currentWidget w = Some D
  ∧ comms w = [] ∧ handlers w = [∅] ∧ statehandler w = 0
  ∧ connectionStatusChanged (panels w D) = subs
  ∧ ready_then (panels w D) = pending.

(** D is focused and its comm 0 exists, with [slots] slots on
    Configuring's connect notification. *)
Definition attached (D : string) (st : IState) (slots : nat) (w : World) : Prop :=
  currentState w = st ∧ currentWidget w = Some D
  ∧ ∃ nc, comms w !! 0 = Some nc ∧ notebook nc = D
          ∧ length (onConnect (configuring (states nc))) = slots.

(** ** More scenarios *)

(** Bundle 0 once its open was acknowledged. *)
Definition nc_registered : NotebookComm :=
  mkNotebookComm "D" new_NotebookStates (mkIComm false true [CommOpen msg_open] 0).

(** The transport goes back to 'connecting' after the acknowledgement. *)
Definition w_closed : World :=
  step w_registered (ConnectionStatusChanged "D" cs_connecting).

(** The comm is closed before its open is acknowledged; the
    acknowledgement then arrives. *)
Definition w_late : World := run w_created [CommClose 0; OpenDone 0].

(** The focus moves to another document E. *)
Definition w_moved : World := step w_registered (CurrentChanged (Some "E")).

(** D is focused once more: a second ready continuation is pending. *)
Definition w_refocused : World := step w_registered (CurrentChanged (Some "D")).

(** Connected, then the kernel reports 'restarting'. *)
Definition w_restarting : World :=
  run (constructor None docs_demo)
      (attach "D" ++ [CommMsg 0 msg_connected; StatusChanged "D" ks_restarting]).

(** A connect-error message, then ConnectFailed's reconfigure fires. *)
Definition w_failed : World :=
  run w_created [CommMsg 0 msg_error; EmitReconfigureConnectFailed 0].

(** A connected message, then Connected's reconfigure fires. *)
Definition w_disconnected : World :=
  run w_created [CommMsg 0 msg_connected; EmitReconfigureConnected 0].

(** Two open/config messages on the same comm. *)
Definition w_twice : World := run w_created [CommMsg 0 msg_config; CommMsg 0 msg_config].

(** Bundle 0 after the two open/config messages. *)
Definition nc_twice : NotebookComm := Eval vm_compute in
  default (mkNotebookComm "" new_NotebookStates (mkIComm false false [] 0))
          (comms w_twice !! 0).

(** Configuring entered by one open/config message. *)
Definition w_connecting : World := run w_created [CommMsg 0 msg_config].

Definition nc_connecting : NotebookComm := Eval vm_compute in
  default (mkNotebookComm "" new_NotebookStates (mkIComm false false [] 0))
          (comms w_connecting !! 0).

(** Connected, reconfigure, kernel restart, reset, and the document
    attached again with a new comm. *)
Definition restart_trace : list Event :=
  [CommMsg 0 msg_connected; EmitReconfigureConnected 0;
   StatusChanged "D" ks_restarting; Reconnected;
   CurrentChanged (Some "D"); SessionReady "D";
   ConnectionStatusChanged "D" cs_connecting;
   ConnectionStatusChanged "D" cs_connected].

(** Bundle 1, created after the reset. *)
Definition nc_restarted : NotebookComm := Eval vm_compute in
  default (mkNotebookComm "" new_NotebookStates (mkIComm false false [] 0))
          (comms (run (step w_connecting (EmitConnect 0 connect_demo)) restart_trace) !! 1).

(** ** Vocabulary of the further properties *)

(** The bundle [create] builds for document [nb] through registry [this]. *)
Definition fresh_comm (nb : string) (this : nat) : NotebookComm :=
  mkNotebookComm nb new_NotebookStates (mkIComm false false [CommOpen msg_open] this).

(** The bundle a displayed phase belongs to. *)
Definition bundle_of (st : IState) : option nat :=
  match st with
  | st_notattached | st_loading => None
  | st_configuring c | st_connecting c | st_connected c | st_connectfailed c => Some c
  end.

(** A displayed phase of a bundle is a phase of the focused document. *)
Definition displays_focused (w : World) : Prop :=
  ∀ c, bundle_of (currentState w) = Some c →
       ∃ nc, comms w !! c = Some nc ∧ currentWidget w = Some (notebook nc).

(** A user action fires on the phase on display (only that one is
    rendered). *)
Definition on_display (w : World) (e : Event) : Prop :=
  match e with
  | EmitConnect c _ => currentState w = st_configuring c
  | EmitReconfigureConnected c => currentState w = st_connected c
  | EmitReconfigureConnectFailed c => currentState w = st_connectfailed c
  | _ => True
  end.

Fixpoint actions_on_display (w : World) (es : list Event) : Prop :=
  match es with
  | [] => True
  | e :: es' => on_display w e ∧ actions_on_display (step w e) es'
  end.

(** Handlers that keep the slots on [notebooks.currentChanged] and the
    registries in place. *)
Definition quiet (w w' : World) : Prop :=
  currentChanged w' = currentChanged w
  ∧ length (handlers w') = length (handlers w)
  ∧ statehandler w' = statehandler w.

(** Handlers that keep the focus and either keep the displayed phase or
    fall back to Loading or NotAttached. *)
Definition calm (w w' : World) : Prop :=
  currentWidget w' = currentWidget w
  ∧ (currentState w' = currentState w
     ∨ currentState w' = st_loading ∨ currentState w' = st_notattached).

(** Handlers that connect no slot to a kernel's
    [connectionStatusChanged]. *)
Definition subs_same (w w' : World) : Prop :=
  ∀ D, connectionStatusChanged (panels w' D) = connectionStatusChanged (panels w D).

(** One focus slot per registry ever allocated, the last registry being
    the current one. *)
Definition slots_inv (w : World) : Prop :=
  currentChanged w = length (handlers w)
  ∧ S (statehandler w) = length (handlers w).

(** Every bundle's callbacks update the current registry or an older
    one. *)
Definition registry_bound (w : World) : Prop :=
  ∀ c nc, comms w !! c = Some nc → (registry (comm nc) ≤ statehandler w)%nat.

(** The three messages [send] is called with. *)
Definition action_message (m : JSONObject) : Prop :=
  (∃ connectMessage, m = msg_connect connectMessage)
  ∨ m = msg_disconnect_connected ∨ m = msg_disconnect_connectfailed.

(** What went out on a comm: the open handshake, then sends of action
    messages. *)
Definition outbox_ok (nc : NotebookComm) : Prop :=
  ∃ sends, sent (comm nc) = CommOpen msg_open :: (CommSend <$> sends)
           ∧ Forall action_message sends.

(** Handlers that keep every outbox of that form. *)
Definition keeps_outbox (w w' : World) : Prop :=
  Forall outbox_ok (comms w) → Forall outbox_ok (comms w').

(** Handlers that keep the focus and either keep the displayed phase or
    display Connecting of bundle [c]. *)
Definition connecting_or_same (c : nat) (w w' : World) : Prop :=
  currentWidget w' = currentWidget w
  ∧ (currentState w' = currentState w ∨ currentState w' = st_connecting c).

(** The message types [onCommMessage] acts on. *)
Definition acts_on (msgtype : JSON) : bool :=
  strict_eq msgtype "sparkconn-action-open"
  || strict_eq msgtype "sparkconn-connected"
  || strict_eq msgtype "sparkconn-connect-error"
  || strict_eq msgtype "sparkconn-action-follow-log".

Definition is_follow_log (data : JSONObject) : bool :=
  strict_eq (jget data "msgtype") "sparkconn-action-follow-log".

(** Two documents attached one after the other; E keeps the focus. *)
Definition w_two : World :=
  run (constructor None docs_demo) (attach "D" ++ attach "E").

(** The reset after a restart has completed. *)
Definition w_reset : World := step w_restarting Reconnected.

(** Bundle 0 when the restart is reported. *)
Definition nc_restarting : NotebookComm := Eval vm_compute in
  default (mkNotebookComm "" new_NotebookStates (mkIComm false false [] 0))
          (comms w_restarting !! 0).

(** After the reset D is attached once more: bundle 1 is registered in
    the new registry. *)
Definition reattach : list Event := attach "D" ++ [OpenDone 1].

(** ** Basic facts about the embedding *)

Example loose_eq_one_element_array :
  loose_eq (JArr [JStr "sparkconn-config"]) "sparkconn-config" = true
  ∧ strict_eq (JArr [JStr "sparkconn-config"]) "sparkconn-config" = false.
Proof. split; reflexivity. Qed.

Example connected_without_config_throws :
  jprop (jget [("msgtype", JStr "sparkconn-connected")] "config") "sparkhistoryserver"
  = None.
Proof. reflexivity. Qed.

Example created_not_registered :
  session w_created "D" = None ∧ session w_registered "D" = Some 0
  ∧ sent_on w_created 0 = [CommOpen msg_open].
Proof. repeat split; reflexivity. Qed.

Example follow_log_appends :
  connected_log (connected (states
    (default nc_registered
       (comms (run w_created [CommMsg 0 msg_connected;
                              CommMsg 0 [("msgtype", JStr "sparkconn-action-follow-log");
                                         ("msg", JStr "line")]]) !! 0))))
  = [JStr "line"].
Proof. vm_compute. reflexivity. Qed.

(** A send goes through exactly on a bundle of the store that is not
    disposed, and then records the message on it. *)
Lemma comm_send_spec c m w :
  comm_send c m w
  = match comms w !! c with
    | Some nc =>
        if isDisposed (comm nc) then None else Some (upd_comm c (record_send m) w)
    | None => None
    end.
Proof.
  unfold comm_send, send. destruct (comms w !! c) as [nc|] eqn:Hc; [|done].
  destruct (isDisposed (comm nc)); [done|].
  unfold upd_comm. do 2 f_equal. apply list_alter_ext; [|done].
  intros x Hx. congruence.
Qed.

Lemma comm_send_match {A} c m w (k : World → A) (d : A) :
  match comm_send c m w with Some w' => k w' | None => d end
  = match comms w !! c with
    | Some nc => if isDisposed (comm nc) then d
                 else k (upd_comm c (record_send m) w)
    | None => d
    end.
Proof.
  rewrite comm_send_spec. destruct (comms w !! c) as [nc|]; [|done].
  by destruct (isDisposed (comm nc)).
Qed.

(** ** Walking through a handler, one operation at a time *)

Ltac walk leaf :=
  lazymatch goal with
  | |- _ ?w ?w => reflexivity
  | |- _ ?w (upd_comm _ _ ?w') => transitivity w'; [|leaf]
  | |- _ ?w (upd_panel _ _ ?w') => transitivity w'; [|leaf]
  | |- _ ?w (updateCurrent _ ?w') => transitivity w'; [|leaf]
  | |- _ ?w (set_currentWidget _ ?w') => transitivity w'; [|leaf]
  | |- _ ?w (set_reconnect_then _ ?w') => transitivity w'; [|leaf]
  | |- _ ?w (StateHandler.close _ _ ?w') => transitivity w'; [|leaf]
  | |- _ ?w (StateHandler.create_done _ _ ?w') => transitivity w'; [|leaf]
  | |- _ ?w (StateHandler.create_onClose _ ?w') => transitivity w'; [|leaf]
  | |- _ ?w (snd (StateHandler.create _ _ ?w')) => transitivity w'; [|leaf]
  | |- _ ?w (onReconnected ?w') => transitivity w'; [|leaf]
  | |- _ ?w (match comm_send ?c ?m ?w' with _ => _ end) =>
      rewrite (comm_send_match c m w')
  | |- _ ?w (match ?x with _ => _ end) => destruct x eqn:?
  end.

Lemma rel_iter (R : relation World) `{!PreOrder R} (f : World → World) :
  (∀ w, R w (f w)) → ∀ n w, R w (Nat.iter n f w).
Proof.
  intros Hf n w. induction n as [|n IH]; simpl; [reflexivity|].
  etransitivity; [exact IH | apply Hf].
Qed.

Lemma rel_foldl (R : relation World) `{!PreOrder R} {A} (f : World → A → World) :
  (∀ w a, R w (f w a)) → ∀ l w, R w (foldl f w l).
Proof.
  intros Hf l. induction l as [|a l IH]; intros w; simpl; [reflexivity|].
  etransitivity; [apply Hf | apply IH].
Qed.

Lemma via_updateCurrent_refl w : via_updateCurrent w w.
Proof. by left. Qed.

Lemma via_updateCurrent_trans w1 w2 w3 :
  via_updateCurrent w1 w2 → via_updateCurrent w2 w3 → via_updateCurrent w1 w3.
Proof.
  intros [[E1 U1]|L1] [[E2 U2]|L2]; [left|right..].
  - split; congruence.
  - lia.
  - lia.
  - lia.
Qed.

Lemma via_updateCurrent_iter (f : World → World) :
  (∀ w, via_updateCurrent w (f w)) →
  ∀ n w, via_updateCurrent w (Nat.iter n f w).
Proof.
  intros Hf n w. induction n as [|n IH]; simpl.
  - apply via_updateCurrent_refl.
  - eapply via_updateCurrent_trans; [exact IH | apply Hf].
Qed.

Lemma via_updateCurrent_foldl {A} (f : World → A → World) :
  (∀ w a, via_updateCurrent w (f w a)) →
  ∀ l w, via_updateCurrent w (foldl f w l).
Proof.
  intros Hf l. induction l as [|a l IH]; intros w; simpl.
  - apply via_updateCurrent_refl.
  - eapply via_updateCurrent_trans; [apply Hf | apply IH].
Qed.

Lemma updateCurrent_via st w : via_updateCurrent w (updateCurrent st w).
Proof. right. simpl. lia. Qed.

Lemma onCommMessage_via data c nc w :
  via_updateCurrent w (onCommMessage data c nc w).
Proof.
  unfold onCommMessage.
  repeat case_match; first [by left | right; simpl; lia].
Qed.

Lemma onConnect_slot_via c m w slot :
  via_updateCurrent w (onConnect_slot c m w slot).
Proof.
  unfold onConnect_slot. cbv zeta.
  destruct (comms w !! c) as [nc|] eqn:Hc; [|by left].
  rewrite comm_send_spec. simpl. rewrite list_lookup_alter_eq, Hc. simpl.
  destruct (isDisposed (comm nc)); right; simpl; lia.
Qed.

Lemma onConnectionStatusChanged_via nb status w :
  via_updateCurrent w (onConnectionStatusChanged nb status w).
Proof. destruct status; simpl; [by left | right; simpl; lia..]. Qed.

Lemma onCurrentChanged_via nb w : via_updateCurrent w (onCurrentChanged nb w).
Proof. destruct nb; right; simpl; lia. Qed.

Lemma onReady_via nb w : via_updateCurrent w (onReady nb w).
Proof. unfold onReady. repeat case_match; by left. Qed.

Lemma onStatusChanged_via nb status w :
  via_updateCurrent w (onStatusChanged nb status w).
Proof. unfold onStatusChanged. case_match; by left. Qed.

Lemma reconfigure_slots_via c w :
  via_updateCurrent w (connected_onReconfigure_slot c w)
  ∧ via_updateCurrent w (connectfailed_onReconfigure_slot c w).
Proof.
  unfold connected_onReconfigure_slot, connectfailed_onReconfigure_slot.
  cbv zeta. rewrite !comm_send_spec. simpl.
  destruct (comms w !! c) as [nc|]; [|by split; left].
  destruct (isDisposed (comm nc)); split; right; simpl; lia.
Qed.

(** ** The displayed phase *)

(** C10, as stated, fails: when the reconnect requested after a kernel
    restart completes, the widget re-runs [initStateHandling], which
    assigns NotAttached to [currentState] directly; the displayed phase
    changes from Connected to NotAttached with no call of
    [updateCurrent]. *)
Lemma C10_counterexample :
  currentState w_restarting = st_connected 0
  ∧ ¬ via_updateCurrent w_restarting (step w_restarting Reconnected).
Proof.
  split; [reflexivity|].
  intros [[E _]|L].
  - vm_compute in E. discriminate E.
  - vm_compute in L. lia.
Qed.

(** C10 (amended): the constructed widget displays NotAttached, and every
    event either changes the displayed phase through [updateCurrent] (or
    not at all), or is the completion of the restart's reconnect, whose
    re-run of [initStateHandling] assigns NotAttached directly. *)
Theorem C10_displayed_phase current docs :
  currentState (constructor current docs) = st_notattached
  ∧ ∀ w e, via_updateCurrent w (step w e)
           ∨ (e = Reconnected ∧ currentState (step w e) = st_notattached).
Proof.
  split; [reflexivity|].
  intros w e. destruct e; simpl.
  - left. eapply via_updateCurrent_trans;
      [|apply via_updateCurrent_iter, onCurrentChanged_via]. by left.
  - left. case_match; [by left|].
    eapply via_updateCurrent_trans; [|apply onReady_via]. by left.
  - left. eapply via_updateCurrent_trans;
      [|apply via_updateCurrent_iter, onConnectionStatusChanged_via]. by left.
  - left. repeat case_match; by left.
  - left. case_match; by left.
  - left. case_match; [|by left]. unfold onMsg.
    repeat case_match; first [by left | apply onCommMessage_via].
  - left. case_match; [|by left].
    apply via_updateCurrent_foldl. intros; apply onConnect_slot_via.
  - left. case_match; [|by left].
    apply via_updateCurrent_iter. intros; apply reconfigure_slots_via.
  - left. case_match; [|by left].
    apply via_updateCurrent_iter. intros; apply reconfigure_slots_via.
  - left. apply via_updateCurrent_iter. intros; apply onStatusChanged_via.
  - destruct (reconnect_then w); [left; by left | right; done].
Qed.

(** ** The focus filter *)

(** C7: a message arriving on the channel of document [D] while the
    focused document is absent or another one changes nothing at all: the
    world after the event is the world before it (no phase change, no
    phase data touched, nothing sent, nothing stored for later). *)
Theorem C7_unfocused_message_dropped (w : World) (c : nat) (nc : NotebookComm)
    (D : string) (data : JSONObject) :
  comms w !! c = Some nc → notebook nc = D → currentWidget w ≠ Some D →
  step w (CommMsg c data) = w.
Proof.
  intros Hc HD Hfocus. simpl. rewrite Hc. unfold onMsg.
  destruct (currentWidget w) as [id|]; [|done].
  destruct (String.eqb_spec id (notebook nc)) as [->|Hne]; [|done].
  congruence.
Qed.

Lemma C7_unfocused_message_dropped_witness :
  step w_moved (CommMsg 0 msg_connected) = w_moved.
Proof.
  apply (C7_unfocused_message_dropped w_moved 0
           (mkNotebookComm "D" new_NotebookStates
              (mkIComm false true [CommOpen msg_open] 0)) "D" msg_connected).
  - reflexivity.
  - reflexivity.
  - vm_compute. discriminate.
Defined.

(** ** The saved configuration *)

Lemma default_config_well_formed : is_SparkconnectMetadata default_config = true.
Proof. reflexivity. Qed.

Lemma upd_comm_lookup c f w nc :
  comms w !! c = Some nc → comms (upd_comm c f w) !! c = Some (f nc).
Proof. intros H. simpl. by rewrite list_lookup_alter_eq, H. Qed.

(** Handling an open/config message on the focused document seeds
    Configuring with what [getCurrentConfigFromNotebook] returns. *)
Lemma open_config_seed w c nc data :
  comms w !! c = Some nc → currentWidget w = Some (notebook nc) →
  is_open_config data = true →
  seed (step w (CommMsg c data)) c
  = Some (getCurrentConfigFromNotebook (panels w (notebook nc)))
  ∧ currentState (step w (CommMsg c data)) = st_configuring c.
Proof.
  intros Hc Hf Hd. apply andb_true_iff in Hd as [Ht Hp].
  simpl. rewrite Hc. unfold onMsg. rewrite Hf, String.eqb_refl. simpl.
  unfold onCommMessage. rewrite Ht, Hp. split; [|done].
  unfold seed. simpl. by rewrite list_lookup_alter_eq, Hc.
Qed.

(** C9: for a document whose metadata has no 'sparkconnect' entry,
    [getCurrentConfigFromNotebook] returns the default
    [{bundled_options: [], list_of_options: []}], which is well formed, and
    this default is what Configuring is initialised with when an
    open/config message is handled for that document. *)
Theorem C9_default_configuration (w : World) (c : nat) (nc : NotebookComm)
    (data : JSONObject) :
  metadata (panels w (notebook nc)) !! "sparkconnect" = None →
  getCurrentConfigFromNotebook (panels w (notebook nc)) = default_config
  ∧ is_SparkconnectMetadata default_config = true
  ∧ (comms w !! c = Some nc → currentWidget w = Some (notebook nc) →
     is_open_config data = true →
     seed (step w (CommMsg c data)) c = Some default_config).
Proof.
  intros Hm.
  assert (Hget : getCurrentConfigFromNotebook (panels w (notebook nc)) = default_config)
    by (unfold getCurrentConfigFromNotebook, metadata_has; by rewrite Hm).
  split; [done|]. split; [reflexivity|].
  intros Hc Hf Hd.
  destruct (open_config_seed w c nc data Hc Hf Hd) as [-> _]. by rewrite Hget.
Qed.

Lemma C9_default_configuration_witness :
  getCurrentConfigFromNotebook (panels w_created "D") = default_config
  ∧ seed (step w_created (CommMsg 0 msg_config)) 0 = Some default_config.
Proof.
  destruct (C9_default_configuration w_created 0
              (mkNotebookComm "D" new_NotebookStates
                 (mkIComm false false [CommOpen msg_open] 0)) msg_config)
    as (H1 & _ & H3).
  - reflexivity.
  - split; [exact H1|]. apply H3; reflexivity.
Defined.

(** ** Session ready *)

(** C3, as stated, fails: with a session registered for D (comm 0, not
    disposed) and a ready continuation pending, the continuation calls
    [StateHandler.open], whose send is commented out, and nothing goes out
    on the channel. *)
Lemma C3_counterexample :
  ready_then (panels w_refocused "D") = 1
  ∧ session w_refocused "D" = Some 0
  ∧ ¬ reissues_open w_refocused "D".
Proof.
  split; [reflexivity|]. split; [reflexivity|].
  intros H. destruct (H 0 eq_refl) as (m & Hm & _).
  vm_compute in Hm. discriminate Hm.
Qed.

Lemma has_session this w nb :
  StateHandler.has this nb w
  = bool_decide (is_Some (StateHandler.states_of this w !! nb)).
Proof. reflexivity. Qed.

(** C3 (amended): when the ready continuation of D runs and a session for
    D is registered, nothing is sent on any channel and no reconnect is
    requested ([open] only looks the session up); when no session is
    registered and the connection status is 'connected', exactly one
    transport reconnect is requested for D (and nothing is sent). *)
Theorem C3_session_ready (w : World) (D : string) (k : nat) :
  ready_then (panels w D) = S k →
  (is_Some (session w D) →
     comms (step w (SessionReady D)) = comms w
     ∧ reconnect_calls (panels (step w (SessionReady D)) D)
       = reconnect_calls (panels w D))
  ∧ (session w D = None → connectionStatus (panels w D) = cs_connected →
     comms (step w (SessionReady D)) = comms w
     ∧ reconnect_calls (panels (step w (SessionReady D)) D)
       = S (reconnect_calls (panels w D))).
Proof.
  intros Hk. simpl. rewrite Hk. unfold onReady, session.
  rewrite has_session.
  change (StateHandler.states_of _ (upd_panel D (set_ready_then k) w))
    with (StateHandler.states_of (statehandler w) w).
  split.
  - intros Hs. rewrite bool_decide_eq_true_2 by done. simpl.
    by rewrite !fn_lookup_insert.
  - intros Hs Hst. rewrite bool_decide_eq_false_2 by (rewrite Hs; by intros [? ?]).
    simpl. rewrite !fn_lookup_insert. simpl. rewrite Hst. simpl.
    by rewrite !fn_lookup_insert.
Qed.

Lemma C3_session_ready_witness :
  comms (step w_refocused (SessionReady "D")) = comms w_refocused.
Proof.
  destruct (C3_session_ready w_refocused "D" 0) as [H _].
  - reflexivity.
  - apply H. exists 0. reflexivity.
Defined.

(** ** Outbound messages *)

(** C5 at the failing input: after a connect-error message, firing
    ConnectFailed's reconfigure notification sends
    [{action: 'sparkconn-action-disconnect'}], which has no [type] field,
    while the same action fired from Connected carries [type: 'action']. *)
Theorem C5_connectfailed_disconnect_lacks_type :
  sent_on w_failed 0 = [CommOpen msg_open; CommSend msg_disconnect_connectfailed]
  ∧ jget msg_disconnect_connectfailed "type" = JUndefined
  ∧ is_envelope msg_disconnect_connectfailed = false
  ∧ sent_on w_disconnected 0 = [CommOpen msg_open; CommSend msg_disconnect_connected]
  ∧ is_envelope msg_disconnect_connected = true.
Proof. repeat split; reflexivity. Qed.

(** ** Subscriptions to the phase notifications *)

(** C2, as stated, fails: a second open/config message on the same
    session connects a second slot to the same Configuring instance, and
    one firing of its connect notification then sends the connect action
    twice. *)
Lemma C2_counterexample :
  sent_on w_twice 0 = [CommOpen msg_open]
  ∧ sent_on (step w_twice (EmitConnect 0 connect_demo)) 0
    = [CommOpen msg_open; CommSend (msg_connect connect_demo);
       CommSend (msg_connect connect_demo)].
Proof. split; reflexivity. Qed.

Lemma onConnect_slot_unfold c m w slot nc :
  comms w !! c = Some nc →
  onConnect_slot c m w slot
  = if isDisposed (comm nc)
    then upd_panel (notebook nc) (setCurrentConfigToNotebook (jget m "metadata"))
           (updateCurrent (st_connecting c) (upd_comm c (connecting_init_by slot) w))
    else upd_comm c (record_send (msg_connect m))
           (upd_panel (notebook nc) (setCurrentConfigToNotebook (jget m "metadata"))
              (updateCurrent (st_connecting c)
                 (upd_comm c (connecting_init_by slot) w))).
Proof.
  intros Hc. unfold onConnect_slot. rewrite Hc. cbv zeta.
  rewrite comm_send_spec. simpl. rewrite list_lookup_alter_eq, Hc. simpl.
  by destruct (isDisposed (comm nc)).
Qed.

Lemma connected_slot_unfold c w nc :
  comms w !! c = Some nc →
  connected_onReconfigure_slot c w
  = if isDisposed (comm nc) then updateCurrent st_loading w
    else upd_panel (notebook nc) restart
           (upd_comm c (record_send msg_disconnect_connected)
              (updateCurrent st_loading w)).
Proof.
  intros Hc. unfold connected_onReconfigure_slot. rewrite Hc. cbv zeta.
  rewrite comm_send_spec. simpl. rewrite Hc. by destruct (isDisposed (comm nc)).
Qed.

Lemma connectfailed_slot_unfold c w nc :
  comms w !! c = Some nc →
  connectfailed_onReconfigure_slot c w
  = if isDisposed (comm nc) then updateCurrent st_loading w
    else upd_panel (notebook nc) restart
           (upd_comm c (record_send msg_disconnect_connectfailed)
              (updateCurrent st_loading w)).
Proof.
  intros Hc. unfold connectfailed_onReconfigure_slot. rewrite Hc. cbv zeta.
  rewrite comm_send_spec. simpl. rewrite Hc. by destruct (isDisposed (comm nc)).
Qed.

(** All the slots of a connect notification, run one after the other:
    each performs the display transition; on a comm that is not disposed
    each sends, on a disposed comm none does. *)
Lemma emit_connect_effect c m slots : ∀ w nc,
  comms w !! c = Some nc →
  ∃ nc', comms (foldl (onConnect_slot c m) w slots) !! c = Some nc'
         ∧ notebook nc' = notebook nc
         ∧ isDisposed (comm nc') = isDisposed (comm nc)
         ∧ sent (comm nc')
           = sent (comm nc)
             ++ (if isDisposed (comm nc) then []
                 else replicate (length slots) (CommSend (msg_connect m)))
         ∧ configuring (states nc') = configuring (states nc)
         ∧ update_calls (foldl (onConnect_slot c m) w slots)
           = update_calls w + length slots
         ∧ currentWidget (foldl (onConnect_slot c m) w slots) = currentWidget w
         ∧ handlers (foldl (onConnect_slot c m) w slots) = handlers w.
Proof.
  induction slots as [|slot slots IH]; intros w nc Hc.
  - exists nc. simpl.
    repeat split;
      first [done | lia | destruct (isDisposed (comm nc)); by rewrite app_nil_r].
  - cbn [foldl length]. rewrite (onConnect_slot_unfold c m w slot nc Hc).
    destruct (isDisposed (comm nc)) eqn:Hd.
    + edestruct (IH (upd_panel (notebook nc)
                       (setCurrentConfigToNotebook (jget m "metadata"))
                       (updateCurrent (st_connecting c)
                          (upd_comm c (connecting_init_by slot) w))))
        as (nc' & H1 & H2 & H3 & H4 & H5 & H6 & H7 & H8).
      { simpl. by rewrite list_lookup_alter_eq, Hc. }
      simpl in H3, H4. rewrite Hd in H3, H4.
      exists nc'. repeat split; try done. simpl in H6. lia.
    + edestruct (IH (upd_comm c (record_send (msg_connect m))
                       (upd_panel (notebook nc)
                          (setCurrentConfigToNotebook (jget m "metadata"))
                          (updateCurrent (st_connecting c)
                             (upd_comm c (connecting_init_by slot) w)))))
        as (nc' & H1 & H2 & H3 & H4 & H5 & H6 & H7 & H8).
      { simpl. by rewrite !list_lookup_alter_eq, Hc. }
      simpl in H3, H4. rewrite Hd in H3, H4.
      exists nc'. repeat split; try done.
      * rewrite H4, <- app_assoc. done.
      * simpl in H6. lia.
Qed.

Lemma emit_connect_display c m slots : ∀ w nc,
  comms w !! c = Some nc → slots ≠ [] →
  currentState (foldl (onConnect_slot c m) w slots) = st_connecting c.
Proof.
  induction slots as [|slot slots IH] using rev_ind; intros w nc Hc Hne; [done|].
  rewrite foldl_snoc.
  destruct (emit_connect_effect c m slots w nc Hc) as (nc' & Hc' & _).
  rewrite (onConnect_slot_unfold c m _ slot nc' Hc').
  by destruct (isDisposed (comm nc')).
Qed.

(** All the slots of a reconfigure notification, run one after the
    other: each displays Loading; on a comm that is not disposed each
    sends and requests a kernel restart, on a disposed comm none does. *)
Lemma reconfigure_iter (f : World → World) (x : JSONObject) c :
  (∀ w nc, comms w !! c = Some nc →
     f w = if isDisposed (comm nc) then updateCurrent st_loading w
           else upd_panel (notebook nc) restart
                  (upd_comm c (record_send x) (updateCurrent st_loading w))) →
  ∀ n w nc, comms w !! c = Some nc →
  ∃ nc', comms (Nat.iter n f w) !! c = Some nc'
         ∧ notebook nc' = notebook nc
         ∧ isDisposed (comm nc') = isDisposed (comm nc)
         ∧ sent (comm nc')
           = sent (comm nc)
             ++ (if isDisposed (comm nc) then [] else replicate n (CommSend x))
         ∧ states nc' = states nc
         ∧ restart_calls (panels (Nat.iter n f w) (notebook nc))
           = restart_calls (panels w (notebook nc))
             + (if isDisposed (comm nc) then 0 else n)
         ∧ currentState (Nat.iter n f w)
           = match n with 0 => currentState w | S _ => st_loading end
         ∧ update_calls (Nat.iter n f w) = update_calls w + n
         ∧ handlers (Nat.iter n f w) = handlers w.
Proof.
  intros Hf n w nc Hc.
  induction n as [|n (nc1 & H1 & N1 & D1 & S1 & T1 & R1 & C1 & U1 & G1)].
  - exists nc. simpl.
    repeat split; first [done | lia | idtac].
    + destruct (isDisposed (comm nc)); by rewrite app_nil_r.
    + destruct (isDisposed (comm nc)); lia.
  - simpl. rewrite (Hf _ nc1 H1), D1, N1.
    destruct (isDisposed (comm nc)) eqn:Hd.
    + exists nc1. simpl. repeat split; first [done | lia].
    + simpl. rewrite list_lookup_alter_eq, H1, fn_lookup_insert. simpl.
      exists (record_send x nc1).
      split; [done|]. split; [done|]. split; [done|].
      split; [simpl; by rewrite S1, replicate_cons_app, app_assoc|].
      split; [done|]. split; [lia|]. split; [done|]. split; [lia|done].
Qed.

(** C2 (amended): the Coordinator connects one more slot to a phase
    instance's notification every time it handles a message of that
    phase's type for the session (open/config for Configuring, connected
    for Connected, connect-error for ConnectFailed), and one firing of the
    notification runs every connected slot: with [n] slots the display
    transition is performed [n] times ([updateCurrent] is called [n]
    times, and Connecting, respectively Loading, is displayed when
    [n > 0]) and, on a comm that is not disposed, the action is sent [n]
    times (and the kernel restart requested [n] times by a reconfigure);
    on a disposed comm the send throws in every slot, so nothing is sent
    and no restart is requested. *)
Theorem C2_one_slot_per_message (w : World) (c : nat) (nc : NotebookComm)
    (data connectMessage : JSONObject) :
  comms w !! c = Some nc → currentWidget w = Some (notebook nc) →
  (is_open_config data = true →
     ∃ nc', comms (step w (CommMsg c data)) !! c = Some nc'
       ∧ length (onConnect (configuring (states nc')))
         = S (length (onConnect (configuring (states nc)))))
  ∧ (is_connected_msg data = true →
     ∃ nc', comms (step w (CommMsg c data)) !! c = Some nc'
       ∧ connected_onReconfigure (connected (states nc'))
         = S (connected_onReconfigure (connected (states nc))))
  ∧ (is_connect_error data = true →
     ∃ nc', comms (step w (CommMsg c data)) !! c = Some nc'
       ∧ connectfailed_onReconfigure (connectfailed (states nc'))
         = S (connectfailed_onReconfigure (connectfailed (states nc))))
  ∧ (update_calls (step w (EmitConnect c connectMessage))
     = update_calls w + length (onConnect (configuring (states nc)))
     ∧ (onConnect (configuring (states nc)) ≠ [] →
        currentState (step w (EmitConnect c connectMessage)) = st_connecting c)
     ∧ sent_on (step w (EmitConnect c connectMessage)) c
       = sent_on w c
         ++ (if isDisposed (comm nc) then []
             else replicate (length (onConnect (configuring (states nc))))
                            (CommSend (msg_connect connectMessage))))
  ∧ (update_calls (step w (EmitReconfigureConnected c))
     = update_calls w + connected_onReconfigure (connected (states nc))
     ∧ (connected_onReconfigure (connected (states nc)) ≠ 0 →
        currentState (step w (EmitReconfigureConnected c)) = st_loading)
     ∧ sent_on (step w (EmitReconfigureConnected c)) c
       = sent_on w c
         ++ (if isDisposed (comm nc) then []
             else replicate (connected_onReconfigure (connected (states nc)))
                            (CommSend msg_disconnect_connected))
     ∧ restart_calls (panels (step w (EmitReconfigureConnected c)) (notebook nc))
       = restart_calls (panels w (notebook nc))
         + (if isDisposed (comm nc) then 0
            else connected_onReconfigure (connected (states nc))))
  ∧ (update_calls (step w (EmitReconfigureConnectFailed c))
     = update_calls w + connectfailed_onReconfigure (connectfailed (states nc))
     ∧ (connectfailed_onReconfigure (connectfailed (states nc)) ≠ 0 →
        currentState (step w (EmitReconfigureConnectFailed c)) = st_loading)
     ∧ sent_on (step w (EmitReconfigureConnectFailed c)) c
       = sent_on w c
         ++ (if isDisposed (comm nc) then []
             else replicate (connectfailed_onReconfigure (connectfailed (states nc)))
                            (CommSend msg_disconnect_connectfailed))
     ∧ restart_calls (panels (step w (EmitReconfigureConnectFailed c)) (notebook nc))
       = restart_calls (panels w (notebook nc))
         + (if isDisposed (comm nc) then 0
            else connectfailed_onReconfigure (connectfailed (states nc)))).
Proof.
  intros Hc Hf.
  assert (Hmsg : step w (CommMsg c data) = onCommMessage data c nc w).
  { simpl. rewrite Hc. unfold onMsg. by rewrite Hf, String.eqb_refl. }
  rewrite Hmsg. unfold sent_on at 2 4 6. rewrite Hc.
  split; [|split; [|split; [|split; [|split]]]].
  - intros Hd. apply andb_true_iff in Hd as [Ht Hp].
    unfold onCommMessage. rewrite Ht, Hp. simpl.
    rewrite list_lookup_alter_eq, Hc. simpl. eexists; split; [done|].
    simpl. rewrite length_app. simpl. lia.
  - intros Hd. apply andb_true_iff in Hd as [Ht Hp].
    apply bool_decide_eq_true in Hp as [h Hh].
    unfold onCommMessage.
    destruct (strict_eq (jget data "msgtype") "sparkconn-action-open") eqn:Ho.
    { destruct (jget data "msgtype"); try discriminate.
      simpl in Ho, Ht. apply String.eqb_eq in Ho, Ht. congruence. }
    rewrite Ht, Hh. simpl.
    rewrite !list_lookup_alter_eq, Hc. simpl. eexists; split; done.
  - intros Ht. unfold is_connect_error in Ht. unfold onCommMessage.
    destruct (jget data "msgtype") as [| | | |s| |]; try discriminate.
    simpl in Ht. apply String.eqb_eq in Ht. subst s. simpl.
    rewrite list_lookup_alter_eq, Hc. simpl. eexists; split; done.
  - cbn [step]. rewrite Hc.
    destruct (emit_connect_effect c connectMessage
                (onConnect (configuring (states nc))) w nc Hc)
      as (nc' & H1 & _ & _ & S1 & _ & U1 & _).
    split; [exact U1|]. split.
    + intros Hne. by apply (emit_connect_display c connectMessage _ w nc).
    + unfold sent_on. by rewrite H1.
  - cbn [step]. rewrite Hc.
    destruct (reconfigure_iter (connected_onReconfigure_slot c)
                msg_disconnect_connected c (connected_slot_unfold c)
                (connected_onReconfigure (connected (states nc))) w nc Hc)
      as (nc' & H1 & _ & _ & S1 & _ & R1 & C1 & U1 & _).
    split; [exact U1|]. split; [|split; [|exact R1]].
    + intros Hn. rewrite C1. by destruct (connected_onReconfigure _).
    + unfold sent_on. by rewrite H1.
  - cbn [step]. rewrite Hc.
    destruct (reconfigure_iter (connectfailed_onReconfigure_slot c)
                msg_disconnect_connectfailed c (connectfailed_slot_unfold c)
                (connectfailed_onReconfigure (connectfailed (states nc))) w nc Hc)
      as (nc' & H1 & _ & _ & S1 & _ & R1 & C1 & U1 & _).
    split; [exact U1|]. split; [|split; [|exact R1]].
    + intros Hn. rewrite C1. by destruct (connectfailed_onReconfigure _).
    + unfold sent_on. by rewrite H1.
Qed.

Lemma C2_one_slot_per_message_witness :
  sent_on (step w_twice (EmitConnect 0 connect_demo)) 0
  = sent_on w_twice 0 ++ replicate 2 (CommSend (msg_connect connect_demo))
  ∧ update_calls (step w_twice (EmitConnect 0 connect_demo))
    = update_calls w_twice + 2.
Proof.
  destruct (C2_one_slot_per_message w_twice 0 nc_twice msg_config connect_demo)
    as (_ & _ & _ & (H1 & _ & H2) & _).
  - vm_compute. reflexivity.
  - vm_compute. reflexivity.
  - split; [exact H2 | exact H1].
Defined.

(** ** The ordering scenario *)

Lemma focus_stage current docs D :
  focused_loading D 0 1 (step (constructor current docs) (CurrentChanged (Some D))).
Proof.
  unfold focused_loading. simpl. rewrite !fn_lookup_insert. done.
Qed.

Lemma ready_stage D subs pending w :
  focused_loading D subs (S pending) w →
  focused_loading D (S subs) pending (step w (SessionReady D)).
Proof.
  intros (Hst & Hf & Hc & Hh & Hsh & Hs & Hp). unfold focused_loading.
  simpl. rewrite Hp. unfold onReady. rewrite has_session.
  unfold StateHandler.states_of. simpl. rewrite Hh, Hsh. simpl.
  rewrite lookup_empty, bool_decide_eq_false_2 by (by intros [? ?]).
  rewrite !fn_lookup_insert. simpl.
  destruct (is_connected (connectionStatus (panels w D))); simpl;
    rewrite !fn_lookup_insert; simpl; rewrite ?fn_lookup_insert; simpl;
    rewrite Hh, Hsh, Hs; done.
Qed.

Lemma connecting_iter D n w :
  currentState w = st_loading → handlers w = [∅] → statehandler w = 0 →
  let w' := Nat.iter n (onConnectionStatusChanged D cs_connecting) w in
  currentState w' = st_loading ∧ handlers w' = [∅] ∧ statehandler w' = 0
  ∧ currentWidget w' = currentWidget w ∧ comms w' = comms w ∧ panels w' = panels w.
Proof.
  intros Hst Hh Hsh. induction n as [|n (H1 & H2 & H3 & H4 & H5 & H6)]; [done|].
  simpl. rewrite H2, H3. simpl. by rewrite delete_empty.
Qed.

Lemma connecting_stage D subs pending w :
  focused_loading D subs pending w →
  focused_loading D subs pending (step w (ConnectionStatusChanged D cs_connecting)).
Proof.
  intros (Hst & Hf & Hc & Hh & Hsh & Hs & Hp). unfold focused_loading.
  cbn [step].
  destruct (connecting_iter D
              (connectionStatusChanged (panels w D))
              (upd_panel D (set_connectionStatus cs_connecting) w))
    as (H1 & H2 & H3 & H4 & H5 & H6); [done..|].
  rewrite H1, H2, H3, H4, H5, H6. simpl. by rewrite !fn_lookup_insert.
Qed.

Lemma connected_stage D pending w :
  focused_loading D 1 pending w →
  attached D st_loading 0 (step w (ConnectionStatusChanged D cs_connected)).
Proof.
  intros (Hst & Hf & Hc & Hh & Hsh & Hs & Hp). unfold attached.
  cbn [step]. rewrite Hs. simpl. rewrite Hc. simpl. eauto 10.
Qed.

Lemma open_done_stage D st slots w :
  attached D st slots w → attached D st slots (step w (OpenDone 0)).
Proof.
  intros (Hst & Hf & nc & Hc & Hn & Hl). unfold attached.
  simpl. rewrite Hc. destruct (open_done (comm nc)); [by eauto 10|].
  simpl. rewrite list_lookup_alter_eq, Hc. simpl. eauto 10.
Qed.

Lemma open_config_stage D st slots data w :
  is_open_config data = true → attached D st slots w →
  attached D (st_configuring 0) (S slots) (step w (CommMsg 0 data)).
Proof.
  intros Hd (Hst & Hf & nc & Hc & Hn & Hl). unfold attached.
  apply andb_true_iff in Hd as [Ht Hp].
  simpl. rewrite Hc. unfold onMsg. rewrite Hf, Hn, String.eqb_refl. simpl.
  unfold onCommMessage. rewrite Ht, Hp. simpl.
  rewrite list_lookup_alter_eq, Hc. simpl.
  repeat split; [done|]. eexists; repeat split; [done|]. simpl.
  rewrite length_app. simpl. lia.
Qed.

Lemma connect_stage D st slots m w :
  attached D st (S slots) w →
  currentState (step w (EmitConnect 0 m)) = st_connecting 0.
Proof.
  intros (Hst & Hf & nc & Hc & Hn & Hl). simpl. rewrite Hc.
  eapply emit_connect_display; [done|].
  by destruct (onConnect (configuring (states nc))).
Qed.

(** C4: from the constructed widget, the events focus(D),
    status(connecting), status(connected), message(open, page=config),
    action(connect) display Loading, Loading, Loading, Configuring,
    Connecting in that order.  D's session-ready continuation runs after
    the focus change, either at once or after status(connecting), and the
    open acknowledgement of the new comm may arrive before the message or
    not at all. *)
Theorem C4_display_sequence current docs (D : string) (data m : JSONObject) :
  is_open_config data = true →
  displayed (constructor current docs)
    [CurrentChanged (Some D); SessionReady D;
     ConnectionStatusChanged D cs_connecting; ConnectionStatusChanged D cs_connected;
     CommMsg 0 data; EmitConnect 0 m]
  = [st_loading; st_loading; st_loading; st_configuring 0; st_connecting 0]
  ∧ displayed (constructor current docs)
    [CurrentChanged (Some D); ConnectionStatusChanged D cs_connecting;
     SessionReady D; ConnectionStatusChanged D cs_connected;
     OpenDone 0; CommMsg 0 data; EmitConnect 0 m]
  = [st_loading; st_loading; st_loading; st_configuring 0; st_connecting 0].
Proof.
  intros Hd.
  pose proof (focus_stage current docs D) as H1.
  set (w0 := constructor current docs) in *.
  split.
  - pose proof (ready_stage _ _ _ _ H1) as H2.
    pose proof (connecting_stage _ _ _ _ H2) as H3.
    pose proof (connected_stage _ _ _ H3) as H4.
    pose proof (open_config_stage _ _ _ _ _ Hd H4) as H5.
    pose proof (connect_stage _ _ _ m _ H5) as H6.
    cbn [displayed is_continuation].
    destruct H1 as (-> & _), H3 as (-> & _), H4 as (-> & _), H5 as (-> & _).
    by rewrite H6.
  - pose proof (connecting_stage _ _ _ _ H1) as H2.
    pose proof (ready_stage _ _ _ _ H2) as H3.
    pose proof (connected_stage _ _ _ H3) as H4.
    pose proof (open_done_stage _ _ _ _ H4) as H4'.
    pose proof (open_config_stage _ _ _ _ _ Hd H4') as H5.
    pose proof (connect_stage _ _ _ m _ H5) as H6.
    cbn [displayed is_continuation].
    destruct H1 as (-> & _), H2 as (-> & _), H4 as (-> & _), H5 as (-> & _).
    by rewrite H6.
Qed.

Lemma C4_display_sequence_witness :
  displayed (constructor None docs_demo)
    [CurrentChanged (Some "D"); SessionReady "D";
     ConnectionStatusChanged "D" cs_connecting; ConnectionStatusChanged "D" cs_connected;
     CommMsg 0 msg_config; EmitConnect 0 connect_demo]
  = [st_loading; st_loading; st_loading; st_configuring 0; st_connecting 0].
Proof.
  apply (C4_display_sequence None docs_demo "D" msg_config connect_demo).
  reflexivity.
Defined.

(** ** How one event changes the comms, the registries and the subscriptions *)

#[local] Instance comm_le_preorder : PreOrder comm_le.
Proof.
  split.
  - by intros nc.
  - intros a b c (H1 & H2 & H3) (H4 & H5 & H6). repeat split; [congruence..|auto].
Qed.

#[local] Instance frame_preorder : PreOrder frame.
Proof.
  split.
  - intros w. repeat split; [|lia]. reflexivity.
  - intros a b c (H1 & H2 & H3 & H4) (H5 & H6 & H7 & H8). repeat split.
    + by etransitivity.
    + congruence.
    + congruence.
    + intros D. specialize (H4 D). specialize (H8 D). lia.
Qed.

Lemma frame_upd_comm c f w :
  (∀ nc, comm_le nc (f nc)) → frame w (upd_comm c f w).
Proof.
  intros Hf. repeat split; [|simpl; lia]. simpl.
  apply Forall2_alter_r; [reflexivity|].
  intros x y _ _ Hxy. by etransitivity.
Qed.

Lemma frame_upd_panel D f w :
  (∀ n, (connectionStatusChanged n ≤ connectionStatusChanged (f n))%nat) →
  frame w (upd_panel D f w).
Proof.
  intros Hf. repeat split; [reflexivity|].
  intros D'. simpl. destruct (decide (D = D')) as [->|Hne].
  - rewrite fn_lookup_insert. apply Hf.
  - by rewrite fn_lookup_insert_ne.
Qed.

Lemma frame_same w w' :
  comms w' = comms w → handlers w' = handlers w → statehandler w' = statehandler w →
  panels w' = panels w → frame w w'.
Proof.
  intros H1 H2 H3 H4. repeat split; [|done..|by rewrite H4].
  rewrite H1. reflexivity.
Qed.

Ltac frame_step :=
  lazymatch goal with
  | |- frame ?w ?w => reflexivity
  | |- frame ?w (upd_comm ?c ?f ?w') =>
      transitivity w'; [|apply frame_upd_comm; intros ?; by repeat split]
  | |- frame ?w (upd_panel ?D ?f ?w') =>
      transitivity w'; [|apply frame_upd_panel; intros ?; simpl; lia]
  | |- frame ?w (updateCurrent ?st ?w') =>
      transitivity w'; [|by apply frame_same]
  | |- frame ?w (set_currentWidget ?x ?w') =>
      transitivity w'; [|by apply frame_same]
  | |- frame ?w (set_reconnect_then ?x ?w') =>
      transitivity w'; [|by apply frame_same]
  | |- frame ?w (match comm_send ?c ?m ?w' with _ => _ end) =>
      rewrite (comm_send_match c m w')
  | |- frame ?w (match ?x with _ => _ end) => destruct x eqn:?
  end.

Lemma frame_iter (f : World → World) :
  (∀ w, frame w (f w)) → ∀ n w, frame w (Nat.iter n f w).
Proof.
  intros Hf n w. induction n as [|n IH]; simpl; [reflexivity|].
  etransitivity; [exact IH | apply Hf].
Qed.

Lemma frame_foldl {A} (f : World → A → World) :
  (∀ w a, frame w (f w a)) → ∀ l w, frame w (foldl f w l).
Proof.
  intros Hf l. induction l as [|a l IH]; intros w; simpl; [reflexivity|].
  etransitivity; [apply Hf | apply IH].
Qed.

Lemma onCommMessage_frame data c nc w : frame w (onCommMessage data c nc w).
Proof. unfold onCommMessage. cbv zeta. repeat frame_step. Qed.

Lemma onConnect_slot_frame c m w slot : frame w (onConnect_slot c m w slot).
Proof. unfold onConnect_slot. cbv zeta. repeat frame_step. Qed.

Lemma connected_onReconfigure_slot_frame c w :
  frame w (connected_onReconfigure_slot c w).
Proof. unfold connected_onReconfigure_slot. cbv zeta. repeat frame_step. Qed.

Lemma connectfailed_onReconfigure_slot_frame c w :
  frame w (connectfailed_onReconfigure_slot c w).
Proof. unfold connectfailed_onReconfigure_slot. cbv zeta. repeat frame_step. Qed.

Lemma onCurrentChanged_frame nb w : frame w (onCurrentChanged nb w).
Proof. unfold onCurrentChanged. cbv zeta. repeat frame_step. Qed.

Lemma onReady_frame nb w : frame w (onReady nb w).
Proof. unfold onReady. cbv zeta. repeat frame_step. Qed.

Lemma onStatusChanged_frame nb status w : frame w (onStatusChanged nb status w).
Proof. unfold onStatusChanged. repeat frame_step. Qed.

Lemma step_frame w e : touches_sessions e = false → frame w (step w e).
Proof.
  intros H.
  destruct e as [nb|nb|nb status|c|c|c data|c m|c|c|nb status|]; try discriminate H;
    cbn [step].
  - etransitivity; [|apply frame_iter, onCurrentChanged_frame]. by apply frame_same.
  - destruct (ready_then (panels w nb)) eqn:E; [reflexivity|].
    etransitivity; [|apply onReady_frame]. repeat frame_step.
  - destruct status; try discriminate H.
    etransitivity; [|apply frame_iter]; [repeat frame_step|].
    intros w'. simpl. repeat frame_step.
  - destruct (comms w !! c) as [nc|]; [|reflexivity]. unfold onMsg.
    destruct (currentWidget w); [|reflexivity].
    destruct (negb _); [reflexivity | apply onCommMessage_frame].
  - destruct (comms w !! c) as [nc|]; [|reflexivity].
    apply frame_foldl. intros; apply onConnect_slot_frame.
  - destruct (comms w !! c) as [nc|]; [|reflexivity].
    apply frame_iter. intros; apply connected_onReconfigure_slot_frame.
  - destruct (comms w !! c) as [nc|]; [|reflexivity].
    apply frame_iter. intros; apply connectfailed_onReconfigure_slot_frame.
  - apply frame_iter. intros; apply onStatusChanged_frame.
Qed.

(** ** The invariant of reachable worlds *)

Lemma handlers_sub_refl h : handlers_sub h h.
Proof. split; [done|]. intros i m H. by exists m. Qed.

Lemma handlers_sub_delete D i h : handlers_sub h (alter (delete D) i h).
Proof.
  split; [apply length_alter|]. intros j m'. rewrite list_lookup_alter.
  case_decide as E; [subst j|by eauto].
  destruct (h !! i) as [m|]; [|done]. simpl. intros [= <-].
  exists m. split; [done|]. apply delete_subseteq.
Qed.

Lemma Inv_evolves w w' :
  Inv w → Forall2 comm_le (comms w) (comms w') →
  handlers_sub (handlers w) (handlers w') → statehandler w' = statehandler w →
  (∀ D, (connectionStatusChanged (panels w D) ≤ connectionStatusChanged (panels w' D))%nat) →
  Inv w'.
Proof.
  intros (I0 & I1 & I2) Hc [Hl Hh] Hs Hp. repeat split.
  - rewrite Hs, Hl. exact I0.
  - intros c nc' Hc'.
    destruct (Forall2_lookup_r _ _ _ _ _ Hc Hc') as (nc & Hnc & (Hn & _)).
    rewrite Hn. specialize (I1 c nc Hnc). specialize (Hp (notebook nc)). lia.
  - intros i m' D c Hi HD.
    destruct (Hh i m' Hi) as (m & Hm & Hsub).
    destruct (I2 i m D c Hm (lookup_weaken _ _ _ _ HD Hsub))
      as (nc & Hnc & Hn & Hd & Hr).
    destruct (Forall2_lookup_l _ _ _ _ _ Hc Hnc) as (nc' & Hnc' & (Hn' & Hr' & Hd')).
    exists nc'. repeat split; [done|congruence|auto|congruence].
Qed.

Lemma Inv_frame w w' : Inv w → frame w w' → Inv w'.
Proof.
  intros HI (Hc & Hh & Hs & Hp).
  apply (Inv_evolves w w' HI Hc); [|done..]. rewrite Hh. apply handlers_sub_refl.
Qed.

(** The transport became 'connected': one comm per slot. *)
Lemma connected_iter nb n w :
  let w' := Nat.iter n (onConnectionStatusChanged nb cs_connected) w in
  comms w'
  = comms w ++ replicate n (mkNotebookComm nb new_NotebookStates
                              (mkIComm false false [CommOpen msg_open] (statehandler w)))
  ∧ handlers w' = handlers w ∧ statehandler w' = statehandler w
  ∧ panels w' = panels w ∧ currentState w' = currentState w
  ∧ currentWidget w' = currentWidget w ∧ update_calls w' = update_calls w.
Proof.
  induction n as [|n (H1 & H2 & H3 & H4 & H5 & H6 & H7)].
  - simpl. by rewrite app_nil_r.
  - simpl. rewrite H1, H3, replicate_cons_app, app_assoc. done.
Qed.

(** The transport became 'connecting': the session is closed once per
    slot. *)
Lemma closing_iter nb n w :
  let w' := Nat.iter n (onConnectionStatusChanged nb cs_connecting) w in
  handlers w'
  = match n with 0 => handlers w | S _ => alter (delete nb) (statehandler w) (handlers w) end
  ∧ currentState w' = match n with 0 => currentState w | S _ => st_loading end
  ∧ comms w' = comms w ∧ statehandler w' = statehandler w
  ∧ panels w' = panels w ∧ currentWidget w' = currentWidget w
  ∧ currentChanged w' = currentChanged w ∧ reconnect_then w' = reconnect_then w.
Proof.
  induction n as [|n (H1 & H2 & H3 & H4 & H5 & H6 & H7 & H8)]; [done|].
  simpl. rewrite H1, H4. repeat split; [|done..].
  destruct n; [done|]. rewrite list_alter_alter_eq. apply list_alter_ext; [|done].
  intros m _. simpl. apply delete_delete_eq.
Qed.

Lemma Inv_constructor current docs : Inv (constructor current docs).
Proof.
  repeat split; simpl.
  - lia.
  - intros c nc H. done.
  - intros [|i] m D c H HD; simpl in H; [|done].
    injection H as <-. by rewrite lookup_empty in HD.
Qed.

Lemma Inv_step w e : Inv w → Inv (step w e).
Proof.
  intros HI. destruct (touches_sessions e) eqn:Ht.
  2: { eapply Inv_frame; [exact HI | by apply step_frame]. }
  destruct HI as (I0 & I1 & I2).
  destruct e as [nb|nb|nb status|c|c|c data|c m|c|c|nb status|]; try discriminate Ht;
    cbn [step].
  - destruct status; try discriminate Ht.
    + (* connected *)
      destruct (connected_iter nb (connectionStatusChanged (panels w nb))
                  (upd_panel nb (set_connectionStatus cs_connected) w))
        as (H1 & H2 & H3 & H4 & _).
      repeat split.
      * by rewrite H2, H3.
      * intros c nc. rewrite H1, H4. simpl.
        rewrite lookup_app_Some. intros [Hc|[_ Hc]].
        -- specialize (I1 c nc Hc).
           destruct (decide (nb = notebook nc)) as [->|Hne];
             [by rewrite fn_lookup_insert | by rewrite fn_lookup_insert_ne].
        -- apply lookup_replicate in Hc as [-> Hn]. simpl in *.
           rewrite fn_lookup_insert in *. simpl. lia.
      * intros i m D c. rewrite H1, H2. simpl. intros Hi HD.
        destruct (I2 i m D c Hi HD) as (nc & Hnc & Hrest).
        exists nc. split; [|done]. by apply lookup_app_l_Some.
    + (* connecting *)
      destruct (closing_iter nb (connectionStatusChanged (panels w nb))
                  (upd_panel nb (set_connectionStatus cs_connecting) w))
        as (H1 & _ & H3 & H4 & H5 & _).
      apply (Inv_evolves w); [by repeat split|by rewrite H3|..|done|].
      * rewrite H1. destruct (connectionStatusChanged _);
          [apply handlers_sub_refl | apply handlers_sub_delete].
      * intros D. rewrite H5. simpl.
        destruct (decide (nb = D)) as [->|Hne];
          [by rewrite fn_lookup_insert | by rewrite fn_lookup_insert_ne].
  - (* open acknowledged *)
    destruct (comms w !! c) as [nc|] eqn:Hc; [|done].
    destruct (open_done (comm nc)) eqn:Hd; [done|].
    repeat split; simpl.
    + by rewrite length_alter.
    + intros c' nc'. rewrite list_lookup_alter. case_decide as E.
      * subst c'. rewrite Hc. simpl. intros [= <-]. exact (I1 c nc Hc).
      * apply I1.
    + intros i m D c'. rewrite list_lookup_alter. case_decide as E.
      * subst i. destruct (handlers w !! registry (comm nc)) as [m0|] eqn:Hm0; [|done].
        simpl. intros [= <-]. rewrite lookup_insert. case_decide as E'.
        -- intros [= <-]. subst D. rewrite list_lookup_alter_eq, Hc. simpl.
           eexists; repeat split; done.
        -- intros HD. destruct (I2 _ _ _ _ Hm0 HD) as (nc0 & Hnc0 & Hn & Ho & Hr).
           rewrite list_lookup_alter. case_decide as E''.
           ++ subst c'. rewrite Hc in Hnc0 |- *. injection Hnc0 as <-. simpl.
              eexists; repeat split; done.
           ++ by exists nc0.
      * intros Hi HD. destruct (I2 _ _ _ _ Hi HD) as (nc0 & Hnc0 & Hn & Ho & Hr).
        rewrite list_lookup_alter. case_decide as E''.
        -- subst c'. rewrite Hc in Hnc0 |- *. injection Hnc0 as <-. simpl.
           eexists; repeat split; done.
        -- by exists nc0.
  - (* comm closed *)
    destruct (comms w !! c) as [nc|] eqn:Hc; [|done].
    apply (Inv_evolves w); [by repeat split|..|done|done].
    + simpl. apply Forall2_alter_r; [reflexivity|].
      intros x y _ _ Hxy. etransitivity; [exact Hxy|]. by repeat split.
    + simpl. apply handlers_sub_delete.
  - (* reset *)
    destruct (reconnect_then w) as [|k]; [done|].
    repeat split; simpl.
    + rewrite length_app. simpl. lia.
    + apply I1.
    + intros i m D c. rewrite lookup_app_Some. intros [Hi|[_ Hi]] HD.
      * by apply (I2 i m D c).
      * apply list_lookup_singleton_Some in Hi as [_ <-]. by rewrite lookup_empty in HD.
Qed.

Lemma Inv_run es : ∀ w, Inv w → Inv (run w es).
Proof.
  induction es as [|e es IH]; intros w HI; [done|].
  apply IH, Inv_step, HI.
Qed.

Lemma reachable_Inv w : reachable w → Inv w.
Proof. intros (current & docs & es & ->). apply Inv_run, Inv_constructor. Qed.

(** ** The session registry *)

Lemma reachable_run current docs es : reachable (run (constructor current docs) es).
Proof. by exists current, docs, es. Qed.

Lemma reachable_step w e : reachable w → reachable (step w e).
Proof.
  intros (current & docs & es & ->). exists current, docs, (es ++ [e]).
  unfold run. by rewrite foldl_snoc.
Qed.

Ltac reachable_demo :=
  unfold w_closed, w_registered, w_created;
  repeat apply reachable_step; apply (reachable_run _ _ []).

(** C1, as stated, fails in both directions.  After the open of D's comm
    was acknowledged, the transport status 'connecting' makes the widget
    call [close(D)], which deletes the registry entry and leaves the comm
    as it is; an acknowledged, non-disposed channel for D then exists
    without a registry entry.  And when D's comm is closed before its open
    is acknowledged, the acknowledgement registers the disposed comm: an
    entry for D exists, and no open channel for D does. *)
Lemma C1_counterexample :
  (reachable w_closed
   ∧ ¬ (is_Some (session w_closed "D") ↔ open_channel w_closed "D"))
  ∧ (reachable w_late
     ∧ session w_late "D" = Some 0
     ∧ (∃ nc, comms w_late !! 0 = Some nc ∧ isDisposed (comm nc) = true)
     ∧ ¬ (is_Some (session w_late "D") ↔ open_channel w_late "D")).
Proof.
  split; [split|split; [|split; [|split]]].
  - reachable_demo.
  - intros [_ H].
    assert (Ho : open_channel w_closed "D").
    { exists 0, nc_registered. repeat split; vm_compute; reflexivity. }
    destruct (H Ho) as [c Hc]. vm_compute in Hc. discriminate Hc.
  - unfold w_late, w_created, run. cbn [foldl].
    repeat apply reachable_step. apply (reachable_run _ _ []).
  - vm_compute. reflexivity.
  - eexists. split; vm_compute; reflexivity.
  - intros [H _].
    destruct H as (c & nc & Hc & _ & _ & Hd); [by exists 0; vm_compute|].
    destruct c as [|c]; vm_compute in Hc; [|discriminate Hc].
    injection Hc as <-. discriminate Hd.
Qed.

#[local] Instance same_disposed_preorder : PreOrder same_disposed.
Proof.
  split; [by intros nc|]. unfold same_disposed. intros a b c H1 H2. congruence.
Qed.

#[local] Instance keeps_disposed_preorder : PreOrder keeps_disposed.
Proof.
  split; [intros w; unfold keeps_disposed; reflexivity|].
  intros a b c H1 H2. unfold keeps_disposed in *. by etransitivity.
Qed.

Ltac disposed_leaf :=
  unfold keeps_disposed; simpl;
  first [ reflexivity
        | apply Forall2_alter_r; [reflexivity|];
          unfold same_disposed; intros ? ? _ _ <-; reflexivity ].

(** Only the close of a comm disposes it. *)
Lemma step_keeps_disposed w e :
  touches_sessions e = false → keeps_disposed w (step w e).
Proof.
  intros H.
  destruct e as [nb|nb|nb status|c|c|c data|c m|c|c|nb status|]; try discriminate H;
    cbn [step].
  - etransitivity; [|apply (rel_iter keeps_disposed)]; [repeat walk disposed_leaf|].
    intros w'. unfold onCurrentChanged. cbv zeta. repeat walk disposed_leaf.
  - unfold onReady. cbv zeta. repeat walk disposed_leaf.
  - destruct status; try discriminate H.
    etransitivity; [|apply (rel_iter keeps_disposed)]; [repeat walk disposed_leaf|].
    intros w'. unfold onConnectionStatusChanged. repeat walk disposed_leaf.
  - destruct (comms w !! c) as [nc|]; [|reflexivity]. unfold onMsg.
    destruct (currentWidget w); [|reflexivity].
    destruct (negb _); [reflexivity|].
    unfold onCommMessage. cbv zeta. repeat walk disposed_leaf.
  - destruct (comms w !! c) as [nc|]; [|reflexivity].
    apply (rel_foldl keeps_disposed). intros w' slot.
    unfold onConnect_slot. cbv zeta. repeat walk disposed_leaf.
  - destruct (comms w !! c) as [nc|]; [|reflexivity].
    apply (rel_iter keeps_disposed). intros w'.
    unfold connected_onReconfigure_slot. cbv zeta. repeat walk disposed_leaf.
  - destruct (comms w !! c) as [nc|]; [|reflexivity].
    apply (rel_iter keeps_disposed). intros w'.
    unfold connectfailed_onReconfigure_slot. cbv zeta. repeat walk disposed_leaf.
  - apply (rel_iter keeps_disposed). intros w'. unfold onStatusChanged.
    repeat walk disposed_leaf.
Qed.

(** While no acknowledgement arrives for a closed comm, the entries of
    the registries stay comms that are not disposed: the close of a comm
    removes the one entry that names it. *)
Lemma entries_live_step w e :
  Inv w → entries_live w → acks_precede_closes w [e] = true →
  entries_live (step w e).
Proof.
  intros (I0 & I1 & I2) HL Hack. destruct (touches_sessions e) eqn:Ht.
  2: { destruct (step_frame w e Ht) as (_ & Hh & _).
       pose proof (step_keeps_disposed w e Ht) as Hd.
       intros i m D c Hi HD. rewrite Hh in Hi.
       destruct (HL i m D c Hi HD) as (nc & Hnc & Hlive).
       destruct (Forall2_lookup_l _ _ _ _ _ Hd Hnc) as (nc' & Hnc' & Hsame).
       exists nc'. split; [done|]. by rewrite Hsame. }
  destruct e as [nb|nb|nb status|c|c|c data|c m|c|c|nb status|]; try discriminate Ht;
    cbn [step].
  - destruct status; try discriminate Ht.
    + destruct (connected_iter nb (connectionStatusChanged (panels w nb))
                  (upd_panel nb (set_connectionStatus cs_connected) w))
        as (H1 & H2 & _).
      intros i m D c. rewrite H1, H2. simpl. intros Hi HD.
      destruct (HL i m D c Hi HD) as (nc & Hnc & Hlive).
      exists nc. split; [|done]. by apply lookup_app_l_Some.
    + destruct (closing_iter nb (connectionStatusChanged (panels w nb))
                  (upd_panel nb (set_connectionStatus cs_connecting) w))
        as (H1 & _ & H3 & _).
      assert (Hsub : handlers_sub (handlers w)
                (handlers (Nat.iter (connectionStatusChanged (panels w nb))
                             (onConnectionStatusChanged nb cs_connecting)
                             (upd_panel nb (set_connectionStatus cs_connecting) w)))).
      { rewrite H1. destruct (connectionStatusChanged _);
          [apply handlers_sub_refl | apply handlers_sub_delete]. }
      intros i m' D c Hi HD. rewrite H3. simpl.
      destruct (proj2 Hsub i m' Hi) as (m & Hm & Hmm).
      exact (HL i m D c Hm (lookup_weaken _ _ _ _ HD Hmm)).
  - (* open acknowledged *)
    simpl in Hack. rewrite andb_true_r in Hack.
    destruct (comms w !! c) as [nc|] eqn:Hc; [|done].
    apply negb_true_iff in Hack.
    destruct (open_done (comm nc)) eqn:Hd; [done|].
    assert (Hcomm : ∀ c' nc0, comms w !! c' = Some nc0 → isDisposed (comm nc0) = false →
              ∃ nc', alter resolve_done c (comms w) !! c' = Some nc'
                     ∧ isDisposed (comm nc') = false).
    { intros c' nc0 Hc' Hlive. rewrite list_lookup_alter.
      case_decide as E; [subst c'|]; rewrite Hc'; simpl;
        (eexists; split; [reflexivity|]); exact Hlive. }
    intros i m' D c'. simpl. rewrite list_lookup_alter. case_decide as E.
    + subst i. destruct (handlers w !! registry (comm nc)) as [m0|] eqn:Hm0; [|done].
      simpl. intros [= <-]. rewrite lookup_insert. case_decide as E'.
      * intros [= <-]. by apply (Hcomm c nc).
      * intros HD. destruct (HL _ _ _ _ Hm0 HD) as (nc0 & Hnc0 & Hlive).
        by apply (Hcomm c' nc0).
    + intros Hi HD. destruct (HL _ _ _ _ Hi HD) as (nc0 & Hnc0 & Hlive).
      by apply (Hcomm c' nc0).
  - (* comm closed *)
    destruct (comms w !! c) as [nc|] eqn:Hc; [|done].
    intros i m' D c' Hi HD. simpl in Hi |- *.
    destruct (proj2 (handlers_sub_delete (notebook nc) (registry (comm nc)) (handlers w))
                i m' Hi) as (m & Hm & Hmm).
    pose proof (lookup_weaken _ _ _ _ HD Hmm) as HD0.
    destruct (HL i m D c' Hm HD0) as (nc0 & Hnc0 & Hlive).
    rewrite list_lookup_alter. case_decide as E; [|by exists nc0].
    subst c'. exfalso.
    destruct (I2 i m D c Hm HD0) as (nc1 & Hnc1 & Hn & _ & Hr).
    assert (nc1 = nc) as -> by congruence. subst i D.
    rewrite list_lookup_alter_eq, Hm in Hi. simpl in Hi. injection Hi as <-.
    by rewrite lookup_delete_eq in HD.
  - (* reset *)
    destruct (reconnect_then w) as [|k]; [done|].
    intros i m D c. simpl. rewrite lookup_app_Some. intros [Hi|[_ Hi]] HD.
    + by apply (HL i m D c).
    + apply list_lookup_singleton_Some in Hi as [_ <-]. by rewrite lookup_empty in HD.
Qed.

Lemma entries_live_run es : ∀ w,
  Inv w → entries_live w → acks_precede_closes w es = true →
  entries_live (run w es).
Proof.
  induction es as [|e es IH]; intros w HI HL Hack; [done|].
  cbn [acks_precede_closes] in Hack. apply andb_true_iff in Hack as [He Hes].
  cbn [run foldl]. change (foldl step (step w e) es) with (run (step w e) es).
  apply IH; [by apply Inv_step| |exact Hes].
  apply entries_live_step; [done..|]. cbn [acks_precede_closes]. by rewrite He.
Qed.

Lemma session_alter f i w w' :
  handlers w' = alter f i (handlers w) → statehandler w' = statehandler w →
  ∀ D, session w' D
       = match handlers w !! statehandler w with
         | Some m => (if decide (i = statehandler w) then f m else m) !! D
         | None => None
         end.
Proof.
  intros Hh Hs D. unfold session, StateHandler.states_of.
  rewrite Hh, Hs, list_lookup_alter.
  case_decide as E; [subst i|]; by destruct (handlers w !! statehandler w).
Qed.

Lemma session_same w w' :
  handlers w' = handlers w → statehandler w' = statehandler w →
  ∀ D, session w' D = session w D.
Proof. intros Hh Hs D. unfold session, StateHandler.states_of. by rewrite Hh, Hs. Qed.

Lemma session_unfold w D :
  session w D
  = match handlers w !! statehandler w with Some m => m !! D | None => None end.
Proof.
  unfold session, StateHandler.states_of.
  by destruct (handlers w !! statehandler w).
Qed.

(** What each kind of event does to the entry of D in the current
    registry. *)
Lemma session_step w e D :
  match e with
  | OpenDone c =>
      match comms w !! c with
      | Some nc =>
          if decide (open_done (comm nc) = false ∧ registry (comm nc) = statehandler w
                     ∧ notebook nc = D ∧ statehandler w < length (handlers w))
          then session (step w e) D = Some c
          else session (step w e) D = session w D
      | None => session (step w e) D = session w D
      end
  | CommClose c =>
      match comms w !! c with
      | Some nc =>
          if decide (registry (comm nc) = statehandler w ∧ notebook nc = D)
          then session (step w e) D = None
          else session (step w e) D = session w D
      | None => session (step w e) D = session w D
      end
  | ConnectionStatusChanged nb cs_connecting =>
      if decide (nb = D ∧ 0 < connectionStatusChanged (panels w nb))
      then session (step w e) D = None
      else session (step w e) D = session w D
  | Reconnected =>
      match reconnect_then w with
      | 0 => session (step w e) D = session w D
      | S _ => session (step w e) D = None
      end
  | _ => session (step w e) D = session w D
  end.
Proof.
  destruct (touches_sessions e) eqn:Ht.
  2: { destruct (step_frame w e Ht) as (_ & Hh & Hs & _).
       pose proof (session_same _ _ Hh Hs D) as Hsame.
       destruct e as [| |? []| | | | | | | |]; try discriminate Ht; exact Hsame. }
  destruct e as [nb|nb|nb status|c|c|c data|c m|c|c|nb status|]; try discriminate Ht.
  - destruct status; try discriminate Ht.
    + destruct (connected_iter nb (connectionStatusChanged (panels w nb))
                  (upd_panel nb (set_connectionStatus cs_connected) w))
        as (_ & H2 & H3 & _).
      by apply session_same.
    + destruct (closing_iter nb (connectionStatusChanged (panels w nb))
                  (upd_panel nb (set_connectionStatus cs_connecting) w))
        as (H1 & _ & _ & H4 & _).
      cbn [step].
      destruct (connectionStatusChanged (panels w nb)) as [|k] eqn:Hk.
      * rewrite decide_False by lia. by apply session_same.
      * rewrite (session_alter _ _ w _ H1 H4 D), session_unfold.
        destruct (handlers w !! statehandler w) as [m|]; [|by case_decide].
        rewrite !(decide_True (P := statehandler _ = statehandler _)) by done.
        case_decide as E.
        -- destruct E as [-> _]. apply lookup_delete_eq.
        -- apply lookup_delete_ne. intros ->. apply E. split; [done|lia].
  - cbn [step]. destruct (comms w !! c) as [nc|] eqn:Hc; [|done].
    destruct (open_done (comm nc)) eqn:Hd.
    { rewrite decide_False; [done|]. intros (? & _). congruence. }
    rewrite (session_alter (insert (notebook nc) c) (registry (comm nc)) w
               (StateHandler.create_done c nc (upd_comm c resolve_done w))
               eq_refl eq_refl D), session_unfold.
    destruct (handlers w !! statehandler w) as [m|] eqn:Hm.
    + case_decide as E.
      * destruct E as (_ & -> & -> & _).
        rewrite decide_True by done. apply lookup_insert_eq.
      * case_decide as E'; [|done].
        apply lookup_insert_ne. intros HD. apply E. repeat split; [done..|].
        by apply lookup_lt_Some in Hm.
    + rewrite decide_False; [done|]. intros (_ & _ & _ & Hlt).
      apply lookup_ge_None in Hm. lia.
  - cbn [step]. destruct (comms w !! c) as [nc|] eqn:Hc; [|done].
    rewrite (session_alter (delete (notebook nc)) (registry (comm nc)) w
               (StateHandler.create_onClose nc (upd_comm c dispose w))
               eq_refl eq_refl D), session_unfold.
    destruct (handlers w !! statehandler w) as [m|] eqn:Hm; [|by case_decide].
    case_decide as E.
    + destruct E as [-> ->]. rewrite decide_True by done. apply lookup_delete_eq.
    + case_decide as E'; [|done].
      apply lookup_delete_ne. intros HD. by apply E.
  - cbn [step]. destruct (reconnect_then w) as [|k]; [done|].
    unfold session, StateHandler.states_of. simpl.
    by rewrite lookup_app_r, Nat.sub_diag by lia.
Qed.

(** C1 (amended): in every reachable world, an entry [D ↦ c] of the
    Session Registry is a channel created for D through this registry
    whose open handshake was acknowledged (an open channel may exist
    without an entry, after an explicit close).  The acknowledgement of
    such a channel's open registers it, and an entry for D appears only
    at such an acknowledgement.  The entry is removed when a channel of D
    created through this registry closes, when D's session is explicitly
    closed (transport status 'connecting'), and when the registry is
    replaced at the reset, and it disappears at no other event.  The
    channel of an entry is not disposed as long as no acknowledgement
    arrived for a channel that was closed before. *)
Theorem C1_registry_entries (w : World) (D : string) :
  reachable w →
  (∀ c, session w D = Some c →
        ∃ nc, comms w !! c = Some nc ∧ notebook nc = D
              ∧ open_done (comm nc) = true ∧ registry (comm nc) = statehandler w)
  ∧ (∀ c nc, comms w !! c = Some nc → notebook nc = D →
             open_done (comm nc) = false → registry (comm nc) = statehandler w →
             session (step w (OpenDone c)) D = Some c)
  ∧ (∀ nb, session (step w (ConnectionStatusChanged nb cs_connected)) D = session w D)
  ∧ (∀ e, session w D = None → is_Some (session (step w e) D) →
          ∃ c nc, e = OpenDone c ∧ comms w !! c = Some nc ∧ notebook nc = D
                  ∧ open_done (comm nc) = false
                  ∧ registry (comm nc) = statehandler w)
  ∧ (∀ e, is_Some (session w D) → session (step w e) D = None →
          (∃ c nc, e = CommClose c ∧ comms w !! c = Some nc ∧ notebook nc = D
                   ∧ registry (comm nc) = statehandler w)
          ∨ e = ConnectionStatusChanged D cs_connecting
          ∨ e = Reconnected)
  ∧ (∀ c nc, comms w !! c = Some nc → notebook nc = D →
             registry (comm nc) = statehandler w →
             session (step w (CommClose c)) D = None)
  ∧ (is_Some (session w D) →
     session (step w (ConnectionStatusChanged D cs_connecting)) D = None)
  ∧ (reconnect_then w ≠ 0 → session (step w Reconnected) D = None)
  ∧ (∀ current docs es,
       w = run (constructor current docs) es →
       acks_precede_closes (constructor current docs) es = true →
       ∀ c, session w D = Some c →
            ∃ nc, comms w !! c = Some nc ∧ isDisposed (comm nc) = false).
Proof.
  intros Hr. destruct (reachable_Inv w Hr) as (I0 & I1 & I2).
  split; [|split; [|split; [|split; [|split; [|split; [|split; [|split]]]]]]].
  - intros c Hs. rewrite session_unfold in Hs.
    destruct (handlers w !! statehandler w) as [m|] eqn:Hm; [|done].
    exact (I2 _ _ _ _ Hm Hs).
  - intros c nc Hc Hn Hd Hreg.
    pose proof (session_step w (OpenDone c) D) as H. cbv beta iota in H.
    rewrite Hc in H. rewrite decide_True in H; [exact H|].
    repeat split; done.
  - intros nb. exact (session_step w (ConnectionStatusChanged nb cs_connected) D).
  - intros e Hnone [c' Hsome]. pose proof (session_step w e D) as H.
    destruct e as [| |? []|c|c| | | | | |]; try congruence.
    + case_decide; congruence.
    + destruct (comms w !! c) as [nc|] eqn:Hc; [|congruence].
      case_decide as E; [|congruence].
      destruct E as (E1 & E2 & E3 & _). by exists c, nc.
    + destruct (comms w !! c) as [nc|]; [case_decide|]; congruence.
    + destruct (reconnect_then w); congruence.
  - intros e [c' Hsome] Hnone. pose proof (session_step w e D) as H.
    destruct e as [| |nb []|c|c| | | | | |]; try congruence.
    + case_decide as E; [|congruence]. destruct E as [-> _]. by right; left.
    + destruct (comms w !! c) as [nc|]; [case_decide|]; congruence.
    + destruct (comms w !! c) as [nc|] eqn:Hc; [|congruence].
      case_decide as E; [|congruence]. destruct E as [E1 E2].
      left. by exists c, nc.
    + by right; right.
  - intros c nc Hc Hn Hreg.
    pose proof (session_step w (CommClose c) D) as H. cbv beta iota in H.
    rewrite Hc in H. by rewrite decide_True in H.
  - intros [c Hs]. rewrite session_unfold in Hs.
    destruct (handlers w !! statehandler w) as [m|] eqn:Hm; [|done].
    destruct (I2 _ _ _ _ Hm Hs) as (nc & Hc & Hn & _).
    pose proof (I1 c nc Hc) as Hsub. rewrite Hn in Hsub.
    pose proof (session_step w (ConnectionStatusChanged D cs_connecting) D) as H.
    cbv beta iota in H. by rewrite decide_True in H.
  - intros Hk. pose proof (session_step w Reconnected D) as H. cbv beta iota in H.
    by destruct (reconnect_then w).
  - intros current docs es -> Hack c Hs. rewrite session_unfold in Hs.
    destruct (handlers (run (constructor current docs) es)
                !! statehandler (run (constructor current docs) es))
      as [m|] eqn:Hm; [|done].
    refine (entries_live_run es (constructor current docs) _ _ Hack _ _ _ _ Hm Hs).
    + apply Inv_constructor.
    + intros [|i] m0 D0 c0 Hi HD; simpl in Hi; [|done].
      injection Hi as <-. by rewrite lookup_empty in HD.
Qed.

Lemma C1_registry_entries_witness :
  session w_created "D" = None
  ∧ session (step w_created (OpenDone 0)) "D" = Some 0
  ∧ session (step w_registered (CommClose 0)) "D" = None.
Proof.
  split; [reflexivity|]. split.
  - destruct (C1_registry_entries w_created "D") as (_ & H & _).
    + reachable_demo.
    + apply (H 0 (mkNotebookComm "D" new_NotebookStates
                    (mkIComm false false [CommOpen msg_open] 0))); reflexivity.
  - destruct (C1_registry_entries w_registered "D") as (_ & _ & _ & _ & _ & H & _).
    + reachable_demo.
    + apply (H 0 nc_registered); reflexivity.
Defined.

(** ** Transport status 'connecting' *)

(** C6: in a reachable world where a session for D is registered, the
    transport status 'connecting' for D displays Loading and removes D's
    registry entry; no comm is touched (nothing is sent, no phase data
    changes), the other entries, the other registries, the focus and the
    subscriptions stay as they are, and the documents change only in D's
    recorded connection status. *)
Theorem C6_connecting_closes_session (w : World) (D : string) :
  reachable w → is_Some (session w D) →
  currentState (step w (ConnectionStatusChanged D cs_connecting)) = st_loading
  ∧ session (step w (ConnectionStatusChanged D cs_connecting)) D = None
  ∧ (∀ D', D' ≠ D →
       session (step w (ConnectionStatusChanged D cs_connecting)) D' = session w D')
  ∧ comms (step w (ConnectionStatusChanged D cs_connecting)) = comms w
  ∧ (∀ i, i ≠ statehandler w →
       handlers (step w (ConnectionStatusChanged D cs_connecting)) !! i
       = handlers w !! i)
  ∧ statehandler (step w (ConnectionStatusChanged D cs_connecting)) = statehandler w
  ∧ currentWidget (step w (ConnectionStatusChanged D cs_connecting)) = currentWidget w
  ∧ panels (step w (ConnectionStatusChanged D cs_connecting))
    = <[D := set_connectionStatus cs_connecting (panels w D)]> (panels w)
  ∧ currentChanged (step w (ConnectionStatusChanged D cs_connecting)) = currentChanged w
  ∧ reconnect_then (step w (ConnectionStatusChanged D cs_connecting)) = reconnect_then w.
Proof.
  intros Hr [c Hs]. destruct (reachable_Inv w Hr) as (I0 & I1 & I2).
  assert (Hsubs : 0 < connectionStatusChanged (panels w D)).
  { rewrite session_unfold in Hs.
    destruct (handlers w !! statehandler w) as [m|] eqn:Hm; [|done].
    destruct (I2 _ _ _ _ Hm Hs) as (nc & Hc & <- & _). exact (I1 c nc Hc). }
  pose proof (λ D', session_step w (ConnectionStatusChanged D cs_connecting) D') as Hstep.
  cbn beta iota in Hstep.
  destruct (closing_iter D (connectionStatusChanged (panels w D))
              (upd_panel D (set_connectionStatus cs_connecting) w))
    as (H1 & H2 & H3 & H4 & H5 & H6 & H7 & H8).
  destruct (connectionStatusChanged (panels w D)) as [|k] eqn:Hk; [lia|].
  cbn [step]. rewrite Hk. repeat split; try done.
  - specialize (Hstep D). rewrite decide_True in Hstep by (split; [done|lia]).
    cbn [step] in Hstep. by rewrite Hk in Hstep.
  - intros D' Hne. specialize (Hstep D').
    rewrite decide_False in Hstep by (intros [? _]; congruence).
    cbn [step] in Hstep. by rewrite Hk in Hstep.
  - intros i Hi. rewrite H1. simpl. by rewrite list_lookup_alter_ne.
Qed.

Lemma C6_connecting_closes_session_witness :
  currentState w_closed = st_loading ∧ session w_closed "D" = None
  ∧ comms w_closed = comms w_registered.
Proof.
  destruct (C6_connecting_closes_session w_registered "D") as (H1 & H2 & _ & H4 & _).
  - reachable_demo.
  - exists 0. reflexivity.
  - exact (conj H1 (conj H2 H4)).
Defined.

(** ** The saved configuration across a session *)

#[local] Instance meta_same_preorder : PreOrder meta_same.
Proof.
  split.
  - by intros w D.
  - intros a b c H1 H2 D. by rewrite H2, H1.
Qed.

Lemma meta_same_panels w w' : panels w' = panels w → meta_same w w'.
Proof. intros H D. by rewrite H. Qed.

Lemma meta_same_upd_panel D f w :
  (∀ n, metadata (f n) = metadata n) → meta_same w (upd_panel D f w).
Proof.
  intros Hf D'. simpl. destruct (decide (D = D')) as [->|Hne].
  - by rewrite fn_lookup_insert, Hf.
  - by rewrite fn_lookup_insert_ne.
Qed.

Ltac meta_step :=
  lazymatch goal with
  | |- meta_same ?w ?w => reflexivity
  | |- meta_same ?w (upd_panel ?D ?f ?w') =>
      transitivity w'; [|apply meta_same_upd_panel; by intros ?]
  | |- meta_same ?w (upd_comm ?c ?f ?w') =>
      transitivity w'; [|by apply meta_same_panels]
  | |- meta_same ?w (updateCurrent ?st ?w') =>
      transitivity w'; [|by apply meta_same_panels]
  | |- meta_same ?w (set_currentWidget ?x ?w') =>
      transitivity w'; [|by apply meta_same_panels]
  | |- meta_same ?w (set_reconnect_then ?x ?w') =>
      transitivity w'; [|by apply meta_same_panels]
  | |- meta_same ?w (StateHandler.close ?t ?D ?w') =>
      transitivity w'; [|by apply meta_same_panels]
  | |- meta_same ?w (StateHandler.create_done ?c ?nc ?w') =>
      transitivity w'; [|by apply meta_same_panels]
  | |- meta_same ?w (StateHandler.create_onClose ?nc ?w') =>
      transitivity w'; [|by apply meta_same_panels]
  | |- meta_same ?w (snd (StateHandler.create ?t ?D ?w')) =>
      transitivity w'; [|by apply meta_same_panels]
  | |- meta_same ?w (onReconnected ?w') =>
      transitivity w'; [|by apply meta_same_panels]
  | |- meta_same ?w (match comm_send ?c ?m ?w' with _ => _ end) =>
      rewrite (comm_send_match c m w')
  | |- meta_same ?w (match ?x with _ => _ end) => destruct x eqn:?
  end.

Lemma meta_same_iter (f : World → World) :
  (∀ w, meta_same w (f w)) → ∀ n w, meta_same w (Nat.iter n f w).
Proof.
  intros Hf n w. induction n as [|n IH]; simpl; [reflexivity|].
  etransitivity; [exact IH | apply Hf].
Qed.

Lemma onCommMessage_meta data c nc w : meta_same w (onCommMessage data c nc w).
Proof. unfold onCommMessage. cbv zeta. repeat meta_step. Qed.

Lemma onConnect_slot_comm c m w slot nc :
  comms w !! c = Some nc →
  ∃ nc', comms (onConnect_slot c m w slot) !! c = Some nc' ∧ notebook nc' = notebook nc.
Proof.
  intros Hc. rewrite (onConnect_slot_unfold c m w slot nc Hc).
  destruct (isDisposed (comm nc)); simpl;
    rewrite !list_lookup_alter_eq, Hc; simpl; eauto.
Qed.

Lemma emit_connect_comm c m slots : ∀ w nc,
  comms w !! c = Some nc →
  ∃ nc', comms (foldl (onConnect_slot c m) w slots) !! c = Some nc'
         ∧ notebook nc' = notebook nc.
Proof.
  induction slots as [|slot slots IH]; intros w nc Hc; simpl; [by eauto|].
  destruct (onConnect_slot_comm c m w slot nc Hc) as (nc1 & H1 & N1).
  destruct (IH _ _ H1) as (nc2 & H2 & N2). exists nc2. split; congruence.
Qed.

(** A connect action of a bundle of another document does not touch D's
    metadata. *)
Lemma emit_connect_other c m D slots : ∀ w nc,
  comms w !! c = Some nc → notebook nc ≠ D →
  metadata (panels (foldl (onConnect_slot c m) w slots) D) = metadata (panels w D).
Proof.
  induction slots as [|slot slots IH]; intros w nc Hc Hne; simpl; [done|].
  destruct (onConnect_slot_comm c m w slot nc Hc) as (nc1 & H1 & N1).
  rewrite (IH _ nc1 H1) by congruence.
  rewrite (onConnect_slot_unfold c m w slot nc Hc).
  destruct (isDisposed (comm nc)); simpl; by rewrite fn_lookup_insert_ne.
Qed.

(** A connect action with at least one slot stores the message's
    [metadata] under 'sparkconnect'. *)
Lemma emit_connect_saved c m slots : ∀ w nc,
  comms w !! c = Some nc → slots ≠ [] →
  metadata (panels (foldl (onConnect_slot c m) w slots) (notebook nc)) !! "sparkconnect"
  = Some (jget m "metadata").
Proof.
  induction slots as [|slot slots IH] using rev_ind; intros w nc Hc Hne; [done|].
  rewrite foldl_snoc.
  destruct (emit_connect_comm c m slots w nc Hc) as (nc' & Hc' & Hn).
  set (w' := foldl (onConnect_slot c m) w slots) in *.
  rewrite (onConnect_slot_unfold c m w' slot nc' Hc').
  destruct (isDisposed (comm nc')); simpl;
    rewrite Hn, fn_lookup_insert; simpl; apply lookup_insert_eq.
Qed.

Lemma step_meta_same w e :
  match e with EmitConnect _ _ => True | _ => meta_same w (step w e) end.
Proof.
  destruct e as [nb|nb|nb status|c|c|c data|c m|c|c|nb status|]; cbn [step]; [..|].
  - etransitivity; [|apply meta_same_iter]; [repeat meta_step|].
    intros w'. unfold onCurrentChanged. cbv zeta. repeat meta_step.
  - unfold onReady. cbv zeta. repeat meta_step.
  - etransitivity; [|apply meta_same_iter]; [repeat meta_step|].
    intros w'. unfold onConnectionStatusChanged. repeat meta_step.
  - repeat meta_step.
  - repeat meta_step.
  - destruct (comms w !! c) as [nc|]; [|reflexivity]. unfold onMsg.
    destruct (currentWidget w); [|reflexivity].
    destruct (negb _); [reflexivity | apply onCommMessage_meta].
  - exact I.
  - destruct (comms w !! c) as [nc|]; [|reflexivity].
    apply meta_same_iter. intros w'.
    unfold connected_onReconfigure_slot. cbv zeta. repeat meta_step.
  - destruct (comms w !! c) as [nc|]; [|reflexivity].
    apply meta_same_iter. intros w'.
    unfold connectfailed_onReconfigure_slot. cbv zeta. repeat meta_step.
  - apply meta_same_iter. intros w'. unfold onStatusChanged. repeat meta_step.
  - repeat meta_step.
Qed.

Lemma step_metadata w e D :
  no_connect_for D w [e] = true →
  metadata (panels (step w e) D) = metadata (panels w D).
Proof.
  intros Hq. pose proof (step_meta_same w e) as H.
  destruct e as [| | | | | |c m| | | |]; try exact (H D).
  cbn [step]. simpl in Hq. destruct (comms w !! c) as [nc|] eqn:Hc; [|done].
  apply (emit_connect_other c m D _ w nc Hc).
  rewrite andb_true_r in Hq. apply negb_true_iff in Hq.
  by apply String.eqb_neq.
Qed.

Lemma run_metadata D es : ∀ w,
  no_connect_for D w es = true →
  metadata (panels (run w es) D) = metadata (panels w D).
Proof.
  induction es as [|e es IH]; intros w Hq; [done|].
  cbn [no_connect_for] in Hq. apply andb_true_iff in Hq as [He Hes].
  cbn [run foldl]. change (foldl step (step w e) es) with (run (step w e) es).
  rewrite (IH _ Hes). apply step_metadata. cbn [no_connect_for]. by rewrite He.
Qed.

(** C8: when Configuring's connect action of a session of document D
    fires with a message whose [metadata] is [C], [C] is stored in D's
    metadata under 'sparkconnect'; and after any further events in which
    no connect action of D fires (kernel restarts and the reset included),
    the next open/config message handled for D, on whichever of D's comms,
    seeds Configuring with [C]. *)
Theorem C8_saved_configuration_round_trip (w : World) (c : nat) (nc : NotebookComm)
    (m : JSONObject) (es : list Event) (c' : nat) (nc' : NotebookComm)
    (data : JSONObject) :
  comms w !! c = Some nc → onConnect (configuring (states nc)) ≠ [] →
  metadata (panels (step w (EmitConnect c m)) (notebook nc)) !! "sparkconnect"
  = Some (jget m "metadata")
  ∧ (no_connect_for (notebook nc) (step w (EmitConnect c m)) es = true →
     comms (run (step w (EmitConnect c m)) es) !! c' = Some nc' →
     notebook nc' = notebook nc →
     currentWidget (run (step w (EmitConnect c m)) es) = Some (notebook nc) →
     is_open_config data = true →
     seed (step (run (step w (EmitConnect c m)) es) (CommMsg c' data)) c'
     = Some (jget m "metadata")
     ∧ currentState (step (run (step w (EmitConnect c m)) es) (CommMsg c' data))
       = st_configuring c').
Proof.
  intros Hc Hslots.
  assert (Hsaved : metadata (panels (step w (EmitConnect c m)) (notebook nc))
                     !! "sparkconnect" = Some (jget m "metadata")).
  { cbn [step]. rewrite Hc. by apply emit_connect_saved. }
  split; [exact Hsaved|].
  intros Hq Hc' Hn Hf Hd. rewrite <- Hn in Hf.
  destruct (open_config_seed _ c' nc' data Hc' Hf Hd) as [-> ->].
  split; [|done]. f_equal.
  unfold getCurrentConfigFromNotebook, metadata_has, metadata_get.
  rewrite Hn, (run_metadata _ _ _ Hq), Hsaved. done.
Qed.

Lemma C8_saved_configuration_round_trip_witness :
  seed (step (run (step w_connecting (EmitConnect 0 connect_demo)) restart_trace)
             (CommMsg 1 msg_config)) 1
  = Some cfg_demo.
Proof.
  destruct (C8_saved_configuration_round_trip w_connecting 0 nc_connecting connect_demo
              restart_trace 1 nc_restarted msg_config) as (_ & H).
  - vm_compute. reflexivity.
  - vm_compute. discriminate.
  - apply H; vm_compute; reflexivity.
Defined.

(** ** Every outbound message *)

#[local] Instance keeps_sent_ok_preorder : PreOrder keeps_sent_ok.
Proof. split; [by intros w H | intros a b c H1 H2 H; auto]. Qed.

Lemma keeps_sent_ok_comms w w' : comms w' = comms w → keeps_sent_ok w w'.
Proof. intros H. unfold keeps_sent_ok, all_sent_ok. by rewrite H. Qed.

Lemma keeps_sent_ok_upd_comm c f w :
  (∀ nc, Forall sent_ok (sent (comm nc)) → Forall sent_ok (sent (comm (f nc)))) →
  keeps_sent_ok w (upd_comm c f w).
Proof. intros Hf H. apply Forall_alter; [exact H|]. intros nc _. apply Hf. Qed.

Lemma msg_connect_envelope m : is_envelope (msg_connect m) = true.
Proof. reflexivity. Qed.

Lemma send_ok m nc :
  sent_ok (CommSend m) →
  Forall sent_ok (sent (comm nc)) → Forall sent_ok (sent (comm (record_send m nc))).
Proof. intros Hm H. simpl. apply Forall_app. split; [done|]. by constructor. Qed.

Ltac sent_step :=
  lazymatch goal with
  | |- keeps_sent_ok ?w ?w => reflexivity
  | |- keeps_sent_ok ?w (upd_comm ?c (record_send ?m) ?w') =>
      transitivity w';
      [|apply keeps_sent_ok_upd_comm; intros ?; apply send_ok;
        first [by left | by right]]
  | |- keeps_sent_ok ?w (upd_comm ?c ?f ?w') =>
      transitivity w'; [|apply keeps_sent_ok_upd_comm; by intros ?]
  | |- keeps_sent_ok ?w (upd_panel ?D ?f ?w') =>
      transitivity w'; [|by apply keeps_sent_ok_comms]
  | |- keeps_sent_ok ?w (updateCurrent ?st ?w') =>
      transitivity w'; [|by apply keeps_sent_ok_comms]
  | |- keeps_sent_ok ?w (set_currentWidget ?x ?w') =>
      transitivity w'; [|by apply keeps_sent_ok_comms]
  | |- keeps_sent_ok ?w (set_reconnect_then ?x ?w') =>
      transitivity w'; [|by apply keeps_sent_ok_comms]
  | |- keeps_sent_ok ?w (StateHandler.close ?t ?D ?w') =>
      transitivity w'; [|by apply keeps_sent_ok_comms]
  | |- keeps_sent_ok ?w (StateHandler.create_done ?c ?nc ?w') =>
      transitivity w'; [|by apply keeps_sent_ok_comms]
  | |- keeps_sent_ok ?w (StateHandler.create_onClose ?nc ?w') =>
      transitivity w'; [|by apply keeps_sent_ok_comms]
  | |- keeps_sent_ok ?w (onReconnected ?w') =>
      transitivity w'; [|by apply keeps_sent_ok_comms]
  | |- keeps_sent_ok ?w (snd (StateHandler.create ?t ?D ?w')) =>
      transitivity w';
      [|intros H; apply Forall_app; split; [exact H|];
        repeat constructor; by left]
  | |- keeps_sent_ok ?w (match comm_send ?c ?m ?w' with _ => _ end) =>
      rewrite (comm_send_match c m w')
  | |- keeps_sent_ok ?w (match ?x with _ => _ end) => destruct x eqn:?
  end.

Lemma keeps_sent_ok_iter (f : World → World) :
  (∀ w, keeps_sent_ok w (f w)) → ∀ n w, keeps_sent_ok w (Nat.iter n f w).
Proof.
  intros Hf n w. induction n as [|n IH]; simpl; [reflexivity|].
  etransitivity; [exact IH | apply Hf].
Qed.

Lemma keeps_sent_ok_foldl {A} (f : World → A → World) :
  (∀ w a, keeps_sent_ok w (f w a)) → ∀ l w, keeps_sent_ok w (foldl f w l).
Proof.
  intros Hf l. induction l as [|a l IH]; intros w; simpl; [reflexivity|].
  etransitivity; [apply Hf | apply IH].
Qed.

Lemma step_keeps_sent_ok w e : keeps_sent_ok w (step w e).
Proof.
  destruct e as [nb|nb|nb status|c|c|c data|c m|c|c|nb status|]; cbn [step].
  - etransitivity; [|apply keeps_sent_ok_iter]; [repeat sent_step|].
    intros w'. unfold onCurrentChanged. cbv zeta. repeat sent_step.
  - unfold onReady. cbv zeta. repeat sent_step.
  - etransitivity; [|apply keeps_sent_ok_iter]; [repeat sent_step|].
    intros w'. unfold onConnectionStatusChanged. repeat sent_step.
  - repeat sent_step.
  - repeat sent_step.
  - destruct (comms w !! c) as [nc|]; [|reflexivity]. unfold onMsg.
    destruct (currentWidget w); [|reflexivity].
    destruct (negb _); [reflexivity|].
    unfold onCommMessage. cbv zeta. repeat sent_step.
  - destruct (comms w !! c) as [nc|]; [|reflexivity].
    apply keeps_sent_ok_foldl. intros w' slot.
    unfold onConnect_slot. cbv zeta. repeat sent_step.
  - destruct (comms w !! c) as [nc|]; [|reflexivity].
    apply keeps_sent_ok_iter. intros w'.
    unfold connected_onReconfigure_slot. cbv zeta. repeat sent_step.
  - destruct (comms w !! c) as [nc|]; [|reflexivity].
    apply keeps_sent_ok_iter. intros w'.
    unfold connectfailed_onReconfigure_slot. cbv zeta. repeat sent_step.
  - apply keeps_sent_ok_iter. intros w'. unfold onStatusChanged. repeat sent_step.
  - repeat sent_step.
Qed.

Lemma run_keeps_sent_ok es : ∀ w, keeps_sent_ok w (run w es).
Proof.
  induction es as [|e es IH]; intros w H0; [done|].
  apply IH, step_keeps_sent_ok, H0.
Qed.

(** In every reachable world, each message that went out on a comm is an
    envelope with [type: 'action'] and an action name, except the
    disconnect sent by ConnectFailed's reconfigure slot. *)
Lemma outbound_envelope_or_connectfailed_disconnect w c o :
  reachable w → o ∈ sent_on w c → sent_ok o.
Proof.
  intros (current & docs & es & ->) Ho.
  assert (H : all_sent_ok (run (constructor current docs) es)).
  { apply run_keeps_sent_ok. constructor. }
  unfold sent_on in Ho.
  destruct (comms (run (constructor current docs) es) !! c) as [nc|] eqn:Hc.
  - pose proof (Forall_lookup_1 _ _ _ _ H Hc) as Hnc. cbv beta in Hnc.
    apply list_elem_of_In in Ho. exact (proj1 (Forall_forall _ _) Hnc o Ho).
  - by apply not_elem_of_nil in Ho.
Qed.

#[local] Instance quiet_preorder : PreOrder quiet.
Proof.
  split; [by intros w|].
  intros a b c (H1 & H2 & H3) (H4 & H5 & H6). repeat split; congruence.
Qed.

Ltac quiet_leaf := repeat split; simpl; rewrite ?length_alter; done.

(** Every event but the reset keeps the focus slots and the registries in
    place. *)
Lemma step_quiet w e : e ≠ Reconnected → quiet w (step w e).
Proof.
  intros He.
  destruct e as [nb|nb|nb status|c|c|c data|c m|c|c|nb status|]; cbn [step];
    [..|done].
  - etransitivity; [|apply (rel_iter quiet)]; [repeat walk quiet_leaf|].
    intros w'. unfold onCurrentChanged. cbv zeta. repeat walk quiet_leaf.
  - unfold onReady. cbv zeta. repeat walk quiet_leaf.
  - etransitivity; [|apply (rel_iter quiet)]; [repeat walk quiet_leaf|].
    intros w'. unfold onConnectionStatusChanged. repeat walk quiet_leaf.
  - repeat walk quiet_leaf.
  - repeat walk quiet_leaf.
  - destruct (comms w !! c) as [nc|]; [|reflexivity]. unfold onMsg.
    destruct (currentWidget w); [|reflexivity].
    destruct (negb _); [reflexivity|].
    unfold onCommMessage. cbv zeta. repeat walk quiet_leaf.
  - destruct (comms w !! c) as [nc|]; [|reflexivity].
    apply (rel_foldl quiet). intros w' slot.
    unfold onConnect_slot. cbv zeta. repeat walk quiet_leaf.
  - destruct (comms w !! c) as [nc|]; [|reflexivity].
    apply (rel_iter quiet). intros w'.
    unfold connected_onReconfigure_slot. cbv zeta. repeat walk quiet_leaf.
  - destruct (comms w !! c) as [nc|]; [|reflexivity].
    apply (rel_iter quiet). intros w'.
    unfold connectfailed_onReconfigure_slot. cbv zeta. repeat walk quiet_leaf.
  - apply (rel_iter quiet). intros w'. unfold onStatusChanged. repeat walk quiet_leaf.
Qed.

Lemma slots_inv_step w e : slots_inv w → slots_inv (step w e).
Proof.
  intros [H1 H2].
  assert (e = Reconnected ∨ e ≠ Reconnected) as [->|He]
    by (destruct e; first [by left | by right]).
  - cbn [step]. destruct (reconnect_then w); [done|].
    unfold slots_inv. simpl. rewrite length_app. simpl. lia.
  - destruct (step_quiet w e He) as (Q1 & Q2 & Q3). unfold slots_inv. lia.
Qed.

Lemma slots_inv_run es : ∀ w, slots_inv w → slots_inv (run w es).
Proof.
  induction es as [|e es IH]; intros w H; [done|]. apply IH, slots_inv_step, H.
Qed.

(** The widget has one slot on [notebooks.currentChanged] for every
    registry it ever allocated (the constructor's and one per completed
    reset), and the current registry is the last one: no reset removes
    the slot of an earlier [initStateHandling]. *)
Theorem focus_slots_accumulate (w : World) :
  reachable w →
  currentChanged w = length (handlers w)
  ∧ S (statehandler w) = length (handlers w)
  ∧ (reconnect_then w ≠ 0 →
     currentChanged (step w Reconnected) = S (currentChanged w)).
Proof.
  intros (current & docs & es & ->).
  destruct (slots_inv_run es (constructor current docs)) as [H1 H2]; [done|].
  repeat split; [done..|].
  intros Hk. cbn [step]. by destruct (reconnect_then _).
Qed.

Lemma focus_iter nb n w :
  comms (Nat.iter n (onCurrentChanged nb) w) = comms w
  ∧ handlers (Nat.iter n (onCurrentChanged nb) w) = handlers w
  ∧ statehandler (Nat.iter n (onCurrentChanged nb) w) = statehandler w
  ∧ currentWidget (Nat.iter n (onCurrentChanged nb) w) = currentWidget w
  ∧ currentState (Nat.iter n (onCurrentChanged nb) w)
    = match n, nb with
      | 0, _ => currentState w
      | S _, None => st_notattached
      | S _, Some _ => st_loading
      end
  ∧ ∀ D, ready_then (panels (Nat.iter n (onCurrentChanged nb) w) D)
         = ready_then (panels w D) + (if decide (nb = Some D) then n else 0).
Proof.
  induction n as [|n (H1 & H2 & H3 & H4 & H5 & H6)].
  - repeat split. intros D. case_decide; simpl; lia.
  - destruct nb as [nb|]; simpl; repeat split; try done.
    intros D. specialize (H6 D). destruct (decide (nb = D)) as [->|Hne].
    + rewrite fn_lookup_insert. simpl. rewrite decide_True in * by done. lia.
    + rewrite fn_lookup_insert_ne by done.
      rewrite decide_False in * by congruence. lia.
Qed.

(** A focus change displays NotAttached (no document) or Loading (a
    document) and, for a document, queues a session-ready continuation per
    focus slot, that is one per registry ever allocated; comms and
    registries are left alone. *)
Theorem focus_change_effect (w : World) (nbPanel : option string) :
  reachable w →
  currentWidget (step w (CurrentChanged nbPanel)) = nbPanel
  ∧ currentState (step w (CurrentChanged nbPanel))
    = match nbPanel with None => st_notattached | Some _ => st_loading end
  ∧ comms (step w (CurrentChanged nbPanel)) = comms w
  ∧ handlers (step w (CurrentChanged nbPanel)) = handlers w
  ∧ ∀ D, ready_then (panels (step w (CurrentChanged nbPanel)) D)
         = ready_then (panels w D)
           + (if decide (nbPanel = Some D) then length (handlers w) else 0).
Proof.
  intros (current & docs & es & ->).
  destruct (slots_inv_run es (constructor current docs)) as [H1 H2]; [done|].
  set (w := run (constructor current docs) es) in *. cbn [step].
  destruct (focus_iter nbPanel (currentChanged w) (set_currentWidget nbPanel w))
    as (F1 & F2 & F3 & F4 & F5 & F6).
  rewrite F1, F2, F4, F5. repeat split.
  - destruct (currentChanged w) eqn:E; [lia|]. by destruct nbPanel.
  - intros D. by rewrite F6, H1.
Qed.

Lemma focus_change_effect_witness :
  currentState (step w_registered (CurrentChanged (Some "E"))) = st_loading
  ∧ ready_then (panels (step w_registered (CurrentChanged (Some "E"))) "E") = 1.
Proof.
  destruct (focus_change_effect w_registered (Some "E")) as (_ & H2 & _ & _ & H5).
  - reachable_demo.
  - split; [exact H2|]. exact (H5 "E").
Defined.

(** The transport status 'connected' opens one comm per slot on the
    kernel's [connectionStatusChanged], each for the same document
    through the current registry with the open handshake as its only
    outbound message; it changes neither the displayed phase nor any
    registry. *)
Theorem connected_opens_a_comm_per_slot (w : World) (D : string) :
  comms (step w (ConnectionStatusChanged D cs_connected))
  = comms w ++ replicate (connectionStatusChanged (panels w D))
                         (fresh_comm D (statehandler w))
  ∧ currentState (step w (ConnectionStatusChanged D cs_connected)) = currentState w
  ∧ update_calls (step w (ConnectionStatusChanged D cs_connected)) = update_calls w
  ∧ handlers (step w (ConnectionStatusChanged D cs_connected)) = handlers w
  ∧ connectionStatus (panels (step w (ConnectionStatusChanged D cs_connected)) D)
    = cs_connected.
Proof.
  cbn [step].
  destruct (connected_iter D (connectionStatusChanged (panels w D))
              (upd_panel D (set_connectionStatus cs_connected) w))
    as (H1 & H2 & H3 & H4 & H5 & H6 & H7).
  rewrite H1, H2, H4, H5, H7. repeat split. simpl. by rewrite fn_lookup_insert.
Qed.

#[local] Instance subs_same_preorder : PreOrder subs_same.
Proof.
  split; [by intros w D|]. intros a b c H1 H2 D. by rewrite H2, H1.
Qed.

Lemma subs_same_upd_panel D f w :
  (∀ n, connectionStatusChanged (f n) = connectionStatusChanged n) →
  subs_same w (upd_panel D f w).
Proof.
  intros Hf D'. simpl. destruct (decide (D = D')) as [->|Hne].
  - by rewrite fn_lookup_insert, Hf.
  - by rewrite fn_lookup_insert_ne.
Qed.

Ltac subs_leaf :=
  first [ by intros ? | apply subs_same_upd_panel; by intros ? ].

Lemma step_subs_same w e :
  (∀ nb, e ≠ SessionReady nb) → subs_same w (step w e).
Proof.
  intros He.
  destruct e as [nb|nb|nb status|c|c|c data|c m|c|c|nb status|]; cbn [step].
  - etransitivity; [|apply (rel_iter subs_same)]; [repeat walk subs_leaf|].
    intros w'. unfold onCurrentChanged. cbv zeta. repeat walk subs_leaf.
  - by destruct (He nb).
  - etransitivity; [|apply (rel_iter subs_same)]; [repeat walk subs_leaf|].
    intros w'. unfold onConnectionStatusChanged. repeat walk subs_leaf.
  - repeat walk subs_leaf.
  - repeat walk subs_leaf.
  - destruct (comms w !! c) as [nc|]; [|reflexivity]. unfold onMsg.
    destruct (currentWidget w); [|reflexivity].
    destruct (negb _); [reflexivity|].
    unfold onCommMessage. cbv zeta. repeat walk subs_leaf.
  - destruct (comms w !! c) as [nc|]; [|reflexivity].
    apply (rel_foldl subs_same). intros w' slot.
    unfold onConnect_slot. cbv zeta. repeat walk subs_leaf.
  - destruct (comms w !! c) as [nc|]; [|reflexivity].
    apply (rel_iter subs_same). intros w'.
    unfold connected_onReconfigure_slot. cbv zeta. repeat walk subs_leaf.
  - destruct (comms w !! c) as [nc|]; [|reflexivity].
    apply (rel_iter subs_same). intros w'.
    unfold connectfailed_onReconfigure_slot. cbv zeta. repeat walk subs_leaf.
  - apply (rel_iter subs_same). intros w'. unfold onStatusChanged.
    repeat walk subs_leaf.
  - repeat walk subs_leaf.
Qed.

(** Slots on a kernel's [connectionStatusChanged] are only ever added:
    a session-ready continuation that runs for D connects exactly one
    more slot for D, and no other event changes the number of slots of
    any document; nothing disconnects a slot. *)
Theorem status_slots_only_grow (w : World) (e : Event) (D : string) :
  connectionStatusChanged (panels (step w e) D)
  = connectionStatusChanged (panels w D)
    + match e with
      | SessionReady nb =>
          if decide (nb = D ∧ ready_then (panels w nb) ≠ 0) then 1 else 0
      | _ => 0
      end.
Proof.
  assert (Hother : (∀ nb, e ≠ SessionReady nb) →
                   connectionStatusChanged (panels (step w e) D)
                   = connectionStatusChanged (panels w D))
    by (intros He; apply (step_subs_same w e He D)).
  destruct e as [| nb | | | | | | | | |]; try (rewrite Hother by done; lia).
  clear Hother. cbn [step].
  destruct (ready_then (panels w nb)) as [|k] eqn:Hk.
  { rewrite decide_False by (intros [_ ?]; done). lia. }
  assert (Hsubs : ∀ w1,
            connectionStatusChanged
              (panels (upd_panel nb connect_connectionStatusChanged w1) D)
            = connectionStatusChanged (panels w1 D)
              + (if decide (nb = D) then 1 else 0)).
  { intros w1. simpl. destruct (decide (nb = D)) as [->|Hne].
    - rewrite fn_lookup_insert. simpl. lia.
    - rewrite fn_lookup_insert_ne by done. lia. }
  unfold onReady. cbv zeta. rewrite Hsubs.
  assert (Hin : subs_same w
            (if StateHandler.has (statehandler (upd_panel nb (set_ready_then k) w)) nb
                  (upd_panel nb (set_ready_then k) w)
             then upd_panel nb (set_ready_then k) w
             else if is_connected
                       (connectionStatus (panels (upd_panel nb (set_ready_then k) w) nb))
                  then upd_panel nb reconnect (upd_panel nb (set_ready_then k) w)
                  else upd_panel nb (set_ready_then k) w))
    by (repeat walk subs_leaf).
  rewrite (Hin D).
  destruct (decide (nb = D)) as [->|Hne].
  - by rewrite decide_True.
  - rewrite decide_False; [done|]. by intros [? _].
Qed.

Lemma other_status_iter nb n w :
  comms (Nat.iter n (onConnectionStatusChanged nb cs_disconnected) w) = comms w
  ∧ handlers (Nat.iter n (onConnectionStatusChanged nb cs_disconnected) w) = handlers w
  ∧ statehandler (Nat.iter n (onConnectionStatusChanged nb cs_disconnected) w)
    = statehandler w
  ∧ currentWidget (Nat.iter n (onConnectionStatusChanged nb cs_disconnected) w)
    = currentWidget w
  ∧ panels (Nat.iter n (onConnectionStatusChanged nb cs_disconnected) w) = panels w
  ∧ currentState (Nat.iter n (onConnectionStatusChanged nb cs_disconnected) w)
    = match n with 0 => currentState w | S _ => st_notattached end.
Proof.
  induction n as [|n (H1 & H2 & H3 & H4 & H5 & H6)]; [done|]. simpl. done.
Qed.

(** A transport status other than 'connected' and 'connecting', reported
    for a document whose kernel the widget listens to, displays
    NotAttached whether or not that document is focused, and keeps every
    session registered and every comm as it is. *)
Theorem other_status_keeps_session (w : World) (D : string) :
  0 < connectionStatusChanged (panels w D) →
  currentState (step w (ConnectionStatusChanged D cs_disconnected)) = st_notattached
  ∧ (∀ D', session (step w (ConnectionStatusChanged D cs_disconnected)) D'
           = session w D')
  ∧ comms (step w (ConnectionStatusChanged D cs_disconnected)) = comms w
  ∧ currentWidget (step w (ConnectionStatusChanged D cs_disconnected))
    = currentWidget w.
Proof.
  intros Hs. cbn [step].
  destruct (other_status_iter D (connectionStatusChanged (panels w D))
              (upd_panel D (set_connectionStatus cs_disconnected) w))
    as (H1 & H2 & H3 & H4 & H5 & H6).
  rewrite H1, H4, H6. repeat split.
  - destruct (connectionStatusChanged (panels w D)); [lia|done].
  - intros D'. by apply session_same.
Qed.

Lemma other_status_keeps_session_witness :
  currentState (step w_two (ConnectionStatusChanged "D" cs_disconnected))
  = st_notattached
  ∧ currentWidget (step w_two (ConnectionStatusChanged "D" cs_disconnected))
    = Some "E".
Proof.
  destruct (other_status_keeps_session w_two "D") as (H1 & _ & _ & H4).
  - vm_compute. lia.
  - split; [exact H1|]. rewrite H4. reflexivity.
Defined.

(** ** Message dispatch *)

Lemma focused_message w c nc data :
  comms w !! c = Some nc → currentWidget w = Some (notebook nc) →
  step w (CommMsg c data) = onCommMessage data c nc w.
Proof.
  intros Hc Hf. simpl. rewrite Hc. unfold onMsg. by rewrite Hf, String.eqb_refl.
Qed.

(** A message changes nothing at all when its [msgtype] is none of the
    four the dispatch acts on ('sparkconn-config' and unknown types
    included), when it is an open message whose page is not
    'sparkconn-config', or when it is a connected message without a
    [config] object (the TypeError is raised before anything is
    changed). *)
Theorem ignored_messages (w : World) (c : nat) (data : JSONObject) :
  acts_on (jget data "msgtype") = false
  ∨ (strict_eq (jget data "msgtype") "sparkconn-action-open" = true
     ∧ loose_eq (jget data "page") "sparkconn-config" = false)
  ∨ (strict_eq (jget data "msgtype") "sparkconn-connected" = true
     ∧ jprop (jget data "config") "sparkhistoryserver" = None) →
  step w (CommMsg c data) = w.
Proof.
  intros H. simpl. destruct (comms w !! c) as [nc|]; [|done]. unfold onMsg.
  destruct (currentWidget w) as [id|]; [|done]. destruct (negb _); [done|].
  unfold onCommMessage. cbv zeta.
  destruct H as [H|[[H1 H2]|[H1 H2]]].
  - unfold acts_on in H. rewrite !orb_false_iff in H.
    destruct H as [[[-> ->] ->] ->]. by repeat case_match.
  - rewrite H1, H2. by repeat case_match.
  - destruct (jget data "msgtype") as [| | | |s| |]; try discriminate.
    simpl in H1. apply String.eqb_eq in H1. subst s. simpl. by rewrite H2.
Qed.

Lemma ignored_messages_witness :
  step w_created (CommMsg 0 [("msgtype", JStr "sparkconn-connected")]) = w_created.
Proof.
  apply (ignored_messages w_created 0 [("msgtype", JStr "sparkconn-connected")]).
  right; right. split; reflexivity.
Defined.

(** A follow-log message handled for the focused document appends its
    [msg] to the log of Connected, or of Connecting, of the bundle that
    received it, according to the name of the displayed phase; it never
    changes the displayed phase, sends nothing, and under any other
    displayed phase it changes nothing at all. *)
Theorem follow_log_effect (w : World) (c : nat) (nc : NotebookComm)
    (data : JSONObject) :
  comms w !! c = Some nc → currentWidget w = Some (notebook nc) →
  is_follow_log data = true →
  currentState (step w (CommMsg c data)) = currentState w
  ∧ sent_on (step w (CommMsg c data)) c = sent_on w c
  ∧ (name (currentState w) = "connected" →
     ∃ nc', comms (step w (CommMsg c data)) !! c = Some nc'
            ∧ connected_log (connected (states nc'))
              = connected_log (connected (states nc)) ++ [jget data "msg"]
            ∧ connecting (states nc') = connecting (states nc))
  ∧ (name (currentState w) = "connecting" →
     ∃ nc', comms (step w (CommMsg c data)) !! c = Some nc'
            ∧ connecting_log (connecting (states nc'))
              = connecting_log (connecting (states nc)) ++ [jget data "msg"]
            ∧ connected (states nc') = connected (states nc))
  ∧ (name (currentState w) ≠ "connected" → name (currentState w) ≠ "connecting" →
     step w (CommMsg c data) = w).
Proof.
  intros Hc Hf Hd. rewrite (focused_message w c nc data Hc Hf).
  unfold is_follow_log in Hd. unfold onCommMessage. cbv zeta.
  destruct (jget data "msgtype") as [| | | |s| |]; try discriminate.
  simpl in Hd. apply String.eqb_eq in Hd. subst s. simpl.
  unfold sent_on.
  destruct (String.eqb_spec (name (currentState w)) "connected") as [E1|E1].
  - simpl. rewrite list_lookup_alter_eq, Hc. simpl.
    repeat split; [by eauto| |done].
    intros E2. rewrite E1 in E2. discriminate.
  - destruct (String.eqb_spec (name (currentState w)) "connecting") as [E2|E2].
    + simpl. rewrite list_lookup_alter_eq, Hc. simpl.
      repeat split; [done|by eauto|done].
    + rewrite Hc. repeat split; done.
Qed.

Lemma follow_log_effect_witness :
  step w_created (CommMsg 0 [("msgtype", JStr "sparkconn-action-follow-log")])
  = w_created.
Proof.
  destruct (follow_log_effect w_created 0 (fresh_comm "D" 0)
              [("msgtype", JStr "sparkconn-action-follow-log")])
    as (_ & _ & _ & _ & H).
  - reflexivity.
  - reflexivity.
  - reflexivity.
  - apply H; vm_compute; discriminate.
Defined.

(** The focus filter of [onMsg] agrees with [canOpen]: a message of a
    bundle is dispatched exactly when [canOpen] of its document returns
    true, and is dropped where [canOpen] returns false or would throw
    (nothing focused). *)
Theorem message_filter_is_canOpen (w : World) (c : nat) (nc : NotebookComm)
    (data : JSONObject) :
  comms w !! c = Some nc →
  step w (CommMsg c data)
  = match StateHandler.canOpen (notebook nc) w with
    | Some true => onCommMessage data c nc w
    | _ => w
    end.
Proof.
  intros Hc. simpl. rewrite Hc. unfold onMsg, StateHandler.canOpen.
  destruct (currentWidget w) as [id|]; [|done].
  rewrite (String.eqb_sym (notebook nc) id). by destruct (String.eqb id (notebook nc)).
Qed.

Lemma message_filter_is_canOpen_witness :
  step w_moved (CommMsg 0 msg_config) = w_moved.
Proof.
  rewrite (message_filter_is_canOpen w_moved 0 nc_registered msg_config).
  - reflexivity.
  - reflexivity.
Defined.

(** A connected message with a [config] object, handled for the focused
    document, displays Connected of that bundle with the title and
    [config.sparkhistoryserver], and connects one more slot to the
    kernel's [statusChanged]; when Connected's reconfigure then fires,
    every slot connected so far displays Loading and, on a comm that is
    not disposed, sends the disconnect action and requests a kernel
    restart; on a disposed comm the send throws in every slot, so nothing
    is sent and no restart is requested. *)
Theorem connected_then_reconfigure (w : World) (c : nat) (nc : NotebookComm)
    (data : JSONObject) (h : JSON) :
  comms w !! c = Some nc → currentWidget w = Some (notebook nc) →
  strict_eq (jget data "msgtype") "sparkconn-connected" = true →
  jprop (jget data "config") "sparkhistoryserver" = Some h →
  currentState (step w (CommMsg c data)) = st_connected c
  ∧ (∃ nc', comms (step w (CommMsg c data)) !! c = Some nc'
       ∧ connected_init (connected (states nc'))
         = Some (title (panels w (notebook nc)), h))
  ∧ sent_on (step w (CommMsg c data)) c = sent_on w c
  ∧ statusChanged (panels (step w (CommMsg c data)) (notebook nc))
    = S (statusChanged (panels w (notebook nc)))
  ∧ currentState (run w [CommMsg c data; EmitReconfigureConnected c]) = st_loading
  ∧ sent_on (run w [CommMsg c data; EmitReconfigureConnected c]) c
    = sent_on w c
      ++ (if isDisposed (comm nc) then []
          else replicate (S (connected_onReconfigure (connected (states nc))))
                         (CommSend msg_disconnect_connected))
  ∧ restart_calls (panels (run w [CommMsg c data; EmitReconfigureConnected c])
                     (notebook nc))
    = restart_calls (panels w (notebook nc))
      + (if isDisposed (comm nc) then 0
         else S (connected_onReconfigure (connected (states nc)))).
Proof.
  intros Hc Hf Ht Hh. cbn [run foldl].
  rewrite (focused_message w c nc data Hc Hf).
  assert (Hmsg : ∃ w1, onCommMessage data c nc w = w1
            ∧ currentState w1 = st_connected c
            ∧ (∃ nc1, comms w1 !! c = Some nc1 ∧ notebook nc1 = notebook nc
                 ∧ isDisposed (comm nc1) = isDisposed (comm nc)
                 ∧ sent (comm nc1) = sent (comm nc)
                 ∧ connected_init (connected (states nc1))
                   = Some (title (panels w (notebook nc)), h)
                 ∧ connected_onReconfigure (connected (states nc1))
                   = S (connected_onReconfigure (connected (states nc))))
            ∧ statusChanged (panels w1 (notebook nc))
              = S (statusChanged (panels w (notebook nc)))
            ∧ restart_calls (panels w1 (notebook nc))
              = restart_calls (panels w (notebook nc))).
  { eexists. split; [reflexivity|]. unfold onCommMessage. cbv zeta.
    destruct (jget data "msgtype") as [| | | |s| |]; try discriminate.
    simpl in Ht. apply String.eqb_eq in Ht. subst s. simpl. rewrite Hh. simpl.
    rewrite !list_lookup_alter_eq, Hc, !fn_lookup_insert. simpl.
    repeat split. eexists. repeat split; done. }
  destruct Hmsg as (w1 & -> & C1 & (nc1 & Hc1 & N1 & D1 & S1 & I1 & R1) & T1 & K1).
  unfold sent_on at 1 2. rewrite Hc1, Hc.
  repeat split; [done|by eauto|done|done|..].
  all: cbn [step]; rewrite Hc1, R1;
    destruct (reconfigure_iter (connected_onReconfigure_slot c)
                msg_disconnect_connected c (connected_slot_unfold c)
                (S (connected_onReconfigure (connected (states nc)))) w1 nc1 Hc1)
      as (nc2 & Hc2 & N2 & D2 & S2 & T2 & R2 & C2 & U2 & G2).
  - exact C2.
  - unfold sent_on. by rewrite Hc2, Hc, S2, S1, D1.
  - rewrite N1, D1 in R2. by rewrite R2, K1.
Qed.

Lemma connected_then_reconfigure_witness :
  currentState (run w_created [CommMsg 0 msg_connected; EmitReconfigureConnected 0])
  = st_loading
  ∧ restart_calls
      (panels (run w_created [CommMsg 0 msg_connected; EmitReconfigureConnected 0]) "D")
    = 1.
Proof.
  destruct (connected_then_reconfigure w_created 0 (fresh_comm "D" 0) msg_connected
              (JStr "http://h")) as (_ & _ & _ & _ & H5 & _ & H7).
  - reflexivity.
  - reflexivity.
  - reflexivity.
  - reflexivity.
  - split; [exact H5 | exact H7].
Defined.

(** A connect-error message handled for the focused document displays
    ConnectFailed of that bundle with the title and the message's
    [error]; when ConnectFailed's reconfigure then fires, every slot
    connected so far displays Loading and, on a comm that is not
    disposed, sends the disconnect action and requests a kernel restart;
    on a disposed comm the send throws in every slot, so nothing is sent
    and no restart is requested. *)
Theorem connect_error_then_reconfigure (w : World) (c : nat) (nc : NotebookComm)
    (data : JSONObject) :
  comms w !! c = Some nc → currentWidget w = Some (notebook nc) →
  is_connect_error data = true →
  currentState (step w (CommMsg c data)) = st_connectfailed c
  ∧ (∃ nc', comms (step w (CommMsg c data)) !! c = Some nc'
       ∧ connectfailed_init (connectfailed (states nc'))
         = Some (title (panels w (notebook nc)), jget data "error"))
  ∧ sent_on (step w (CommMsg c data)) c = sent_on w c
  ∧ currentState (run w [CommMsg c data; EmitReconfigureConnectFailed c]) = st_loading
  ∧ sent_on (run w [CommMsg c data; EmitReconfigureConnectFailed c]) c
    = sent_on w c
      ++ (if isDisposed (comm nc) then []
          else replicate (S (connectfailed_onReconfigure (connectfailed (states nc))))
                         (CommSend msg_disconnect_connectfailed))
  ∧ restart_calls (panels (run w [CommMsg c data; EmitReconfigureConnectFailed c])
                     (notebook nc))
    = restart_calls (panels w (notebook nc))
      + (if isDisposed (comm nc) then 0
         else S (connectfailed_onReconfigure (connectfailed (states nc)))).
Proof.
  intros Hc Hf Ht. cbn [run foldl].
  rewrite (focused_message w c nc data Hc Hf).
  assert (Hmsg : ∃ w1, onCommMessage data c nc w = w1
            ∧ currentState w1 = st_connectfailed c
            ∧ (∃ nc1, comms w1 !! c = Some nc1 ∧ notebook nc1 = notebook nc
                 ∧ isDisposed (comm nc1) = isDisposed (comm nc)
                 ∧ sent (comm nc1) = sent (comm nc)
                 ∧ connectfailed_init (connectfailed (states nc1))
                   = Some (title (panels w (notebook nc)), jget data "error")
                 ∧ connectfailed_onReconfigure (connectfailed (states nc1))
                   = S (connectfailed_onReconfigure (connectfailed (states nc))))
            ∧ restart_calls (panels w1 (notebook nc))
              = restart_calls (panels w (notebook nc))).
  { eexists. split; [reflexivity|]. unfold onCommMessage. cbv zeta.
    unfold is_connect_error in Ht.
    destruct (jget data "msgtype") as [| | | |s| |]; try discriminate.
    simpl in Ht. apply String.eqb_eq in Ht. subst s. simpl.
    rewrite !list_lookup_alter_eq, Hc. simpl.
    repeat split. eexists. repeat split; done. }
  destruct Hmsg as (w1 & -> & C1 & (nc1 & Hc1 & N1 & D1 & S1 & I1 & R1) & K1).
  unfold sent_on at 1 2. rewrite Hc1, Hc.
  repeat split; [done|by eauto|done|..].
  all: cbn [step]; rewrite Hc1, R1;
    destruct (reconfigure_iter (connectfailed_onReconfigure_slot c)
                msg_disconnect_connectfailed c (connectfailed_slot_unfold c)
                (S (connectfailed_onReconfigure (connectfailed (states nc)))) w1 nc1
                Hc1)
      as (nc2 & Hc2 & N2 & D2 & S2 & T2 & R2 & C2 & U2 & G2).
  - exact C2.
  - unfold sent_on. by rewrite Hc2, Hc, S2, S1, D1.
  - rewrite N1, D1 in R2. by rewrite R2, K1.
Qed.

Lemma connect_error_then_reconfigure_witness :
  currentState (step w_created (CommMsg 0 msg_error)) = st_connectfailed 0
  ∧ currentState (run w_created [CommMsg 0 msg_error; EmitReconfigureConnectFailed 0])
    = st_loading.
Proof.
  destruct (connect_error_then_reconfigure w_created 0 (fresh_comm "D" 0) msg_error)
    as (H1 & _ & _ & H4 & _).
  - reflexivity.
  - reflexivity.
  - reflexivity.
  - exact (conj H1 H4).
Defined.

(** ** The connect action *)

Lemma emit_connect_keeps c m slots : ∀ w nc,
  comms w !! c = Some nc →
  ∃ nc', comms (foldl (onConnect_slot c m) w slots) !! c = Some nc'
         ∧ notebook nc' = notebook nc
         ∧ configuring (states nc') = configuring (states nc)
         ∧ connecting_log (connecting (states nc'))
           = connecting_log (connecting (states nc))
         ∧ currentWidget (foldl (onConnect_slot c m) w slots) = currentWidget w
         ∧ handlers (foldl (onConnect_slot c m) w slots) = handlers w.
Proof.
  induction slots as [|slot slots IH]; intros w nc Hc; simpl; [by eauto 10|].
  assert (H1 : ∃ nc1, comms (onConnect_slot c m w slot) !! c = Some nc1
                 ∧ notebook nc1 = notebook nc
                 ∧ configuring (states nc1) = configuring (states nc)
                 ∧ connecting_log (connecting (states nc1))
                   = connecting_log (connecting (states nc))
                 ∧ currentWidget (onConnect_slot c m w slot) = currentWidget w
                 ∧ handlers (onConnect_slot c m w slot) = handlers w).
  { rewrite (onConnect_slot_unfold c m w slot nc Hc).
    destruct (isDisposed (comm nc)); simpl;
      rewrite !list_lookup_alter_eq, Hc; simpl; eauto 10. }
  destruct H1 as (nc1 & H1 & N1 & G1 & L1 & W1 & E1).
  destruct (IH _ _ H1) as (nc2 & H2 & N2 & G2 & L2 & W2 & E2).
  exists nc2. repeat split; congruence.
Qed.

(** Firing Configuring's connect notification of a bundle displays
    Connecting of that bundle, initialised with the title, Spark version
    and cluster captured by the slot connected last (the latest
    open/config message), whichever document is focused: the action
    handlers have no focus filter.  The focus, the registries and
    Configuring's own data stay as they are. *)
Theorem connect_action_effect (w : World) (c : nat) (nc : NotebookComm)
    (m : JSONObject) (slots : list ConnectSlot) (slot : ConnectSlot) :
  comms w !! c = Some nc →
  onConnect (configuring (states nc)) = slots ++ [slot] →
  currentState (step w (EmitConnect c m)) = st_connecting c
  ∧ currentWidget (step w (EmitConnect c m)) = currentWidget w
  ∧ handlers (step w (EmitConnect c m)) = handlers w
  ∧ ∃ nc', comms (step w (EmitConnect c m)) !! c = Some nc'
           ∧ connecting_init (connecting (states nc'))
             = Some (slot_title slot, slot_sparkversion slot, slot_cluster slot)
           ∧ configuring (states nc') = configuring (states nc).
Proof.
  intros Hc Hs. cbn [step]. rewrite Hc, Hs, foldl_snoc.
  destruct (emit_connect_keeps c m slots w nc Hc) as (nc1 & H1 & N1 & G1 & L1 & W1 & E1).
  set (w1 := foldl (onConnect_slot c m) w slots) in *.
  rewrite (onConnect_slot_unfold c m w1 slot nc1 H1).
  destruct (isDisposed (comm nc1)); simpl;
    rewrite !list_lookup_alter_eq, H1; simpl;
    (repeat split; [done..|]); eexists; repeat split; done.
Qed.

Lemma connect_action_effect_witness :
  currentState (step (step w_connecting (CurrentChanged (Some "E")))
                     (EmitConnect 0 connect_demo))
  = st_connecting 0
  ∧ currentWidget (step (step w_connecting (CurrentChanged (Some "E")))
                        (EmitConnect 0 connect_demo))
    = Some "E".
Proof.
  destruct (connect_action_effect (step w_connecting (CurrentChanged (Some "E"))) 0
              nc_connecting connect_demo []
              (mkConnectSlot "D" (JStr "3.3") (JStr "k8s")))
    as (H1 & H2 & _).
  - vm_compute. reflexivity.
  - reflexivity.
  - split; [exact H1|]. rewrite H2. reflexivity.
Defined.

(** ** The reset after a kernel restart *)

Lemma registry_bound_step w e : Inv w → registry_bound w → registry_bound (step w e).
Proof.
  intros (I0 & _ & _) Hb. unfold registry_bound.
  destruct (touches_sessions e) eqn:Ht.
  2: { destruct (step_frame w e Ht) as (Hc & _ & Hs & _).
       intros c nc' Hc'.
       destruct (Forall2_lookup_r _ _ _ _ _ Hc Hc') as (nc & Hnc & (_ & Hr & _)).
       rewrite Hr, Hs. by apply (Hb c). }
  destruct e as [nb|nb|nb status|c|c|c data|c m|c|c|nb status|]; try discriminate Ht;
    cbn [step].
  - destruct status; try discriminate Ht.
    + destruct (connected_iter nb (connectionStatusChanged (panels w nb))
                  (upd_panel nb (set_connectionStatus cs_connected) w))
        as (H1 & _ & H3 & _).
      intros c nc. rewrite H1, H3. simpl.
      rewrite lookup_app_Some. intros [Hc|[_ Hc]]; [by apply (Hb c)|].
      apply lookup_replicate in Hc as [-> _]. simpl. lia.
    + destruct (closing_iter nb (connectionStatusChanged (panels w nb))
                  (upd_panel nb (set_connectionStatus cs_connecting) w))
        as (_ & _ & H3 & H4 & _).
      intros c nc. rewrite H3, H4. apply Hb.
  - destruct (comms w !! c) as [nc|] eqn:Hc; [|done].
    destruct (open_done (comm nc)); [done|].
    intros c' nc'. simpl. rewrite list_lookup_alter. case_decide as E.
    + subst c'. rewrite Hc. simpl. intros [= <-]. exact (Hb c nc Hc).
    + apply Hb.
  - destruct (comms w !! c) as [nc|] eqn:Hc; [|done].
    intros c' nc'. simpl. rewrite list_lookup_alter. case_decide as E.
    + subst c'. rewrite Hc. simpl. intros [= <-]. exact (Hb c nc Hc).
    + apply Hb.
  - destruct (reconnect_then w); [done|].
    intros c nc Hc. simpl in Hc |- *. specialize (Hb c nc Hc). lia.
Qed.

Lemma reachable_registry_bound w : reachable w → registry_bound w.
Proof.
  intros (current & docs & es & ->).
  assert (H : ∀ w, Inv w → registry_bound w → registry_bound (run w es)).
  { induction es as [|e es IH]; intros w HI Hb; [done|].
    apply IH; [by apply Inv_step | by apply registry_bound_step]. }
  apply H; [apply Inv_constructor|]. by intros c nc Hc.
Qed.

(** A bundle stays in the store, with its document and the registry its
    callbacks update. *)
Lemma comm_kept w e c nc :
  comms w !! c = Some nc →
  ∃ nc', comms (step w e) !! c = Some nc' ∧ notebook nc' = notebook nc
         ∧ registry (comm nc') = registry (comm nc).
Proof.
  intros Hc. destruct (touches_sessions e) eqn:Ht.
  2: { destruct (step_frame w e Ht) as (Hf & _).
       destruct (Forall2_lookup_l _ _ _ _ _ Hf Hc) as (nc' & Hc' & (Hn & Hr & _)).
       by exists nc'. }
  destruct e as [nb|nb|nb status|c0|c0|c0 data|c0 m|c0|c0|nb status|];
    try discriminate Ht; cbn [step].
  - destruct status; try discriminate Ht.
    + destruct (connected_iter nb (connectionStatusChanged (panels w nb))
                  (upd_panel nb (set_connectionStatus cs_connected) w)) as (H1 & _).
      rewrite H1. exists nc. split; [|done]. by apply lookup_app_l_Some.
    + destruct (closing_iter nb (connectionStatusChanged (panels w nb))
                  (upd_panel nb (set_connectionStatus cs_connecting) w))
        as (_ & _ & H3 & _).
      rewrite H3. by exists nc.
  - destruct (comms w !! c0) as [nc0|] eqn:Hc0; [|by exists nc].
    destruct (open_done (comm nc0)); [by exists nc|].
    simpl. rewrite list_lookup_alter. case_decide as E; [|by exists nc].
    subst c0. rewrite Hc. simpl. by eexists.
  - destruct (comms w !! c0) as [nc0|] eqn:Hc0; [|by exists nc].
    simpl. rewrite list_lookup_alter. case_decide as E; [|by exists nc].
    subst c0. rewrite Hc. simpl. by eexists.
  - destruct (reconnect_then w); by exists nc.
Qed.

Lemma comm_kept_run es : ∀ w c nc,
  comms w !! c = Some nc →
  ∃ nc', comms (run w es) !! c = Some nc' ∧ notebook nc' = notebook nc
         ∧ registry (comm nc') = registry (comm nc).
Proof.
  induction es as [|e es IH]; intros w c nc Hc; [by exists nc|].
  destruct (comm_kept w e c nc Hc) as (nc1 & H1 & N1 & R1).
  destruct (IH (step w e) c nc1 H1) as (nc2 & H2 & N2 & R2).
  exists nc2. cbn [run foldl]. split; [exact H2|]. split; congruence.
Qed.

(** The widget never goes back to an earlier registry. *)
Lemma statehandler_step w e : Inv w → (statehandler w ≤ statehandler (step w e))%nat.
Proof.
  intros (I0 & _).
  assert (e = Reconnected ∨ e ≠ Reconnected) as [->|He]
    by (destruct e; first [by left | by right]).
  - cbn [step]. destruct (reconnect_then w); simpl; lia.
  - destruct (step_quiet w e He) as (_ & _ & Q3). lia.
Qed.

Lemma statehandler_run es : ∀ w,
  Inv w → (statehandler w ≤ statehandler (run w es))%nat.
Proof.
  induction es as [|e es IH]; intros w HI; [done|].
  cbn [run foldl]. change (foldl step (step w e) es) with (run (step w e) es).
  pose proof (statehandler_step w e HI). pose proof (IH _ (Inv_step w e HI)). lia.
Qed.

(** When the reconnect requested after a kernel restart completes, the
    widget displays NotAttached and starts with an empty registry, while
    every comm stays as it was (none is closed).  The callbacks of a comm
    created before the reset keep the registry they captured: whatever
    happens after the reset, the open acknowledgement or the close of
    such a comm changes no entry of the registry then in use. *)
Theorem reset_discards_sessions (w : World) (es : list Event) :
  reachable w → reconnect_then w ≠ 0 →
  currentState (step w Reconnected) = st_notattached
  ∧ comms (step w Reconnected) = comms w
  ∧ (∀ D, session (step w Reconnected) D = None)
  ∧ (∀ c D, session (step (step w Reconnected) (OpenDone c)) D = None
            ∧ session (step (step w Reconnected) (CommClose c)) D = None)
  ∧ (∀ c nc, comms w !! c = Some nc →
       ∃ nc', comms (run (step w Reconnected) es) !! c = Some nc'
         ∧ notebook nc' = notebook nc
         ∧ registry (comm nc') = registry (comm nc)
         ∧ ∀ D, session (step (run (step w Reconnected) es) (OpenDone c)) D
                = session (run (step w Reconnected) es) D
                ∧ session (step (run (step w Reconnected) es) (CommClose c)) D
                  = session (run (step w Reconnected) es) D).
Proof.
  intros Hr Hk. pose proof (reachable_registry_bound w Hr) as Hb.
  destruct (reachable_Inv w Hr) as (I0 & _ & _).
  assert (Hnone : ∀ D, session (step w Reconnected) D = None).
  { intros D. pose proof (session_step w Reconnected D) as H. cbv beta iota in H.
    by destruct (reconnect_then w). }
  assert (Hsh : statehandler (step w Reconnected) = length (handlers w)
                ∧ comms (step w Reconnected) = comms w
                ∧ currentState (step w Reconnected) = st_notattached).
  { cbn [step]. by destruct (reconnect_then w). }
  destruct Hsh as (Hsh & Hcomms & Hst).
  split; [done|]. split; [done|]. split; [done|]. split.
  - intros c D. split.
    + pose proof (session_step (step w Reconnected) (OpenDone c) D) as H.
      cbv beta iota in H. rewrite Hcomms in H.
      destruct (comms w !! c) as [nc|] eqn:Hc; [|by rewrite H].
      rewrite decide_False in H; [by rewrite H|].
      intros (_ & Hreg & _). specialize (Hb c nc Hc). lia.
    + pose proof (session_step (step w Reconnected) (CommClose c) D) as H.
      cbv beta iota in H. rewrite Hcomms in H.
      destruct (comms w !! c) as [nc|] eqn:Hc; [|by rewrite H].
      by case_decide; rewrite H.
  - intros c nc Hc.
    assert (Hc0 : comms (step w Reconnected) !! c = Some nc) by by rewrite Hcomms.
    destruct (comm_kept_run es (step w Reconnected) c nc Hc0) as (nc' & Hc' & Hn & Hreg).
    pose proof (statehandler_run es (step w Reconnected)
                  (Inv_step w Reconnected (reachable_Inv w Hr))) as Hmono.
    pose proof (Hb c nc Hc) as Hle.
    exists nc'. split; [done|]. split; [done|]. split; [done|].
    intros D. split.
    + pose proof (session_step (run (step w Reconnected) es) (OpenDone c) D) as H.
      cbv beta iota in H. rewrite Hc' in H.
      rewrite decide_False in H; [done|].
      intros (_ & Hreg' & _). lia.
    + pose proof (session_step (run (step w Reconnected) es) (CommClose c) D) as H.
      cbv beta iota in H. rewrite Hc' in H.
      rewrite decide_False in H; [done|].
      intros (Hreg' & _). lia.
Qed.

Lemma reset_discards_sessions_witness :
  currentState (step w_restarting Reconnected) = st_notattached
  ∧ session (step (run (step w_restarting Reconnected) reattach) (CommClose 0)) "D"
    = Some 1.
Proof.
  destruct (reset_discards_sessions w_restarting reattach) as (H1 & _ & _ & _ & H5).
  - unfold w_restarting. apply reachable_run.
  - vm_compute. discriminate.
  - split; [exact H1|].
    destruct (H5 0 nc_restarting) as (nc' & _ & _ & _ & H); [vm_compute; reflexivity|].
    rewrite (proj2 (H "D")). vm_compute. reflexivity.
Defined.

(** ** The registry operations *)

Lemma states_of_alter f this i w w' :
  handlers w' = alter f i (handlers w) →
  StateHandler.states_of this w'
  = if decide (i = this)
    then match handlers w !! this with Some m => f m | None => ∅ end
    else StateHandler.states_of this w.
Proof.
  intros Hh. unfold StateHandler.states_of. rewrite Hh, list_lookup_alter.
  case_decide as E; [subst i|done]. by destruct (handlers w !! this).
Qed.

(** The registry as a map: [close] removes the entry of its document
    only, and only in its own registry; closing twice is closing once;
    [clear] removes every entry; [create] adds none; the continuation of
    the open acknowledgement adds the entry of the bundle's document, and
    [open] then finds it, returning the bundle only if its comm is
    disposed. *)
Theorem registry_operations (this : nat) (w : World) (D D' : string) :
  StateHandler.has this D (StateHandler.close this D w) = false
  ∧ (D' ≠ D →
     StateHandler.has this D' (StateHandler.close this D w) = StateHandler.has this D' w)
  ∧ (∀ other, other ≠ this →
     StateHandler.has this D' (StateHandler.close other D w) = StateHandler.has this D' w)
  ∧ StateHandler.close this D (StateHandler.close this D w) = StateHandler.close this D w
  ∧ StateHandler.has this D (StateHandler.clear this w) = false
  ∧ StateHandler.has this D (snd (StateHandler.create this D' w)) = StateHandler.has this D w
  ∧ (∀ c nc, comms w !! c = Some nc → this < length (handlers w) →
       registry (comm nc) = this → notebook nc = D →
       StateHandler.has this D (StateHandler.create_done c nc w) = true
       ∧ StateHandler.open this D (StateHandler.create_done c nc w)
         = Some (if isDisposed (comm nc) then Some c else None)).
Proof.
  unfold StateHandler.has, StateHandler.open.
  split; [|split; [|split; [|split; [|split; [|split]]]]].
  - rewrite (states_of_alter (delete D) this this w (StateHandler.close this D w)
               eq_refl), decide_True by done.
    apply bool_decide_eq_false_2. intros [x Hx].
    destruct (handlers w !! this); [by rewrite lookup_delete_eq in Hx|done].
  - intros Hne.
    rewrite (states_of_alter (delete D) this this w (StateHandler.close this D w)
               eq_refl), decide_True by done.
    unfold StateHandler.states_of.
    destruct (handlers w !! this); [|done]. simpl. by rewrite lookup_delete_ne.
  - intros other Hne.
    by rewrite (states_of_alter (delete D) this other w (StateHandler.close other D w)
                  eq_refl), decide_False.
  - unfold StateHandler.close. simpl. unfold set_handlers. simpl. f_equal.
    rewrite list_alter_alter_eq. apply list_alter_ext; [|done].
    intros m _. simpl. apply delete_delete_eq.
  - rewrite (states_of_alter (λ _, ∅) this this w (StateHandler.clear this w)
               eq_refl), decide_True by done.
    apply bool_decide_eq_false_2. intros [x Hx]. by destruct (handlers w !! this).
  - done.
  - intros c nc Hc Hlt Hreg HD.
    rewrite (states_of_alter (insert (notebook nc) c) this (registry (comm nc)) w
               (StateHandler.create_done c nc w) eq_refl), decide_True by done.
    destruct (lookup_lt_is_Some_2 (handlers w) this Hlt) as [m Hm].
    rewrite Hm, HD, lookup_insert_eq. simpl. rewrite Hc.
    split; [done|]. by destruct (isDisposed (comm nc)).
Qed.

(** ** The saved configuration of one document *)

(** Reading the configuration after writing it returns what was written;
    the last write wins; the write touches no other metadata key and
    nothing else of the document. *)
Theorem saved_configuration_store (n : Notebook) (C C' : JSON) (key : string) :
  getCurrentConfigFromNotebook (setCurrentConfigToNotebook C n) = C
  ∧ setCurrentConfigToNotebook C' (setCurrentConfigToNotebook C n)
    = setCurrentConfigToNotebook C' n
  ∧ (key ≠ "sparkconnect" →
     metadata (setCurrentConfigToNotebook C n) !! key = metadata n !! key)
  ∧ title (setCurrentConfigToNotebook C n) = title n
  ∧ connectionStatus (setCurrentConfigToNotebook C n) = connectionStatus n.
Proof.
  unfold getCurrentConfigFromNotebook, setCurrentConfigToNotebook,
    metadata_has, metadata_get, metadata_set. simpl.
  repeat split.
  - by rewrite lookup_insert_eq.
  - unfold set_metadata. simpl. by rewrite insert_insert_eq.
  - intros Hne. by rewrite lookup_insert_ne.
Qed.

Lemma focus_slots_accumulate_witness :
  currentChanged w_restarting = 1 ∧ currentChanged w_reset = 2.
Proof.
  destruct (focus_slots_accumulate w_restarting) as (H1 & _ & H3).
  - unfold w_restarting. apply reachable_run.
  - split; [reflexivity|]. unfold w_reset. rewrite H3; [reflexivity|].
    vm_compute. discriminate.
Defined.

Lemma registry_operations_witness :
  StateHandler.has 0 "D" w_created = false
  ∧ StateHandler.has 0 "D" (StateHandler.create_done 0 (fresh_comm "D" 0) w_created)
    = true
  ∧ StateHandler.has 0 "D"
      (StateHandler.close 0 "D"
         (StateHandler.create_done 0 (fresh_comm "D" 0) w_created)) = false.
Proof.
  destruct (registry_operations 0 w_created "D" "D") as (_ & _ & _ & _ & _ & _ & H).
  destruct (registry_operations 0
              (StateHandler.create_done 0 (fresh_comm "D" 0) w_created) "D" "D")
    as (H1 & _).
  split; [reflexivity|]. split; [|exact H1].
  apply (H 0 (fresh_comm "D" 0)); [reflexivity|vm_compute; lia|reflexivity..].
Defined.

Lemma saved_configuration_store_witness :
  metadata (setCurrentConfigToNotebook cfg_demo (panels w_created "D")) !! "kernelspec"
  = metadata (panels w_created "D") !! "kernelspec".
Proof.
  destruct (saved_configuration_store (panels w_created "D") cfg_demo cfg_demo
              "kernelspec") as (_ & _ & H & _).
  apply H. discriminate.
Defined.

(** ** What goes out on a comm *)

Lemma action_message_has_name m : action_message m → has_action_name m = true.
Proof. by intros [[cm ->]|[->| ->]]. Qed.

Lemma outbox_ok_send m nc :
  action_message m → outbox_ok nc → outbox_ok (record_send m nc).
Proof.
  intros Hm (sends & Hs & Hf). exists (sends ++ [m]). simpl.
  rewrite Hs, fmap_app. split; [done|].
  apply Forall_app. split; [done|]. by constructor.
Qed.

#[local] Instance keeps_outbox_preorder : PreOrder keeps_outbox.
Proof. split; [by intros w H | intros a b c H1 H2 H; auto]. Qed.

Ltac outbox_leaf :=
  first
    [ by intros ?
    | intros H; apply Forall_alter; [exact H|]; intros ? _ Hq;
      first [ exact Hq
            | apply outbox_ok_send; [|exact Hq];
              first [ left; by eexists | right; by left | right; by right ] ]
    | intros H; apply Forall_app; split; [exact H|];
      repeat constructor; by exists [] ].

Lemma step_keeps_outbox w e : keeps_outbox w (step w e).
Proof.
  destruct e as [nb|nb|nb status|c|c|c data|c m|c|c|nb status|]; cbn [step].
  - etransitivity; [|apply (rel_iter keeps_outbox)]; [repeat walk outbox_leaf|].
    intros w'. unfold onCurrentChanged. cbv zeta. repeat walk outbox_leaf.
  - unfold onReady. cbv zeta. repeat walk outbox_leaf.
  - etransitivity; [|apply (rel_iter keeps_outbox)]; [repeat walk outbox_leaf|].
    intros w'. unfold onConnectionStatusChanged. repeat walk outbox_leaf.
  - repeat walk outbox_leaf.
  - repeat walk outbox_leaf.
  - destruct (comms w !! c) as [nc|]; [|reflexivity]. unfold onMsg.
    destruct (currentWidget w); [|reflexivity].
    destruct (negb _); [reflexivity|].
    unfold onCommMessage. cbv zeta. repeat walk outbox_leaf.
  - destruct (comms w !! c) as [nc|]; [|reflexivity].
    apply (rel_foldl keeps_outbox). intros w' slot.
    unfold onConnect_slot. cbv zeta. repeat walk outbox_leaf.
  - destruct (comms w !! c) as [nc|]; [|reflexivity].
    apply (rel_iter keeps_outbox). intros w'.
    unfold connected_onReconfigure_slot. cbv zeta. repeat walk outbox_leaf.
  - destruct (comms w !! c) as [nc|]; [|reflexivity].
    apply (rel_iter keeps_outbox). intros w'.
    unfold connectfailed_onReconfigure_slot. cbv zeta. repeat walk outbox_leaf.
  - apply (rel_iter keeps_outbox). intros w'. unfold onStatusChanged.
    repeat walk outbox_leaf.
  - repeat walk outbox_leaf.
Qed.

Lemma run_keeps_outbox es : ∀ w, keeps_outbox w (run w es).
Proof.
  induction es as [|e es IH]; intros w H0; [done|].
  apply IH, step_keeps_outbox, H0.
Qed.

(** In every reachable world, what went out on a comm is the open
    handshake followed only by sends of the connect action or of one of
    the two disconnect messages, in particular every outbound message
    names an action; no other message is ever put on a comm. *)
Theorem outbox_shape (w : World) (c : nat) (nc : NotebookComm) :
  reachable w → comms w !! c = Some nc →
  outbox_ok nc
  ∧ Forall (λ o, has_action_name (payload o) = true) (sent (comm nc)).
Proof.
  intros (current & docs & es & ->) Hc.
  assert (H : Forall outbox_ok (comms (run (constructor current docs) es))).
  { apply run_keeps_outbox. constructor. }
  pose proof (Forall_lookup_1 _ _ _ _ H Hc) as Hnc. split; [exact Hnc|].
  destruct Hnc as (sends & -> & Hf). constructor; [done|].
  apply Forall_fmap. eapply Forall_impl; [|exact Hf].
  intros m Hm. simpl. by apply action_message_has_name.
Qed.

Lemma outbox_shape_witness :
  Forall (λ o, has_action_name (payload o) = true)
         [CommOpen msg_open; CommSend msg_disconnect_connectfailed].
Proof.
  destruct (outbox_shape w_failed 0
              (default nc_registered (comms w_failed !! 0))) as [_ H].
  - unfold w_failed, w_created. repeat apply reachable_step.
    apply (reachable_run _ _ []).
  - vm_compute. reflexivity.
  - exact H.
Defined.

(** ** The displayed phase and the focus *)

#[local] Instance calm_preorder : PreOrder calm.
Proof.
  split; [by split; [|left]|].
  intros a b c [H1 H2] [H3 H4]. split; [congruence|].
  destruct H4 as [H4|[H4|H4]]; [|by right; left|by right; right].
  rewrite H4. exact H2.
Qed.

Ltac calm_leaf := split; simpl; auto.

(** Every event but a focus change, a message and the connect action
    keeps the focus and the displayed phase, or falls back to Loading or
    NotAttached. *)
Lemma step_calm w e :
  match e with
  | CurrentChanged _ | CommMsg _ _ | EmitConnect _ _ => True
  | _ => calm w (step w e)
  end.
Proof.
  destruct e as [nb|nb|nb status|c|c|c data|c m|c|c|nb status|]; cbn [step];
    try exact I.
  - unfold onReady. cbv zeta. repeat walk calm_leaf.
  - etransitivity; [|apply (rel_iter calm)]; [repeat walk calm_leaf|].
    intros w'. unfold onConnectionStatusChanged. repeat walk calm_leaf.
  - repeat walk calm_leaf.
  - repeat walk calm_leaf.
  - destruct (comms w !! c) as [nc|]; [|reflexivity].
    apply (rel_iter calm). intros w'.
    unfold connected_onReconfigure_slot. cbv zeta. repeat walk calm_leaf.
  - destruct (comms w !! c) as [nc|]; [|reflexivity].
    apply (rel_iter calm). intros w'.
    unfold connectfailed_onReconfigure_slot. cbv zeta. repeat walk calm_leaf.
  - apply (rel_iter calm). intros w'. unfold onStatusChanged. repeat walk calm_leaf.
  - repeat walk calm_leaf.
Qed.

Lemma comm_persists w e c nc :
  comms w !! c = Some nc →
  ∃ nc', comms (step w e) !! c = Some nc' ∧ notebook nc' = notebook nc.
Proof.
  intros Hc. destruct (touches_sessions e) eqn:Ht.
  2: { destruct (step_frame w e Ht) as (Hf & _).
       destruct (Forall2_lookup_l _ _ _ _ _ Hf Hc) as (nc' & Hc' & (Hn & _)).
       by exists nc'. }
  destruct e as [nb|nb|nb status|c0|c0|c0 data|c0 m|c0|c0|nb status|];
    try discriminate Ht; cbn [step].
  - destruct status; try discriminate Ht.
    + destruct (connected_iter nb (connectionStatusChanged (panels w nb))
                  (upd_panel nb (set_connectionStatus cs_connected) w)) as (H1 & _).
      rewrite H1. exists nc. split; [|done]. by apply lookup_app_l_Some.
    + destruct (closing_iter nb (connectionStatusChanged (panels w nb))
                  (upd_panel nb (set_connectionStatus cs_connecting) w))
        as (_ & _ & H3 & _).
      rewrite H3. by exists nc.
  - destruct (comms w !! c0) as [nc0|] eqn:Hc0; [|by exists nc].
    destruct (open_done (comm nc0)); [by exists nc|].
    simpl. rewrite list_lookup_alter. case_decide as E; [|by exists nc].
    subst c0. rewrite Hc. simpl. by eexists.
  - destruct (comms w !! c0) as [nc0|] eqn:Hc0; [|by exists nc].
    simpl. rewrite list_lookup_alter. case_decide as E; [|by exists nc].
    subst c0. rewrite Hc. simpl. by eexists.
  - destruct (reconnect_then w); by exists nc.
Qed.

Lemma unfocused_message w c nc data :
  comms w !! c = Some nc → currentWidget w ≠ Some (notebook nc) →
  step w (CommMsg c data) = w.
Proof.
  intros Hc Hf. simpl. rewrite Hc. unfold onMsg.
  destruct (currentWidget w) as [id|]; [|done].
  destruct (String.eqb_spec id (notebook nc)) as [->|Hne]; [|done]. done.
Qed.

Lemma onCommMessage_display data c nc w :
  currentWidget (onCommMessage data c nc w) = currentWidget w
  ∧ (currentState (onCommMessage data c nc w) = currentState w
     ∨ bundle_of (currentState (onCommMessage data c nc w)) = Some c).
Proof. unfold onCommMessage. cbv zeta. repeat case_match; simpl; auto. Qed.

#[local] Instance connecting_or_same_preorder c : PreOrder (connecting_or_same c).
Proof.
  split; [by split; [|left]|].
  intros x y z [H1 H2] [H3 H4]. split; [congruence|].
  destruct H4 as [H4|H4]; [|by right]. rewrite H4. exact H2.
Qed.

Lemma emit_connect_calm c m slots w :
  connecting_or_same c w (foldl (onConnect_slot c m) w slots).
Proof.
  apply (rel_foldl (connecting_or_same c)). intros w' slot.
  destruct (comms w' !! c) as [nc|] eqn:Hc.
  - rewrite (onConnect_slot_unfold c m w' slot nc Hc).
    destruct (isDisposed (comm nc)); split; simpl; auto.
  - unfold onConnect_slot. rewrite Hc. reflexivity.
Qed.

Lemma displays_focused_step w e :
  slots_inv w → on_display w e → displays_focused w → displays_focused (step w e).
Proof.
  intros [Hs1 Hs2] Hon HJ.
  assert (Hkeep : currentWidget (step w e) = currentWidget w →
                  currentState (step w e) = currentState w
                  ∨ bundle_of (currentState (step w e)) = None →
                  displays_focused (step w e)).
  { intros Hw [Hst|Hst] c' Hb; [|congruence].
    rewrite Hst in Hb. destruct (HJ c' Hb) as (nc & Hc & Hf).
    destruct (comm_persists w e c' nc Hc) as (nc' & Hc' & Hn).
    exists nc'. split; [done|]. congruence. }
  pose proof (step_calm w e) as Hcalm.
  destruct e as [nb|nb|nb status|c|c|c data|c m|c|c|nb status|];
    cbv beta iota in Hcalm;
    try (lazymatch type of Hcalm with calm _ _ => idtac end;
         destruct Hcalm as [Hw [Hst|[Hst|Hst]]];
         (apply Hkeep; [done | first [by left | right; by rewrite Hst]])).
  - (* focus change *)
    cbn [step].
    destruct (focus_iter nb (currentChanged w) (set_currentWidget nb w))
      as (_ & _ & _ & _ & F5 & _).
    intros c' Hb. rewrite F5 in Hb.
    destruct (currentChanged w) eqn:E; [lia|]. by destruct nb.
  - (* message *)
    destruct (comms w !! c) as [nc|] eqn:Hc;
      [|apply Hkeep; cbn [step]; rewrite Hc; auto].
    destruct (decide (currentWidget w = Some (notebook nc))) as [Hf|Hf].
    2: { rewrite (unfocused_message w c nc data Hc Hf). exact HJ. }
    destruct (onCommMessage_display data c nc w) as [Hw Hst].
    rewrite <- (focused_message w c nc data Hc Hf) in Hw, Hst.
    destruct Hst as [Hst|Hst]; [apply Hkeep; auto|].
    intros c' Hb. assert (c' = c) as -> by congruence.
    destruct (comm_persists w (CommMsg c data) c nc Hc) as (nc' & Hc' & Hn).
    exists nc'. split; [done|]. congruence.
  - (* connect action *)
    simpl in Hon.
    destruct (comms w !! c) as [nc|] eqn:Hc;
      [|apply Hkeep; cbn [step]; rewrite Hc; auto].
    destruct (emit_connect_calm c m (onConnect (configuring (states nc))) w)
      as [Hw Hst].
    assert (Hstep : step w (EmitConnect c m)
                    = foldl (onConnect_slot c m) w (onConnect (configuring (states nc))))
      by (cbn [step]; by rewrite Hc).
    rewrite <- Hstep in Hw, Hst.
    destruct Hst as [Hst|Hst]; [apply Hkeep; auto|].
    intros c' Hb. rewrite Hst in Hb. injection Hb as <-.
    destruct (HJ c) as (nc0 & Hc0 & Hf); [by rewrite Hon|].
    destruct (comm_persists w (EmitConnect c m) c nc0 Hc0) as (nc' & Hc' & Hn).
    exists nc'. split; [done|]. congruence.
Qed.

Lemma displays_focused_run es : ∀ w,
  slots_inv w → displays_focused w → actions_on_display w es →
  displays_focused (run w es).
Proof.
  induction es as [|e es IH]; intros w Hs HJ Ha; [done|].
  destruct Ha as [He Ha]. apply IH; [by apply slots_inv_step| |done].
  by apply displays_focused_step.
Qed.

(** As long as user actions fire on the phase that is on display, a
    displayed phase of a bundle (Configuring, Connecting, Connected,
    ConnectFailed) always belongs to a bundle of the focused document:
    a focus change replaces it by Loading or NotAttached, and messages
    of other documents are dropped. *)
Theorem displayed_phase_of_focused_document current docs (es : list Event) :
  actions_on_display (constructor current docs) es →
  displays_focused (run (constructor current docs) es).
Proof.
  intros Ha. apply displays_focused_run; [done| |done]. by intros c Hc.
Qed.

Lemma displayed_phase_of_focused_document_witness :
  displays_focused
    (run (constructor None docs_demo)
         (attach "D" ++ [CommMsg 0 msg_config; EmitConnect 0 connect_demo])).
Proof.
  apply (displayed_phase_of_focused_document None docs_demo
           (attach "D" ++ [CommMsg 0 msg_config; EmitConnect 0 connect_demo])).
  vm_compute. repeat split.
Defined.

(** ** Kernel status *)

Lemma restarting_iter nb n w :
  reconnect_calls (panels (Nat.iter n (onStatusChanged nb ks_restarting) w) nb)
  = reconnect_calls (panels w nb) + n
  ∧ reconnect_then (Nat.iter n (onStatusChanged nb ks_restarting) w)
    = reconnect_then w + n
  ∧ comms (Nat.iter n (onStatusChanged nb ks_restarting) w) = comms w
  ∧ handlers (Nat.iter n (onStatusChanged nb ks_restarting) w) = handlers w
  ∧ currentState (Nat.iter n (onStatusChanged nb ks_restarting) w) = currentState w
  ∧ currentChanged (Nat.iter n (onStatusChanged nb ks_restarting) w) = currentChanged w.
Proof.
  induction n as [|n (H1 & H2 & H3 & H4 & H5 & H6)];
    [simpl; repeat split; lia|].
  simpl. rewrite fn_lookup_insert. simpl. repeat split; first [done | lia].
Qed.

(** A kernel status other than 'restarting' changes nothing.  The status
    'restarting' requests one transport reconnect per slot on the
    kernel's [statusChanged] (one slot per connected message handled for
    the document) and queues as many resets; until a reconnect completes,
    the displayed phase, the comms and the registries stay as they are. *)
Theorem kernel_status_effect (w : World) (D : string) (status : KernelStatus) :
  (status ≠ ks_restarting → step w (StatusChanged D status) = w)
  ∧ reconnect_calls (panels (step w (StatusChanged D ks_restarting)) D)
    = reconnect_calls (panels w D) + statusChanged (panels w D)
  ∧ reconnect_then (step w (StatusChanged D ks_restarting))
    = reconnect_then w + statusChanged (panels w D)
  ∧ comms (step w (StatusChanged D ks_restarting)) = comms w
  ∧ handlers (step w (StatusChanged D ks_restarting)) = handlers w
  ∧ currentState (step w (StatusChanged D ks_restarting)) = currentState w.
Proof.
  split.
  - intros Hs. cbn [step]. generalize (statusChanged (panels w D)).
    intros n. induction n as [|n IH]; [done|]. simpl. rewrite IH.
    unfold onStatusChanged. by destruct status.
  - cbn [step].
    destruct (restarting_iter D (statusChanged (panels w D)) w)
      as (H1 & H2 & H3 & H4 & H5 & _).
    by rewrite H1, H2, H3, H4, H5.
Qed.

Lemma kernel_status_effect_witness :
  step w_restarting (StatusChanged "D" ks_busy) = w_restarting.
Proof.
  destruct (kernel_status_effect w_restarting "D" ks_busy) as [H _].
  apply H. discriminate.
Defined.
